(** * file_structure: indented directory layouts, parsed and reconciled

    A shallow embedding of [src/file_structure.py]: the helpers on strings
    and paths, the two command enumerations with their [run] methods, the
    [FileStructure] constructor (the indentation-driven parser), [do] (the
    command engine), the two accessors [__getitem__] and [__truediv__], and
    the texts [__str__], [_repr_simple] and [__repr__].

    Conventions of the embedding.
    - A Python [str] is a list of characters; texts are ASCII.
    - A raised exception is a value [Raise e]; every function that can raise
      returns a [result].
    - [pathlib.Path] is the pure POSIX path: a root and the list of the
      components after it.
    - The file system and the terminal are a [World]: a finite map from paths
      to entries, and the lines still to be read from standard input.  Code
      that touches them is a function [World -> World * result _].
    - A [FileStructure] object is a value; [do], which sets [commands_run] on
      the object and on the nested objects, returns the updated value.  The
      dictionary [dict_dir] holds references to the objects of [list_dir]: it
      maps a name to a position in [list_dir]. *)

From Stdlib Require Import ZArith Ascii String Lia.
From stdpp Require Import gmap strings list fin_maps.

Local Open Scope Z_scope.

(** * Python strings *)

Abbreviation str := (list ascii).
Coercion list_ascii_of_string : string >-> list.

Module Py.

(** [str.isspace] on the ASCII range: TAB..CR, FS..US and the blank. *)
Definition isspace (c : ascii) : bool :=
  let n := nat_of_ascii c in
  ((9 <=? n)%nat && (n <=? 13)%nat) || ((28 <=? n)%nat && (n <=? 32)%nat).

Fixpoint lstrip (s : str) : str :=
  match s with
  | c :: s' => if isspace c then lstrip s' else s
  | [] => []
  end.

Definition rstrip (s : str) : str := rev (lstrip (rev s)).

Definition strip (s : str) : str := lstrip (rstrip s).

Fixpoint startswith (s pre : str) : bool :=
  match pre, s with
  | [], _ => true
  | p :: pre', c :: s' => bool_decide (c = p) && startswith s' pre'
  | _ :: _, [] => false
  end.

Definition endswith (s suf : str) : bool := startswith (rev s) (rev suf).

(** [c in s] for a one-character [c]. *)
Definition contains (c : ascii) (s : str) : bool := bool_decide (c ∈ s).

(** [s.find(c)]: the first position of [c]. *)
Fixpoint find (c : ascii) (s : str) : option nat :=
  match s with
  | [] => None
  | d :: s' => if decide (d = c) then Some 0%nat else S <$> find c s'
  end.

(** [s.rfind(c)]: the last position of [c]. *)
Definition rfind (c : ascii) (s : str) : option nat :=
  (λ i, length s - 1 - i)%nat <$> find c (rev s).

(** [s.replace(c, d)] for one-character [c] and [d]. *)
Definition replace (c d : ascii) (s : str) : str :=
  (λ x, if decide (x = c) then d else x) <$> s.

(** [s.split(c)] for a one-character separator: never empty. *)
Fixpoint split (c : ascii) (s : str) : list str :=
  match s with
  | [] => [[]]
  | d :: s' =>
      if decide (d = c) then [] :: split c s'
      else match split c s' with
           | l :: ls => (d :: l) :: ls
           | [] => [[d]]
           end
  end.

(** [sep.join(ls)]. *)
Fixpoint join (sep : str) (ls : list str) : str :=
  match ls with
  | [] => []
  | [l] => l
  | l :: ls' => l ++ sep ++ join sep ls'
  end.

Definition lower_char (c : ascii) : ascii :=
  let n := nat_of_ascii c in
  if ((65 <=? n)%nat && (n <=? 90)%nat) then ascii_of_nat (n + 32) else c.

Definition lower (s : str) : str := lower_char <$> s.

(** The line boundaries of [str.splitlines] on the ASCII range:
    LF, VT, FF, CR, FS, GS, RS; CR LF counts as one boundary. *)
Definition is_linebreak (c : ascii) : bool :=
  let n := nat_of_ascii c in
  ((10 <=? n)%nat && (n <=? 13)%nat) || ((28 <=? n)%nat && (n <=? 30)%nat).

(** The pieces between line boundaries, the last one included even when
    empty. *)
Fixpoint pieces (s : str) : list str :=
  match s with
  | [] => [[]]
  | c :: s' =>
      if is_linebreak c then
        if decide (c = "013"%char ∧ head s' = Some "010"%char) then pieces s'
        else [] :: pieces s'
      else match pieces s' with
           | l :: ls => (c :: l) :: ls
           | [] => [[c]]
           end
  end.

(** [s.splitlines()]: a text that ends with a line boundary (or is empty)
    has no empty last line. *)
Definition splitlines (s : str) : list str :=
  let ps := pieces s in
  if decide (last ps = Some []) then take (length ps - 1)%nat ps else ps.

(** The text ["\n"]. *)
Definition newline : str := ["010"%char].

(** [len(line) - len(line.lstrip())] *)
Definition num_leading (line : str) : Z :=
  Z.of_nat (length line) - Z.of_nat (length (lstrip line)).

End Py.

(** * Exceptions and results *)

Inductive exn : Set :=
| AssertionError | KeyError | IndexError | ValueError | TypeError
| SystemExit | EOFError
| FileExistsError | FileNotFoundError | NotADirectoryError | IsADirectoryError
| OSError
| OutOfFuel.  (* not a Python exception: the model's recursion budget ran out *)

Inductive result (A : Type) : Type :=
| Ok (a : A)
| Raise (e : exn).
Arguments Ok {A} a.
Arguments Raise {A} e.

#[global] Instance result_ret : MRet result := λ A a, Ok a.
#[global] Instance result_bind : MBind result := λ A B f m,
  match m with Ok a => f a | Raise e => Raise e end.

Definition assert (b : bool) : result unit :=
  if b then Ok () else Raise AssertionError.

Definition is_Ok {A} (r : result A) : Prop :=
  match r with Ok _ => True | Raise _ => False end.

(** * pathlib.Path (pure POSIX paths) *)

Record Path : Set := MkPath { root : str; parts : list str }.

#[global] Instance Path_eq_dec : EqDecision Path.
Proof. solve_decision. Defined.

#[global] Instance Path_countable : Countable Path.
Proof.
  refine (inj_countable' (λ p, (root p, parts p)) (λ x, MkPath x.1 x.2) _).
  intros []. reflexivity.
Defined.

(** [Path(s)]: one leading slash or three and more give the root [/], exactly
    two give [//]; empty components and [.] are dropped. *)
Definition Path_of_str (s : str) : Path :=
  let r : str :=
    if Py.startswith s "/" then
      if Py.startswith s "//" && negb (Py.startswith s "///") then "//" else "/"
    else "" in
  MkPath r (filter (λ x : str, x ≠ [] ∧ x ≠ ".") (Py.split "/" s)).

(** [str(p)] *)
Definition Path_str (p : Path) : str :=
  match root p, parts p with
  | [], [] => "."
  | r, ps => r ++ Py.join "/" ps
  end.

(** [p / s]: an absolute [s] replaces [p]. *)
Definition Path_div (p : Path) (s : str) : Path :=
  let q := Path_of_str s in
  if decide (root q = []) then MkPath (root p) (parts p ++ parts q) else q.

Infix "//" := Path_div (at level 40, left associativity).

(** * The file system and the terminal *)

Inductive entry : Set :=
| Dir
| File (content : str).

#[global] Instance entry_eq_dec : EqDecision entry.
Proof. solve_decision. Defined.

Record World : Type := MkWorld {
  disk : gmap Path entry;   (* what is on disk, by path *)
  stdin : list str          (* the lines [input] will read *)
}.

Definition IO (A : Type) : Type := World → World * result A.

#[global] Instance IO_ret : MRet IO := λ A a w, (w, Ok a).
#[global] Instance IO_bind : MBind IO := λ A B f m w,
  match m w with
  | (w', Ok a) => f a w'
  | (w', Raise e) => (w', Raise e)
  end.

Definition raise {A} (e : exn) : IO A := λ w, (w, Raise e).
Definition lift {A} (r : result A) : IO A := λ w, (w, r).
Definition set_disk (d : gmap Path entry) : IO unit :=
  λ w, (MkWorld d (stdin w), Ok ()).

(** [for x in xs: body(x)] *)
Fixpoint for_each {A} (xs : list A) (body : A → IO unit) : IO unit :=
  match xs with
  | [] => mret ()
  | x :: xs' => body x;; for_each xs' body
  end.

(** The root and the working directory (the paths without components) are
    directories that are always there; the other paths are looked up. *)
Definition entry_at (d : gmap Path entry) (p : Path) : option entry :=
  if decide (parts p = []) then Some Dir else d !! p.

(** [q] lies strictly below [p]. *)
Definition below (p q : Path) : Prop :=
  root q = root p ∧ parts p `prefix_of` parts q ∧ parts p ≠ parts q.

#[global] Instance below_dec p q : Decision (below p q).
Proof. unfold below. apply _. Defined.

Definition parent (p : Path) : Path :=
  MkPath (root p) (take (length (parts p) - 1)%nat (parts p)).

(** The proper ancestors of [p] that have a component, outermost first. *)
Definition ancestors (p : Path) : list Path :=
  (λ i, MkPath (root p) (take i (parts p))) <$> seq 1 (length (parts p) - 1).

(** The name of [q] when [q] is an entry directly under [p]. *)
Definition child_name (p q : Path) : option str :=
  if decide (root q = root p ∧ take (length (parts p)) (parts q) = parts p)
  then match drop (length (parts p)) (parts q) with
       | [n] => Some n
       | _ => None
       end
  else None.

Definition is_file (d : gmap Path entry) (p : Path) : bool :=
  match entry_at d p with
  | Some (File _) => true
  | _ => false
  end.

(** [path.exists()], [os.path.exists(path)] *)
Definition Path_exists (p : Path) : IO bool :=
  λ w, (w, Ok (bool_decide (is_Some (entry_at (disk w) p)))).

(** [path.is_dir()] *)
Definition Path_is_dir (p : Path) : IO bool :=
  λ w, (w, Ok (bool_decide (entry_at (disk w) p = Some Dir))).

(** [os.listdir(path)]: the names of the entries directly under [path]. *)
Definition os_listdir (p : Path) : IO (list str) := λ w,
  match entry_at (disk w) p with
  | Some Dir => (w, Ok (omap (child_name p) (elements (dom (disk w)))))
  | Some (File _) => (w, Raise NotADirectoryError)
  | None => (w, Raise FileNotFoundError)
  end.

(** [os.rmdir(path)] *)
Definition os_rmdir (p : Path) : IO unit :=
  names ← os_listdir p;
  if decide (names ≠ [] ∨ parts p = []) then raise OSError
  else λ w, (MkWorld (delete p (disk w)) (stdin w), Ok ()).

(** [os.remove(path)] *)
Definition os_remove (p : Path) : IO unit := λ w,
  match entry_at (disk w) p with
  | Some (File _) => (MkWorld (delete p (disk w)) (stdin w), Ok ())
  | Some Dir => (w, Raise IsADirectoryError)
  | None => (w, Raise FileNotFoundError)
  end.

(** [shutil.rmtree(path)]: everything below [path] goes, then [path]. *)
Definition shutil_rmtree (p : Path) : IO unit := λ w,
  match entry_at (disk w) p with
  | Some Dir =>
      let d := filter (λ kv, ¬ below p kv.1) (disk w) in
      if decide (parts p = []) then (MkWorld d (stdin w), Raise OSError)
      else (MkWorld (delete p d) (stdin w), Ok ())
  | Some (File _) => (w, Raise NotADirectoryError)
  | None => (w, Raise FileNotFoundError)
  end.

(** [os.makedirs(path)]: the missing ancestors are made as well. *)
Definition os_makedirs (p : Path) : IO unit := λ w,
  if decide (is_Some (entry_at (disk w) p)) then (w, Raise FileExistsError)
  else if existsb (is_file (disk w)) (ancestors p)
  then (w, Raise NotADirectoryError)
  else (MkWorld (foldr (λ q d, <[q:=Dir]> d) (disk w) (p :: ancestors p)) (stdin w),
        Ok ()).

(** [open(path, "w").close()]: an empty file, the old content is lost. *)
Definition open_w_close (p : Path) : IO unit := λ w,
  match entry_at (disk w) p with
  | Some Dir => (w, Raise IsADirectoryError)
  | _ =>
      match entry_at (disk w) (parent p) with
      | Some Dir => (MkWorld (<[p:=File []]> (disk w)) (stdin w), Ok ())
      | Some (File _) => (w, Raise NotADirectoryError)
      | None => (w, Raise FileNotFoundError)
      end
  end.

(** [input(...)]: the next line of standard input. *)
Definition input : IO str := λ w,
  match stdin w with
  | [] => (w, Raise EOFError)
  | l :: ls => (MkWorld (disk w) ls, Ok l)
  end.

(** * The helpers of the module *)

Definition _remove (path : Path) (prompt : bool) : IO unit :=
  is_dir ← Path_is_dir path;
  if is_dir : bool then
    names ← os_listdir path;
    if decide (length names = 0%nat) then os_rmdir path
    else if prompt then
      line ← input;
      let choice := Py.lower (Py.strip line) in
      if decide (choice = "" ∨ choice = "y") then shutil_rmtree path
      else raise SystemExit
    else mret ()
  else os_remove path.

(** [os.path.splitext(p)[1]]: the text from the last dot of the last
    component, unless only dots come before it in that component. *)
Definition splitext_ext (p : str) : str :=
  let sepIndex : Z := from_option Z.of_nat (-1) (Py.rfind "/" p) in
  let dotIndex : Z := from_option Z.of_nat (-1) (Py.rfind "." p) in
  if decide (dotIndex > sepIndex) then
    let before :=
      take (Z.to_nat (dotIndex - (sepIndex + 1))) (drop (Z.to_nat (sepIndex + 1)) p) in
    if decide (Exists (λ c, c ≠ "."%char) before) then drop (Z.to_nat dotIndex) p
    else []
  else [].

Definition _is_seemingly_dir (path : str) : bool :=
  bool_decide (splitext_ext path = []).

Definition _absent_but_create (path : Path) : IO unit :=
  ex ← Path_exists path;
  lift (assert (negb ex));;
  if _is_seemingly_dir (Path_str path) then os_makedirs path
  else open_w_close path.

Definition _present_but_remove (path : Path) (prompt : bool) : IO unit :=
  ex ← Path_exists path;
  lift (assert ex);;
  _remove path prompt.

Definition _remove_comments (lines : list str) : list str :=
  (λ line : str,
     match Py.find "#" line with
     | Some i => take i line
     | None => line
     end) <$> lines.

(** The two [while] loops of [_remove_empty_lines]; [lines[0]] and
    [lines[-1]] of an empty list raise [IndexError]. *)
Fixpoint drop_blank_head (lines : list str) : result (list str) :=
  match lines with
  | [] => Raise IndexError
  | l :: ls => if decide (Py.strip l = []) then drop_blank_head ls else Ok lines
  end.

Definition _remove_empty_lines (lines : list str) : result (list str) :=
  lines ← drop_blank_head lines;
  lines ← drop_blank_head (rev lines);
  mret (rev lines).

Definition _remove_trailing_slash_if_exists (s : str) : str :=
  if Py.endswith s "/" then take (length s - 1)%nat s else s.

(** The double quotation mark, by its code. *)
Definition double_quote : str := ["034"%char].

Definition _remove_enclosing_quotation_marks (s : str) : str :=
  let s := if Py.startswith s "'" || Py.startswith s double_quote then drop 1 s else s in
  if Py.endswith s "'" || Py.endswith s double_quote then take (length s - 1)%nat s else s.

(** * FileCommand *)

Inductive FileCommand : Set :=
| PRESENT                 (* "<0>" *)
| ABSENT                  (* "<1>" *)
| PRESENT_BUT_REMOVE      (* "<2>" *)
| PRESENT_BUT_RECREATE    (* "<3>" *)
| ABSENT_BUT_CREATE       (* "<4>" *)
| CREATE                  (* "<5>" *)
| CREATE_IF_ABSENT.       (* "<6>" *)

#[global] Instance FileCommand_eq_dec : EqDecision FileCommand.
Proof. solve_decision. Defined.

Definition FileCommand_value (c : FileCommand) : str :=
  match c with
  | PRESENT => "<0>"
  | ABSENT => "<1>"
  | PRESENT_BUT_REMOVE => "<2>"
  | PRESENT_BUT_RECREATE => "<3>"
  | ABSENT_BUT_CREATE => "<4>"
  | CREATE => "<5>"
  | CREATE_IF_ABSENT => "<6>"
  end.

Definition FileCommand_members : list FileCommand :=
  [PRESENT; ABSENT; PRESENT_BUT_REMOVE; PRESENT_BUT_RECREATE; ABSENT_BUT_CREATE;
   CREATE; CREATE_IF_ABSENT].

(** [command_dict[s]]: an unknown token is a [KeyError]. *)
Definition FileCommand_from_str (s : str) : result FileCommand :=
  match List.find (λ c, bool_decide (FileCommand_value c = s)) FileCommand_members with
  | Some c => Ok c
  | None => Raise KeyError
  end.

Definition FileCommand_run (file_command : FileCommand) (path : Path)
    (prompt : bool) : IO unit :=
  match file_command with
  | PRESENT =>
      ex ← Path_exists path; lift (assert ex)
  | ABSENT =>
      ex ← Path_exists path; lift (assert (negb ex))
  | PRESENT_BUT_REMOVE =>
      _present_but_remove path prompt
  | PRESENT_BUT_RECREATE =>
      _present_but_remove path prompt;;
      _absent_but_create path
  | ABSENT_BUT_CREATE =>
      _absent_but_create path
  | CREATE =>
      ex ← Path_exists path;
      (if ex : bool then _present_but_remove path prompt else mret ());;
      _absent_but_create path
  | CREATE_IF_ABSENT =>
      ex ← Path_exists path;
      if ex : bool then mret () else _absent_but_create path
  end.

(** * FileStructureCommand *)

Inductive FileStructureCommand : Set :=
| THAT_IS_ALL               (* "<<0>>" *)
| REMOVE_EVERYTHING_ELSE.   (* "<<1>>" *)

#[global] Instance FileStructureCommand_eq_dec : EqDecision FileStructureCommand.
Proof. solve_decision. Defined.

Definition FileStructureCommand_value (c : FileStructureCommand) : str :=
  match c with
  | THAT_IS_ALL => "<<0>>"
  | REMOVE_EVERYTHING_ELSE => "<<1>>"
  end.

Definition FileStructureCommand_from_str (s : str) : result FileStructureCommand :=
  match List.find (λ c, bool_decide (FileStructureCommand_value c = s))
          [THAT_IS_ALL; REMOVE_EVERYTHING_ELSE] with
  | Some c => Ok c
  | None => Raise KeyError
  end.

(** [all_files] and [everything_else] are Python sets of paths; the [for]
    loop visits [everything_else] in the order of [elements]. *)
Definition FileStructureCommand_run (file_structure_command : FileStructureCommand)
    (path : Path) (paths : list Path) (prompt : bool) : IO unit :=
  ex ← Path_exists path;
  if negb ex then mret ()
  else
    names ← os_listdir path;
    let all_files : gset Path := list_to_set ((λ filename, path // filename) <$> names) in
    let everything_else : gset Path := all_files ∖ list_to_set paths in
    match file_structure_command with
    | THAT_IS_ALL =>
        lift (assert (bool_decide (size everything_else = 0%nat)))
    | REMOVE_EVERYTHING_ELSE =>
        for_each (elements everything_else) (λ current_path, _remove current_path prompt)
    end.

(** * FileStructure: the data *)

(** An element of [list_dir] is a [Path] (an ordinary file) or a nested
    [FileStructure] (a directory); the values a variable of the source can
    hold where both are possible. *)
Inductive FileStructure : Type :=
| MkFileStructure
    (prompt : bool)
    (main_dir : Path)
    (main_dir_file_command : option FileCommand)
    (main_dir_file_structure_command : option FileStructureCommand)
    (list_dir : list PathOrFileStructure)
    (list_dir_file_commands : list (option FileCommand))
    (dict_dir : gmap str nat)
    (commands_run : bool)
with PathOrFileStructure : Type :=
| APath (p : Path)
| AFileStructure (s : FileStructure).

Definition prompt (self : FileStructure) : bool :=
  let 'MkFileStructure x _ _ _ _ _ _ _ := self in x.
Definition main_dir (self : FileStructure) : Path :=
  let 'MkFileStructure _ x _ _ _ _ _ _ := self in x.
Definition main_dir_file_command (self : FileStructure) : option FileCommand :=
  let 'MkFileStructure _ _ x _ _ _ _ _ := self in x.
Definition main_dir_file_structure_command (self : FileStructure)
    : option FileStructureCommand :=
  let 'MkFileStructure _ _ _ x _ _ _ _ := self in x.
Definition list_dir (self : FileStructure) : list PathOrFileStructure :=
  let 'MkFileStructure _ _ _ _ x _ _ _ := self in x.
Definition list_dir_file_commands (self : FileStructure) : list (option FileCommand) :=
  let 'MkFileStructure _ _ _ _ _ x _ _ := self in x.
Definition dict_dir (self : FileStructure) : gmap str nat :=
  let 'MkFileStructure _ _ _ _ _ _ x _ := self in x.
Definition commands_run (self : FileStructure) : bool :=
  let 'MkFileStructure _ _ _ _ _ _ _ x := self in x.

(** [self.path()] *)
Definition path (self : FileStructure) : Path := main_dir self.

(** [self.children()] *)
Definition children (self : FileStructure) : list PathOrFileStructure := list_dir self.

Definition _as_path (path_or_file_structure : PathOrFileStructure) : Path :=
  match path_or_file_structure with
  | APath p => p
  | AFileStructure s => path s
  end.

(** * FileStructure: the constructor *)

Definition _parse_normal_line (line : str) : result (str * option FileCommand) :=
  '(filename, file_command) ←
    (if Py.endswith line ">" then
       match Py.rfind " " line with
       | None => Raise ValueError
       | Some last_space_index =>
           let filename := Py.strip (take last_space_index line) in
           let command_str := Py.strip (drop (last_space_index + 1) line) in
           file_command ← FileCommand_from_str command_str;
           mret (filename, Some file_command)
       end
     else mret (line, None));
  mret (_remove_trailing_slash_if_exists filename, file_command).

Definition _parse_file_structure_command_line (line : str)
    : result FileStructureCommand :=
  assert (Py.startswith line "<<");;
  FileStructureCommand_from_str line.

Definition calc_indent_length (lines : list str) : result Z :=
  match lines with
  | first_line :: second_line :: _ =>
      let first_line_num_spaces := Py.num_leading first_line in
      let second_line_num_spaces := Py.num_leading second_line in
      let indent_length := second_line_num_spaces - first_line_num_spaces in
      assert (bool_decide (indent_length > 0));;
      mret indent_length
  | _ => Raise ValueError
  end.

Definition calc_num_leading_spaces (lines : list str) : result Z :=
  match lines with
  | first_line :: _ => Ok (Py.num_leading first_line)
  | [] => Raise IndexError
  end.

(** [num_leading_spaces] and [prev_num_indents] are variables of the
    enclosing [_process_lines]. *)
Definition calc_num_indents (num_leading_spaces prev_num_indents : Z)
    (line : str) (indent_length : Z) (prev_is_ordinary_file : bool) : result Z :=
  let num_spaces := Py.num_leading line - num_leading_spaces in
  assert (bool_decide (num_spaces > 0));;
  assert (bool_decide (num_spaces `mod` indent_length = 0));;
  let num_indents := num_spaces `div` indent_length in
  (if prev_is_ordinary_file
   then assert (bool_decide (num_indents ≤ prev_num_indents))
   else assert (bool_decide (num_indents ≤ prev_num_indents + 1)));;
  assert (bool_decide (num_indents ≠ 0));;
  mret num_indents.

(** The [while] loop of [process_line_block] over [lines[line_no + 1:]]. *)
Fixpoint block_lines (rest : list str) (num_indents num_leading_spaces indent_length : Z)
    : list str :=
  match rest with
  | [] => []
  | current_line :: rest' =>
      let current_num_spaces := Py.num_leading current_line - num_leading_spaces in
      let this_num_indents := current_num_spaces `div` indent_length in
      if decide (this_num_indents ≤ num_indents) then []
      else current_line :: block_lines rest' num_indents num_leading_spaces indent_length
  end.

Definition process_line_block (lines : list str) (line_no : nat)
    (num_indents num_leading_spaces indent_length : Z) : list str * nat :=
  let line_no := (line_no + 1)%nat in
  let current_line_block :=
    block_lines (drop line_no lines) num_indents num_leading_spaces indent_length in
  (current_line_block, (line_no + length current_line_block)%nat).

(** The first line of the text given to the nested constructor. *)
Definition header_line (num_leading_spaces indent_length : Z) (new_path : Path)
    (file_command : option FileCommand) : str :=
  replicate (Z.to_nat (num_leading_spaces + indent_length)) " "%char
  ++ Path_str new_path
  ++ match file_command with
     | None => ""
     | Some c => " " ++ FileCommand_value c
     end.

Definition mapM {A B} (f : A → result B) : list A → result (list B) :=
  fix go xs :=
    match xs with
    | [] => Ok []
    | x :: xs' => y ← f x; ys ← go xs'; mret (y :: ys)
    end.

(** [for filename, x in zip(filenames, xs): dict_dir[filename] = x], the
    objects [xs] being the ones at the positions from [base] on. *)
Fixpoint register (filenames : list str) (base : nat) (d : gmap str nat)
    : gmap str nat :=
  match filenames with
  | [] => d
  | filename :: rest => register rest (S base) (<[filename:=base]> d)
  end.

(** The list comprehension over [filenames_str[1:-1].split(",")]. *)
Definition list_filenames (filenames_str : str) : list str :=
  (λ filename,
     _remove_trailing_slash_if_exists
       (Py.strip (_remove_enclosing_quotation_marks (Py.strip filename))))
  <$> Py.split "," (drop 1 (take (length filenames_str - 1)%nat filenames_str)).

Section constructor.

(** The recursive call [FileStructure(text, lazy_commands=True, prompt=...)]. *)
Variable FileStructure_nested : str → bool → result FileStructure.

Definition process_line (self : FileStructure) (lines : list str) (line_no : nat)
    (num_indents num_leading_spaces indent_length : Z)
    : result (FileStructure * nat * bool) :=
  let 'MkFileStructure prompt main_dir cmd scmd list_dir list_dir_file_commands
                       dict_dir run := self in
  line ← from_option Ok (Raise IndexError) (lines !! line_no);
  let line := Py.strip line in
  if Py.endswith line ">>" then
    file_structure_command ← _parse_file_structure_command_line line;
    assert (bool_decide (scmd = None));;
    mret (MkFileStructure prompt main_dir cmd (Some file_structure_command)
            list_dir list_dir_file_commands dict_dir run,
          (line_no + 1)%nat, true)
  else if (Py.contains "[" line && Py.contains "]" line)
          || (Py.contains "{" line && Py.contains "}" line) then
    let line := Py.replace "}" "]" (Py.replace "{" "[" line) in
    '(filenames_str, file_command) ← _parse_normal_line line;
    first ← from_option Ok (Raise IndexError) (head filenames_str);
    assert (bool_decide (first = "["%char ∧ last filenames_str = Some "]"%char));;
    let filenames := list_filenames filenames_str in
    let new_paths := (λ filename, main_dir // filename) <$> filenames in
    assert (forallb _is_seemingly_dir filenames
            || forallb (λ filename, negb (_is_seemingly_dir filename)) filenames);;
    first_filename ← from_option Ok (Raise IndexError) (head filenames);
    '(new_paths_or_file_structures, file_command, line_no, is_ordinary_file) ←
      (if _is_seemingly_dir first_filename then
         let '(current_line_block, line_no) :=
           process_line_block lines line_no num_indents num_leading_spaces
             indent_length in
         new_file_structures ←
           mapM (λ new_path,
                   let this_line_block :=
                     header_line num_leading_spaces indent_length new_path file_command
                     :: current_line_block in
                   FileStructure_nested (Py.join Py.newline this_line_block) prompt)
                new_paths;
         mret (AFileStructure <$> new_file_structures, None, line_no, false)
       else
         mret (APath <$> new_paths, file_command, (line_no + 1)%nat, true));
    mret (MkFileStructure prompt main_dir cmd scmd
            (list_dir ++ new_paths_or_file_structures)
            (list_dir_file_commands ++ replicate (length filenames) file_command)
            (register (take (length new_paths_or_file_structures) filenames)
               (length list_dir) dict_dir)
            run,
          line_no, is_ordinary_file)
  else
    '(filename, file_command) ← _parse_normal_line line;
    let new_path := main_dir // filename in
    '(new_path_or_file_structure, file_command, line_no, is_ordinary_file) ←
      (if _is_seemingly_dir (Path_str new_path) then
         let '(current_line_block, line_no) :=
           process_line_block lines line_no num_indents num_leading_spaces
             indent_length in
         let current_line_block :=
           header_line num_leading_spaces indent_length new_path file_command
           :: current_line_block in
         new_file_structure ←
           FileStructure_nested (Py.join Py.newline current_line_block) prompt;
         mret (AFileStructure new_file_structure, None, line_no, false)
       else
         mret (APath new_path, file_command, (line_no + 1)%nat, true));
    mret (MkFileStructure prompt main_dir cmd scmd
            (list_dir ++ [new_path_or_file_structure])
            (list_dir_file_commands ++ [file_command])
            (<[filename:=length list_dir]> dict_dir)
            run,
          line_no, is_ordinary_file).

(** The [while line_no < len(lines)] loop of [_process_lines]; every turn
    moves [line_no] forward, so [len(lines)] turns are enough. *)
Fixpoint lines_loop (turns : nat) (self : FileStructure) (lines : list str)
    (num_leading_spaces indent_length : Z)
    (line_no : nat) (prev_num_indents : Z) (prev_is_ordinary_file : bool)
    : result FileStructure :=
  match lines !! line_no with
  | None => Ok self
  | Some line =>
      match turns with
      | O => Raise OutOfFuel
      | S turns' =>
          num_indents ←
            calc_num_indents num_leading_spaces prev_num_indents line indent_length
              prev_is_ordinary_file;
          if decide (num_indents = 1) then
            '(self, line_no, prev_is_ordinary_file) ←
              process_line self lines line_no num_indents num_leading_spaces
                indent_length;
            lines_loop turns' self lines num_leading_spaces indent_length
              line_no num_indents prev_is_ordinary_file
          else Raise AssertionError
      end
  end.

Definition _process_lines (self : FileStructure) (lines : list str)
    : result FileStructure :=
  indent_length ← calc_indent_length lines;
  num_leading_spaces ← calc_num_leading_spaces lines;
  lines_loop (length lines) self lines num_leading_spaces indent_length 1%nat 0 false.

(** [__init__] up to the point where the commands would be run. *)
Definition FileStructure_build (structure : str) (prompt : bool)
    : result FileStructure :=
  let lines := Py.splitlines structure in
  let lines := _remove_comments lines in
  lines ← _remove_empty_lines lines;
  first_line ← from_option Ok (Raise IndexError) (head lines);
  let first_line := Py.strip first_line in
  assert (negb (Py.endswith first_line ">>"));;
  '(main_dir_path, main_dir_file_command) ← _parse_normal_line first_line;
  assert (_is_seemingly_dir main_dir_path);;
  let self :=
    MkFileStructure prompt (Path_of_str main_dir_path) main_dir_file_command None
      [] [] ∅ false in
  if decide (1 < length lines)%nat then _process_lines self lines
  else mret self.

End constructor.

(** The constructor with [lazy_commands=True]; [fuel] bounds the depth of
    the nested constructor calls. *)
Fixpoint FileStructure_lazy (fuel : nat) (structure : str) (prompt : bool)
    : result FileStructure :=
  match fuel with
  | O => Raise OutOfFuel
  | S fuel' => FileStructure_build (FileStructure_lazy fuel') structure prompt
  end.

(** A nested text has fewer lines than the text it comes from, so the
    number of lines bounds the depth. *)
Definition parse (structure : str) (prompt : bool) : result FileStructure :=
  FileStructure_lazy (S (length (Py.splitlines structure))) structure prompt.

(** * FileStructure: running the commands *)

Section do_children.

(** [child.do()] for a nested object. *)
Variable do_nested : FileStructure → World → FileStructure * World * result unit.
Variable prompt : bool.

(** One turn of [for child, file_command in zip(list_dir, list_dir_file_commands)]. *)
Definition do_child (child : PathOrFileStructure) (file_command : option FileCommand)
    (w : World) : PathOrFileStructure * World * result unit :=
  match child with
  | APath p =>
      match file_command with
      | Some c => let '(w', r) := FileCommand_run c p prompt w in (child, w', r)
      | None => (child, w, Ok ())
      end
  | AFileStructure s =>
      match file_command with
      | Some _ => (child, w, Raise AssertionError)     (* "Bug :(" *)
      | None => let '(s', w', r) := do_nested s w in (AFileStructure s', w', r)
      end
  end.

Fixpoint do_children (list_dir : list PathOrFileStructure)
    (list_dir_file_commands : list (option FileCommand)) (w : World)
    : list PathOrFileStructure * World * result unit :=
  match list_dir, list_dir_file_commands with
  | child :: list_dir', file_command :: list_dir_file_commands' =>
      let '(child', w', r) := do_child child file_command w in
      match r with
      | Raise e => (child' :: list_dir', w', Raise e)
      | Ok _ =>
          let '(rest, w'', r') := do_children list_dir' list_dir_file_commands' w' in
          (child' :: rest, w'', r')
      end
  | _, _ => (list_dir, w, Ok ())
  end.

End do_children.

(** [do]: the object comes back with the flags the run has set, also when
    the run raises. *)
Fixpoint FileStructure_do (self : FileStructure) (w : World)
    : FileStructure * World * result unit :=
  let 'MkFileStructure prompt main_dir cmd scmd list_dir list_dir_file_commands
                       dict_dir run := self in
  if run then (self, w, Ok ())
  else
    let '(w1, r1) :=
      match scmd with
      | Some c =>
          let paths := _as_path <$> list_dir in
          FileStructureCommand_run c main_dir paths prompt w
      | None => (w, Ok ())
      end in
    match r1 with
    | Raise e => (self, w1, Raise e)
    | Ok _ =>
        let '(w2, r2) :=
          match cmd with
          | Some c => FileCommand_run c main_dir prompt w1
          | None => (w1, Ok ())
          end in
        match r2 with
        | Raise e => (self, w2, Raise e)
        | Ok _ =>
            let '(list_dir', w3, r3) :=
              do_children FileStructure_do prompt list_dir list_dir_file_commands w2 in
            match r3 with
            | Raise e =>
                (MkFileStructure prompt main_dir cmd scmd list_dir'
                   list_dir_file_commands dict_dir run, w3, Raise e)
            | Ok _ =>
                (MkFileStructure prompt main_dir cmd scmd list_dir'
                   list_dir_file_commands dict_dir true, w3, Ok ())
            end
        end
    end.

(** [FileStructure(structure, lazy_commands, prompt)] *)
Definition FileStructure_init (structure : str) (lazy_commands prompt : bool)
    : IO FileStructure := λ w,
  match parse structure prompt with
  | Raise e => (w, Raise e)
  | Ok self =>
      if lazy_commands then (w, Ok self)
      else
        let '(self, w, r) := FileStructure_do self w in
        (w, r;; mret self)
  end.

(** * FileStructure: the accessors *)

(** [while key[0] == "/": key = key[1:]] *)
Fixpoint strip_leading_slashes (key : str) : result str :=
  match key with
  | [] => Raise IndexError
  | c :: key' => if decide (c = "/"%char) then strip_leading_slashes key' else Ok key
  end.

(** [while key[-1] == "/": key = key[:-1]] *)
Definition strip_trailing_slashes (key : str) : result str :=
  key ← strip_leading_slashes (rev key); mret (rev key).

Section getitem.

(** [file_structure[filename]] inside the loop of [__getitem__]. *)
Variable getitem_nested : FileStructure → str → result PathOrFileStructure.

(** [path_or_file_structure[filename]]: a [Path] has no [__getitem__]. *)
Definition subscript (path_or_file_structure : PathOrFileStructure) (filename : str)
    : result PathOrFileStructure :=
  match path_or_file_structure with
  | AFileStructure s => getitem_nested s filename
  | APath _ => Raise TypeError
  end.

Fixpoint subscript_all (path_or_file_structure : PathOrFileStructure)
    (filenames : list str) : result PathOrFileStructure :=
  match filenames with
  | [] => Ok path_or_file_structure
  | filename :: filenames' =>
      v ← subscript path_or_file_structure filename;
      subscript_all v filenames'
  end.

Definition getitem_body (self : FileStructure) (key : str)
    : result PathOrFileStructure :=
  if decide (key = "" ∨ key = "/") then mret (APath (path self))
  else
    key ← strip_leading_slashes key;
    key ← strip_trailing_slashes key;
    if Py.contains "/" key then
      let filenames := Py.split "/" key in
      path_or_file_structure ← subscript_all (AFileStructure self) filenames;
      mret (APath (_as_path path_or_file_structure))
    else
      match dict_dir self !! key with
      | None => Raise KeyError
      | Some i =>
          path_or_file_structure ←
            from_option Ok (Raise IndexError) (list_dir self !! i);
          mret (APath (_as_path path_or_file_structure))
      end.

End getitem.

Fixpoint getitem_fuel (fuel : nat) (self : FileStructure) (key : str)
    : result PathOrFileStructure :=
  match fuel with
  | O => Raise OutOfFuel
  | S fuel' => getitem_body (getitem_fuel fuel') self key
  end.

(** [self[key]]; the segments of a key hold no slash, so the calls nest
    twice at most. *)
Definition __getitem__ (self : FileStructure) (key : str)
    : result PathOrFileStructure :=
  getitem_fuel 2 self key.

(** [self / other] *)
Definition __truediv__ (self : FileStructure) (other : str)
    : result PathOrFileStructure :=
  __getitem__ self other.

(** * The order of a run, as a list of steps *)

(** One command applied to one path. *)
Inductive step : Type :=
| StructureStep (c : FileStructureCommand) (path : Path) (paths : list Path)
    (prompt : bool)
| FileStep (c : FileCommand) (path : Path) (prompt : bool).

Definition run_step (s : step) : IO unit :=
  match s with
  | StructureStep c path paths prompt => FileStructureCommand_run c path paths prompt
  | FileStep c path prompt => FileCommand_run c path prompt
  end.

(** The steps one after the other; the first one that raises ends the run. *)
Definition run_steps (l : list step) : IO unit := for_each l run_step.

Section child_steps.

Variable nested_steps : FileStructure → list step.
Variable prompt : bool.

Fixpoint child_steps (list_dir : list PathOrFileStructure)
    (list_dir_file_commands : list (option FileCommand)) : list step :=
  match list_dir, list_dir_file_commands with
  | child :: list_dir', file_command :: list_dir_file_commands' =>
      match child with
      | APath p =>
          match file_command with
          | Some c => [FileStep c p prompt]
          | None => []
          end
      | AFileStructure s => nested_steps s
      end ++ child_steps list_dir' list_dir_file_commands'
  | _, _ => []
  end.

End child_steps.

(** The steps of the directory's own line: the structure command, then the
    directory's command. *)
Definition own_steps (self : FileStructure) : list step :=
  match main_dir_file_structure_command self with
  | Some c => [StructureStep c (main_dir self) (_as_path <$> list_dir self) (prompt self)]
  | None => []
  end ++
  match main_dir_file_command self with
  | Some c => [FileStep c (main_dir self) (prompt self)]
  | None => []
  end.

(** What a run of a directory still has to do: nothing once it is marked as
    run; otherwise its own steps, then the children in the order of their
    declaration, a nested directory contributing its steps in place. *)
Fixpoint steps (self : FileStructure) : list step :=
  let 'MkFileStructure prompt main_dir cmd scmd list_dir list_dir_file_commands
                       dict_dir run := self in
  if run then []
  else own_steps self ++ child_steps steps prompt list_dir list_dir_file_commands.

(** The object with every [commands_run] flag cleared: the declaration. *)
Definition unmark_child (unmark_nested : FileStructure → FileStructure)
    (child : PathOrFileStructure) : PathOrFileStructure :=
  match child with
  | APath p => APath p
  | AFileStructure s => AFileStructure (unmark_nested s)
  end.

Fixpoint unmark (self : FileStructure) : FileStructure :=
  let 'MkFileStructure prompt main_dir cmd scmd list_dir list_dir_file_commands
                       dict_dir run := self in
  MkFileStructure prompt main_dir cmd scmd (unmark_child unmark <$> list_dir)
    list_dir_file_commands dict_dir false.

(** * The invariant of delegation *)

Section delegated_children.

Variable delegated_nested : FileStructure → Prop.

(** No command is kept next to a nested directory. *)
Fixpoint delegated_children (list_dir : list PathOrFileStructure)
    (list_dir_file_commands : list (option FileCommand)) : Prop :=
  match list_dir, list_dir_file_commands with
  | [], [] => True
  | child :: list_dir', file_command :: list_dir_file_commands' =>
      match child with
      | APath _ => True
      | AFileStructure s => file_command = None ∧ delegated_nested s
      end ∧ delegated_children list_dir' list_dir_file_commands'
  | _, _ => False
  end.

End delegated_children.

(** Every child has its entry in [list_dir_file_commands], and the entry of
    a nested directory is [None], at every depth. *)
Fixpoint delegated (self : FileStructure) : Prop :=
  let 'MkFileStructure _ _ _ _ list_dir list_dir_file_commands _ _ := self in
  delegated_children delegated list_dir list_dir_file_commands.

(** * Example inputs *)

Definition T : Path := MkPath "" ["T" : str].

(** The directory [T] with the directory [xyz] (create if absent) and in it
    the file [x.txt] (absent, create). *)
Definition example_text : str :=
  "T" ++ Py.newline ++ "  xyz <6>" ++ Py.newline ++ "    x.txt <4>".

Definition example_xyz (run : bool) : FileStructure :=
  MkFileStructure true (T // "xyz") (Some CREATE_IF_ABSENT) None
    [APath (T // "xyz" // "x.txt")] [Some ABSENT_BUT_CREATE]
    {[ ("x.txt" : str) := 0%nat ]} run.

(** As parsed ([run = false]) and after a run that returned ([run = true]). *)
Definition example_root (run : bool) : FileStructure :=
  MkFileStructure true T None None [AFileStructure (example_xyz run)] [None]
    {[ ("xyz" : str) := 0%nat ]} run.

(** Nothing on disk, nothing to read. *)
Definition empty_world : World := MkWorld ∅ [].

(** The directory [T] with the directory [a] (absent, create) and then the
    file [b.txt] (present). *)
Definition abort_text : str :=
  "T" ++ Py.newline ++ "  a <4>" ++ Py.newline ++ "  b.txt <0>".

Definition abort_a (run : bool) : FileStructure :=
  MkFileStructure true (T // "a") (Some ABSENT_BUT_CREATE) None [] [] ∅ run.

Definition abort_root (a_run : bool) : FileStructure :=
  MkFileStructure true T None None
    [AFileStructure (abort_a a_run); APath (T // "b.txt")] [None; Some PRESENT]
    {[ ("a" : str) := 0%nat; ("b.txt" : str) := 1%nat ]} false.

(** A disk with the directory [T/d] and the file [T/d/f.txt] in it. *)
Definition full_dir_world (stdin : list str) : World :=
  MkWorld {[ T := Dir; T // "d" := Dir; T // "d" // "f.txt" := File "hello" ]} stdin.

(** The disk after the aborted run of [abort_root]: [T/a] was made (and [T]
    on the way) before [T/b.txt] was found missing. *)
Definition abort_world : World :=
  MkWorld {[ T := Dir; T // "a" := Dir ]} [].

(** * Statements of the specification that the code does not meet *)

(** "If a run aborts partway through, the Structure is not marked executed:
    a subsequent call re-executes every command from the beginning,
    including commands that already succeeded": read on the object a run
    from [w] leaves behind when it raises. *)
Definition reruns_every_command (self : FileStructure) (w : World) : Prop :=
  ∀ self' w' e,
    FileStructure_do self w = (self', w', Raise e) →
    commands_run self' = false ∧ steps self' = steps (unmark self).

(** * What an aborted run leaves in the object *)

(** A child whose turn of the run has returned: a path is as it was, a
    nested directory has run and is marked. *)
Definition completed (child child' : PathOrFileStructure) : Prop :=
  match child, child' with
  | APath p, APath p' => p' = p
  | AFileStructure s, AFileStructure s' => commands_run s' = true ∧ unmark s' = unmark s
  | _, _ => False
  end.

(** The child in whose turn, begun in the world [w1], the run has raised [e]
    and left the world [w']: an ordinary file, whose command has raised, is
    as it was; a nested directory is what its own run, the one that raised,
    has left of it. *)
Definition aborted (e : exn) (w1 w' : World) (prompt : bool)
    (file_command : option FileCommand) (child child' : PathOrFileStructure) : Prop :=
  match child with
  | APath p =>
      child' = child ∧
      ∃ c, file_command = Some c ∧ FileCommand_run c p prompt w1 = (w', Raise e)
  | AFileStructure s =>
      ∃ s', child' = AFileStructure s' ∧ FileStructure_do s w1 = (s', w', Raise e)
  end.

(** The steps of the ordinary files among the children, the nested
    directories left out. *)
Definition leaf_steps (prompt : bool) (list_dir : list PathOrFileStructure)
    (list_dir_file_commands : list (option FileCommand)) : list step :=
  child_steps (λ _, []) prompt list_dir list_dir_file_commands.

(** * The indentation of a text *)

(** The lines the constructor works on: comments cut, blank lines at both
    ends dropped. *)
Definition preprocess (structure : str) : result (list str) :=
  _remove_empty_lines (_remove_comments (Py.splitlines structure)).

(** The depth of line [i]: its leading white space minus that of the first
    line. *)
Definition depth (lines : list str) (i : nat) : Z :=
  Py.num_leading (lines !!! i) - Py.num_leading (lines !!! 0%nat).

(** The indent unit: the depth of the second line. *)
Definition indent_unit (lines : list str) : Z := depth lines 1.

(** The directory the first line declares. *)
Definition declared_root (lines : list str) : Path :=
  match _parse_normal_line (Py.strip (lines !!! 0%nat)) with
  | Ok (main_dir_path, _) => Path_of_str main_dir_path
  | Raise _ => Path_of_str ""
  end.

(** The lines after which [process_line] answers [is_ordinary_file = True]:
    a structure command, a list whose first name has a suffix, a single name
    whose path has a suffix.  No line may be indented deeper than such a
    line. *)
Definition ordinary_file_line (main_dir : Path) (line : str) : bool :=
  let line := Py.strip line in
  if Py.endswith line ">>" then true
  else if (Py.contains "[" line && Py.contains "]" line)
          || (Py.contains "{" line && Py.contains "}" line) then
    match _parse_normal_line (Py.replace "}" "]" (Py.replace "{" "[" line)) with
    | Ok (filenames_str, _) =>
        match head (list_filenames filenames_str) with
        | Some first_filename => negb (_is_seemingly_dir first_filename)
        | None => false
        end
    | Raise _ => false
    end
  else
    match _parse_normal_line line with
    | Ok (filename, _) => negb (_is_seemingly_dir (Path_str (main_dir // filename)))
    | Raise _ => false
    end.

(** The rule of the specification, read on all the lines of the text: every
    line after the first has a positive depth that is a multiple of the
    indent unit, one unit at most deeper than a directory line before it and
    not deeper than an ordinary-file line before it. *)
Definition indentation_as_specified (lines : list str) : Prop :=
  0 < indent_unit lines ∧
  ∀ i, (1 ≤ i < length lines)%nat →
    0 < depth lines i ∧
    depth lines i `mod` indent_unit lines = 0 ∧
    depth lines i `div` indent_unit lines ≤
      depth lines (i - 1) `div` indent_unit lines +
      (if decide (2 ≤ i)%nat
       then if ordinary_file_line (declared_root lines) (lines !!! (i - 1)%nat)
            then 0 else 1
       else 1).

(** What the loop of one constructor call checks: below the first line a
    line is one indent unit deep, or at least two units deep; the deeper
    lines are the block of the directory line before them (read by the
    nested constructor call, against the first two lines of the nested
    text), so none follows an ordinary-file line of depth one unit. *)
Definition indentation_as_checked (lines : list str) : Prop :=
  0 < indent_unit lines ∧
  ∀ i, (1 ≤ i < length lines)%nat →
    (depth lines i = indent_unit lines ∨ 2 * indent_unit lines ≤ depth lines i) ∧
    ((2 ≤ i)%nat →
     depth lines (i - 1) = indent_unit lines →
     ordinary_file_line (declared_root lines) (lines !!! (i - 1)%nat) = true →
     depth lines i = indent_unit lines).

(** "parse fails unless the indentation is as specified", for one text. *)
Definition fails_unless_as_specified (structure : str) (prompt : bool) : Prop :=
  ∀ self lines,
    parse structure prompt = Ok self → preprocess structure = Ok lines →
    (1 < length lines)%nat → indentation_as_specified lines.

(** A line that holds a structure command and nothing else. *)
Definition structure_command_line (line : str) : Prop :=
  ∃ c, Py.strip line = FileStructureCommand_value c.

(** The directory [T] with the directory [a] and, five blanks deep, the
    directory [b] in it: the indent unit of the text is two. *)
Definition uneven_text : str :=
  "T" ++ Py.newline ++ "  a" ++ Py.newline ++ "     b".

Definition uneven_root : FileStructure :=
  MkFileStructure true T None None
    [AFileStructure
       (MkFileStructure true (T // "a") None None
          [AFileStructure (MkFileStructure true (T // "a" // "b") None None [] [] ∅ false)]
          [None] {[ ("b" : str) := 0%nat ]} false)]
    [None] {[ ("a" : str) := 0%nat ]} false.

(** * Properties used in the proofs *)

(** Induction on a [FileStructure] with the nested directories of its
    [list_dir] as the smaller objects. *)
Section FileStructure_induction.

Variable P : FileStructure → Prop.

Definition nested_all (child : PathOrFileStructure) : Prop :=
  match child with
  | APath _ => True
  | AFileStructure s => P s
  end.

Hypothesis step_case : ∀ prompt main_dir cmd scmd list_dir cmds dict_dir run,
  Forall nested_all list_dir →
  P (MkFileStructure prompt main_dir cmd scmd list_dir cmds dict_dir run).

Fixpoint FileStructure_nested_ind (self : FileStructure) : P self :=
  match self with
  | MkFileStructure prompt main_dir cmd scmd list_dir cmds dict_dir run =>
      step_case prompt main_dir cmd scmd list_dir cmds dict_dir run
        ((fix go (l : list PathOrFileStructure) : Forall nested_all l :=
            match l with
            | [] => Forall_nil_2 _
            | child :: l' =>
                Forall_cons_2 _ _ _
                  match child return nested_all child with
                  | APath _ => I
                  | AFileStructure s => FileStructure_nested_ind s
                  end (go l')
            end) list_dir)
  end.

End FileStructure_induction.

(** The run of [s] is the run of its list of steps. *)
Definition do_agrees (s : FileStructure) : Prop :=
  delegated s →
  ∀ w, run_steps (steps s) w = ((FileStructure_do s w).1.2, (FileStructure_do s w).2).

(** A run changes flags only. *)
Definition do_keeps_declaration (s : FileStructure) : Prop :=
  ∀ w, unmark (FileStructure_do s w).1.1 = unmark s.

(** The characters of a text that survive the first passes of the
    constructor unchanged: no line boundary, no comment sign. *)
Definition no_linebreak (c : ascii) : Prop := Py.is_linebreak c = false.
Definition plain (c : ascii) : Prop := Py.is_linebreak c = false ∧ c ≠ "#"%char.

(** Paths whose root and components hold only characters with [P]. *)
Definition Path_chars (P : ascii → Prop) (p : Path) : Prop :=
  Forall P (root p) ∧ Forall (Forall P) (parts p).

(** The three ways [process_line] returns, read off its branches: a
    structure command, a list of names, a single name. *)
Definition process_line_outcome
    (rec : str → bool → result FileStructure) (self : FileStructure)
    (lines : list str) (line_no : nat) (num_indents num_leading_spaces indent_length : Z)
    (self' : FileStructure) (line_no' : nat) (is_ordinary_file : bool) : Prop :=
  ∃ line0, lines !! line_no = Some line0 ∧
  let line := Py.strip line0 in
  let block :=
    block_lines (drop (line_no + 1) lines) num_indents num_leading_spaces indent_length in
  (* a structure command *)
  (Py.endswith line ">>" = true ∧
   ∃ c, _parse_file_structure_command_line line = Ok c ∧
        main_dir_file_structure_command self = None ∧
        self' = MkFileStructure (prompt self) (main_dir self) (main_dir_file_command self)
                  (Some c) (list_dir self) (list_dir_file_commands self) (dict_dir self)
                  (commands_run self) ∧
        line_no' = (line_no + 1)%nat ∧ is_ordinary_file = true)
  ∨
  (* a list of names *)
  (Py.endswith line ">>" = false ∧
   (Py.contains "[" line && Py.contains "]" line)
   || (Py.contains "{" line && Py.contains "}" line) = true ∧
   ∃ filenames_str file_command first_filename new,
     _parse_normal_line (Py.replace "}" "]" (Py.replace "{" "[" line)) =
       Ok (filenames_str, file_command) ∧
     let filenames := list_filenames filenames_str in
     head filenames = Some first_filename ∧
     self' = MkFileStructure (prompt self) (main_dir self) (main_dir_file_command self)
               (main_dir_file_structure_command self)
               (list_dir self ++ new)
               (list_dir_file_commands self ++
                replicate (length filenames) (if is_ordinary_file then file_command else None))
               (register (take (length new) filenames) (length (list_dir self))
                  (dict_dir self))
               (commands_run self) ∧
     is_ordinary_file = negb (_is_seemingly_dir first_filename) ∧
     if is_ordinary_file then
       new = APath <$> ((λ filename, main_dir self // filename) <$> filenames) ∧
       line_no' = (line_no + 1)%nat
     else
       ∃ subs,
         mapM (λ new_path,
                 rec (Py.join Py.newline
                        (header_line num_leading_spaces indent_length new_path file_command
                         :: block)) (prompt self))
           ((λ filename, main_dir self // filename) <$> filenames) = Ok subs ∧
         new = AFileStructure <$> subs ∧
         line_no' = (line_no + 1 + length block)%nat)
  ∨
  (* a single name *)
  (Py.endswith line ">>" = false ∧
   (Py.contains "[" line && Py.contains "]" line)
   || (Py.contains "{" line && Py.contains "}" line) = false ∧
   ∃ filename file_command new,
     _parse_normal_line line = Ok (filename, file_command) ∧
     let new_path := main_dir self // filename in
     self' = MkFileStructure (prompt self) (main_dir self) (main_dir_file_command self)
               (main_dir_file_structure_command self)
               (list_dir self ++ [new])
               (list_dir_file_commands self ++
                [if is_ordinary_file then file_command else None])
               (<[filename:=length (list_dir self)]> (dict_dir self))
               (commands_run self) ∧
     is_ordinary_file = negb (_is_seemingly_dir (Path_str new_path)) ∧
     if is_ordinary_file then
       new = APath new_path ∧ line_no' = (line_no + 1)%nat
     else
       ∃ sub,
         rec (Py.join Py.newline
                (header_line num_leading_spaces indent_length new_path file_command
                 :: block)) (prompt self) = Ok sub ∧
         new = AFileStructure sub ∧
         line_no' = (line_no + 1 + length block)%nat).

(** The command written at the end of a line of names, as [process_line]
    reads it. *)
Definition written_command (line0 : str) : option FileCommand :=
  let line := Py.strip line0 in
  let line :=
    if (Py.contains "[" line && Py.contains "]" line)
       || (Py.contains "{" line && Py.contains "}" line)
    then Py.replace "}" "]" (Py.replace "{" "[" line)
    else line in
  match _parse_normal_line line with
  | Ok (_, file_command) => file_command
  | Raise _ => None
  end.

(** A child made from a line with the command [c]: an ordinary file keeps
    the command next to it, a nested directory carries it itself. *)
Definition carries_command (c : FileCommand) (is_ordinary_file : bool)
    (child : PathOrFileStructure) : Prop :=
  match child with
  | APath _ => is_ordinary_file = true
  | AFileStructure sub => is_ordinary_file = false ∧ main_dir_file_command sub = Some c
  end.

(** * Further example inputs *)

(** The directory [T] with two structure commands. *)
Definition two_commands_text : str :=
  "T" ++ Py.newline ++ "  <<0>>" ++ Py.newline ++ "  <<1>>".

(** * Predicates on a structure and the structures nested in it *)

Section every_nested.

Variable Q : FileStructure → Prop.

(** Every nested directory of [list_dir] has [Q]. *)
Fixpoint every_nested (list_dir : list PathOrFileStructure) : Prop :=
  match list_dir with
  | [] => True
  | child :: list_dir' =>
      match child with
      | APath _ => True
      | AFileStructure s => Q s
      end ∧ every_nested list_dir'
  end.

End every_nested.

(** No command is written anywhere in the structure: not for the directory,
    not for a child, at every depth. *)
Fixpoint no_commands (self : FileStructure) : Prop :=
  let 'MkFileStructure _ _ cmd scmd list_dir list_dir_file_commands _ _ := self in
  cmd = None ∧ scmd = None ∧
  Forall (λ file_command, file_command = None) list_dir_file_commands ∧
  every_nested no_commands list_dir.

(** What the constructor leaves behind when it was called with
    [lazy_commands=True] and [prompt], at every depth: the flag [prompt],
    nothing marked as run, and under every name of [dict_dir] a child of
    [list_dir], which for an ordinary file is the path of that name in the
    directory. *)
Fixpoint as_built (prompt : bool) (self : FileStructure) : Prop :=
  let 'MkFileStructure prompt' main_dir _ _ list_dir _ dict_dir run := self in
  prompt' = prompt ∧ run = false ∧
  (∀ (name : str) (i : nat), dict_dir !! name = Some i →
     ∃ child, list_dir !! i = Some child ∧ ∀ p, child = APath p → p = main_dir // name) ∧
  every_nested (as_built prompt) list_dir.

(** The flag a step passes to its command. *)
Definition step_prompt (s : step) : bool :=
  match s with
  | StructureStep _ _ _ prompt => prompt
  | FileStep _ _ prompt => prompt
  end.

(** The directory [T] with the directory [a] and the file [b.txt] in it, no
    command given. *)
Definition plain_root : FileStructure :=
  MkFileStructure true T None None
    [AFileStructure
       (MkFileStructure true (T // "a") None None [APath (T // "a" // "b.txt")] [None]
          {[ ("b.txt" : str) := 0%nat ]} false)]
    [None] {[ ("a" : str) := 0%nat ]} false.

(** A line that is empty after [strip]. *)
Definition blank (line : str) : Prop := Py.strip line = [].

(** A disk with the directory [T] and the files [T/a.txt] and [T/b.txt] in
    it. *)
Definition two_files_world : World :=
  MkWorld {[ T := Dir; T // "a.txt" := File "a"; T // "b.txt" := File "b" ]} [].

(** The lines of [example_text], and the object the constructor has made
    from its first line. *)
Definition example_lines : list str :=
  ["T" : str; "  xyz <6>" : str; "    x.txt <4>" : str].

Definition example_start : FileStructure :=
  MkFileStructure true T None None [] [] ∅ false.

(** * The texts that describe a structure *)

(** The text ["\t"]. *)
Definition tab : str := ["009"%char].

(** [FileStructure.__str__] *)
Definition __str__ (self : FileStructure) : str := Path_str (path self).

(** The element of the list comprehension in [_repr_simple]: the nested
    call [child._repr_simple()] is made without the argument [parent], which
    raises [TypeError]. *)
Definition _repr_simple_child (child : PathOrFileStructure) : result str :=
  match child with
  | APath p => Ok (tab ++ Path_str p)
  | AFileStructure _ => Raise TypeError
  end.

Definition _repr_simple (self : FileStructure) (parent : Path) : result str :=
  let parent := Path_str parent in
  let first_line := Path_str (path self) in
  assert (Py.startswith first_line parent);;
  let first_line := drop (length parent + 1) first_line in
  items ← mapM _repr_simple_child (children self);
  let rest := Py.join Py.newline items in
  mret (first_line ++ rest ++ Py.newline).

Definition __repr__ (self : FileStructure) : result str :=
  items ← mapM (λ child,
                  match child with
                  | APath p => Ok (tab ++ Path_str p)
                  | AFileStructure s =>
                      text ← _repr_simple s (path self); mret (tab ++ text)
                  end) (children self);
  let children_str := concat items in
  mret ("FileStructure('''" ++ Py.newline ++ Path_str (path self) ++ Py.newline
        ++ children_str ++ "''')").

(** * Reasoning about the model *)


Lemma FileStructure_do_eq prompt main_dir cmd scmd list_dir cmds dict_dir run w :
  FileStructure_do
    (MkFileStructure prompt main_dir cmd scmd list_dir cmds dict_dir run) w =
  if run then (MkFileStructure prompt main_dir cmd scmd list_dir cmds dict_dir run, w, Ok ())
  else
    let '(w1, r1) :=
      match scmd with
      | Some c => FileStructureCommand_run c main_dir (_as_path <$> list_dir) prompt w
      | None => (w, Ok ())
      end in
    match r1 with
    | Raise e =>
        (MkFileStructure prompt main_dir cmd scmd list_dir cmds dict_dir run, w1, Raise e)
    | Ok _ =>
        let '(w2, r2) :=
          match cmd with
          | Some c => FileCommand_run c main_dir prompt w1
          | None => (w1, Ok ())
          end in
        match r2 with
        | Raise e =>
            (MkFileStructure prompt main_dir cmd scmd list_dir cmds dict_dir run, w2,
             Raise e)
        | Ok _ =>
            let '(list_dir', w3, r3) :=
              do_children FileStructure_do prompt list_dir cmds w2 in
            match r3 with
            | Raise e =>
                (MkFileStructure prompt main_dir cmd scmd list_dir' cmds dict_dir run,
                 w3, Raise e)
            | Ok _ =>
                (MkFileStructure prompt main_dir cmd scmd list_dir' cmds dict_dir true,
                 w3, Ok ())
            end
        end
    end.
Proof. reflexivity. Qed.

(** A run that returns has set the flag, whatever the flag was. *)
Lemma do_Ok_marks self w self' w' u :
  FileStructure_do self w = (self', w', Ok u) → commands_run self' = true.
Proof.
  destruct self as [pr m c sc l lc d run]. rewrite FileStructure_do_eq.
  destruct run; [by intros [= <- _] |].
  repeat case_match; intros [= <- _]; done.
Qed.

(** A marked object is left alone, and so is the world. *)
Lemma do_marked self w :
  commands_run self = true → FileStructure_do self w = (self, w, Ok ()).
Proof.
  destruct self as [pr m c sc l lc d run]. intros H. cbn in H. subst run.
  by rewrite FileStructure_do_eq.
Qed.

(** A run that raises has not set the flag of the object it was called on. *)
Lemma do_Raise_unmarked self w self' w' e :
  FileStructure_do self w = (self', w', Raise e) → commands_run self' = false.
Proof.
  destruct self as [pr m c sc l lc d run]. rewrite FileStructure_do_eq.
  destruct run; [by intros [=] |].
  repeat case_match; intros [= <- _]; done.
Qed.

(** ** Runs as lists of steps *)

Lemma run_steps_cons s l w :
  run_steps (s :: l) w =
  match run_step s w with
  | (w', Ok _) => run_steps l w'
  | (w', Raise e) => (w', Raise e)
  end.
Proof. reflexivity. Qed.

Lemma run_steps_app l1 l2 w :
  run_steps (l1 ++ l2) w =
  match run_steps l1 w with
  | (w', Ok _) => run_steps l2 w'
  | (w', Raise e) => (w', Raise e)
  end.
Proof.
  revert w. induction l1 as [|s l1 IH]; intros w; [done |].
  rewrite <- app_comm_cons, !run_steps_cons.
  destruct (run_step s w) as [w' [[]|e]]; [apply IH | done].
Qed.

(** The step that raises splits the list: the steps before it have all
    returned, the steps after it were not started. *)
Lemma run_steps_Raise l w w' e :
  run_steps l w = (w', Raise e) →
  ∃ before failing after w1,
    l = before ++ failing :: after ∧
    run_steps before w = (w1, Ok ()) ∧
    run_step failing w1 = (w', Raise e).
Proof.
  revert w. induction l as [|s l IH]; intros w; [by intros [=] |].
  rewrite run_steps_cons. destruct (run_step s w) as [w1 [[]|e1]] eqn:Hs.
  - intros (before & failing & after & w2 & -> & Hb & Hf)%IH.
    exists (s :: before), failing, after, w2. split_and!; [done | | done].
    by rewrite run_steps_cons, Hs.
  - intros [= <- <-]. by exists [], s, l, w.
Qed.

Lemma do_children_agrees prompt list_dir cmds :
  Forall (nested_all do_agrees) list_dir →
  delegated_children delegated list_dir cmds →
  ∀ w, run_steps (child_steps steps prompt list_dir cmds) w =
       ((do_children FileStructure_do prompt list_dir cmds w).1.2,
        (do_children FileStructure_do prompt list_dir cmds w).2).
Proof.
  intros Hall. revert cmds.
  induction Hall as [|child l Hchild _ IH]; intros [|fc cmds] Hd w; try done.
  destruct Hd as [Hc Hd]. specialize (IH cmds Hd).
  cbn [child_steps do_children]. rewrite run_steps_app.
  destruct child as [p|s]; cbn [do_child].
  - destruct fc as [c|].
    + rewrite run_steps_cons. cbn [run_step].
      destruct (FileCommand_run c p prompt w) as [w1 [[]|e]]; cbn; [| done].
      rewrite IH. by destruct (do_children _ _ _ _ _) as [[??]?].
    + cbn. rewrite IH. by destruct (do_children _ _ _ _ _) as [[??]?].
  - destruct Hc as [-> Hs]. rewrite (Hchild Hs w).
    destruct (FileStructure_do s w) as [[s' w1] [[]|e]]; cbn; [| done].
    rewrite IH. by destruct (do_children _ _ _ _ _) as [[??]?].
Qed.

Lemma do_agrees_all self : do_agrees self.
Proof.
  induction self as [pr m c sc l lc d run Hall] using FileStructure_nested_ind.
  intros Hd w. cbn in Hd. rewrite FileStructure_do_eq. cbn [steps].
  destruct run; [done |].
  unfold own_steps. cbn [main_dir_file_structure_command main_dir_file_command
    main_dir list_dir prompt].
  rewrite !run_steps_app.
  pose proof (do_children_agrees pr l lc Hall Hd) as Hch.
  destruct sc as [sc|].
  - rewrite run_steps_cons. cbn [run_step].
    destruct (FileStructureCommand_run _ _ _ _ _) as [w1 [[]|e]]; [| done].
    cbn [run_steps for_each mret IO_ret].
    destruct c as [c|].
    + rewrite run_steps_cons. cbn [run_step].
      destruct (FileCommand_run _ _ _ _) as [w2 [[]|e]]; [| done].
      cbn [run_steps for_each mret IO_ret]. rewrite Hch.
      by destruct (do_children _ _ _ _ _) as [[??] [[]|?]].
    + cbn [run_steps for_each mret IO_ret]. rewrite Hch.
      by destruct (do_children _ _ _ _ _) as [[??] [[]|?]].
  - cbn [run_steps for_each mret IO_ret].
    destruct c as [c|].
    + rewrite run_steps_cons. cbn [run_step].
      destruct (FileCommand_run _ _ _ _) as [w2 [[]|e]]; [| done].
      cbn [run_steps for_each mret IO_ret]. rewrite Hch.
      by destruct (do_children _ _ _ _ _) as [[??] [[]|?]].
    + cbn [run_steps for_each mret IO_ret]. rewrite Hch.
      by destruct (do_children _ _ _ _ _) as [[??] [[]|?]].
Qed.

Example example_text_parses : parse example_text true = Ok (example_root false).
Proof. vm_compute. reflexivity. Qed.

Example abort_text_parses : parse abort_text true = Ok (abort_root false).
Proof. vm_compute. reflexivity. Qed.

(** The end-to-end scenario: on an empty disk the run makes [T/xyz] (and [T]
    on the way) and the empty file [T/xyz/x.txt]. *)
Example example_root_do :
  FileStructure_do (example_root false) empty_world =
  (example_root true, MkWorld {[ T := Dir; T // "xyz" := Dir;
                                     T // "xyz" // "x.txt" := File "" ]} [], Ok ()).
Proof. vm_compute. reflexivity. Qed.

(** ** What a run changes in the object *)

Lemma as_path_unmark_child child : _as_path (unmark_child unmark child) = _as_path child.
Proof. destruct child as [p|[]]; reflexivity. Qed.

Lemma own_steps_unmark self : own_steps (unmark self) = own_steps self.
Proof.
  destruct self as [pr m c sc l lc d run]. unfold own_steps. cbn.
  rewrite <- list_fmap_compose.
  by rewrite (list_fmap_ext (_as_path ∘ unmark_child unmark) _as_path l)
    by (intros; apply as_path_unmark_child).
Qed.

Lemma prompt_unmark self : prompt (unmark self) = prompt self.
Proof. by destruct self. Qed.

Lemma list_dir_file_commands_unmark self :
  list_dir_file_commands (unmark self) = list_dir_file_commands self.
Proof. by destruct self. Qed.

Lemma do_children_unmark prompt list_dir cmds w :
  Forall (nested_all do_keeps_declaration) list_dir →
  unmark_child unmark <$> (do_children FileStructure_do prompt list_dir cmds w).1.1 =
  unmark_child unmark <$> list_dir.
Proof.
  intros Hall. revert cmds w.
  induction Hall as [|child l Hchild _ IH]; intros [|fc cmds] w; try done.
  cbn [do_children].
  assert (∀ w, unmark_child unmark (do_child FileStructure_do prompt child fc w).1.1 =
               unmark_child unmark child) as Hc.
  { intros w0. destruct child as [p|s]; cbn.
    - destruct fc; [by destruct (FileCommand_run _ _ _ _) | done].
    - destruct fc; [done |]. specialize (Hchild w0).
      destruct (FileStructure_do s w0) as [[??]?]. cbn in *. by rewrite Hchild. }
  specialize (Hc w).
  destruct (do_child _ _ _ _ _) as [[child' w1] [[]|e]]; cbn in *.
  - specialize (IH cmds w1). destruct (do_children _ _ _ _ _) as [[??]?].
    cbn in *. by rewrite Hc, IH.
  - by rewrite Hc.
Qed.

Lemma do_unmark self : do_keeps_declaration self.
Proof.
  induction self as [pr m c sc l lc d run Hall] using FileStructure_nested_ind.
  intros w. rewrite FileStructure_do_eq. destruct run; [done |].
  destruct (match sc with Some _ => _ | None => _ end) as [w1 [[]|e]]; [| done].
  destruct (match c with Some _ => _ | None => _ end) as [w2 [[]|e]]; [| done].
  pose proof (do_children_unmark pr l lc w2 Hall) as Hch.
  destruct (do_children _ _ _ _ _) as [[l' w3] [[]|e]]; cbn in *; by rewrite Hch.
Qed.

Lemma delegated_children_unmark list_dir cmds :
  Forall (nested_all (λ s, delegated (unmark s) ↔ delegated s)) list_dir →
  delegated_children delegated (unmark_child unmark <$> list_dir) cmds ↔
  delegated_children delegated list_dir cmds.
Proof.
  intros Hall. revert cmds.
  induction Hall as [|child l Hchild _ IH]; intros [|fc cmds]; try done.
  cbn [fmap list_fmap delegated_children]. rewrite IH.
  destruct child as [p|s]; cbn in *; [done |]. by rewrite Hchild.
Qed.

Lemma delegated_unmark self : delegated (unmark self) ↔ delegated self.
Proof.
  induction self as [pr m c sc l lc d run Hall] using FileStructure_nested_ind.
  cbn. by apply delegated_children_unmark.
Qed.

Lemma do_delegated self w :
  delegated self → delegated (FileStructure_do self w).1.1.
Proof.
  intros Hd. apply delegated_unmark. rewrite do_unmark. by apply delegated_unmark.
Qed.

(** ** The claims on the command engine *)

(** C5. Within a directory a run does the structure command first, then the
    directory's own command, then the children in the order of their
    declaration, a nested directory being run in place: the run is the run
    of the list [steps], whose first step that raises ends it, so that no
    step after the failing one is started. *)
Theorem do_runs_steps_in_order (self : FileStructure) (w : World) :
  delegated self →
  run_steps (steps self) w = ((FileStructure_do self w).1.2, (FileStructure_do self w).2)
  ∧ (commands_run self = false →
     steps self =
     own_steps self ++
     child_steps steps (prompt self) (list_dir self) (list_dir_file_commands self))
  ∧ (∀ e, (FileStructure_do self w).2 = Raise e →
     ∃ before failing after w1,
       steps self = before ++ failing :: after ∧
       run_steps before w = (w1, Ok ()) ∧
       run_step failing w1 = ((FileStructure_do self w).1.2, Raise e)).
Proof.
  intros Hd. pose proof (do_agrees_all self Hd w) as Hrun. split_and!.
  - exact Hrun.
  - destruct self as [pr m c sc l lc d run]. cbn. by intros ->.
  - intros e He. rewrite He in Hrun. by apply run_steps_Raise.
Qed.

Lemma do_runs_steps_in_order_witness :
  run_steps (steps (abort_root false)) empty_world = (abort_world, Raise AssertionError)
  ∧ ∃ before after w1,
      steps (abort_root false) = before ++ FileStep PRESENT (T // "b.txt") true :: after
      ∧ run_steps before empty_world = (w1, Ok ()).
Proof.
  assert (delegated (abort_root false)) as Hd by (cbn; tauto).
  destruct (do_runs_steps_in_order (abort_root false) empty_world Hd) as (Hrun & _ & Hfail).
  assert (FileStructure_do (abort_root false) empty_world =
          (abort_root true, abort_world, Raise AssertionError)) as Hdo
    by (vm_compute; reflexivity).
  rewrite Hdo in Hrun, Hfail. split; [exact Hrun |].
  exists [FileStep ABSENT_BUT_CREATE (T // "a") true], [], abort_world.
  split; vm_compute; reflexivity.
Defined.

(** C6. After a run that returned, the object is marked as run, and a later
    run returns at once: the object and the world stay as they are. *)
Theorem do_idempotent (self : FileStructure) (w : World)
    (self' : FileStructure) (w' : World) :
  FileStructure_do self w = (self', w', Ok ()) →
  commands_run self' = true ∧
  ∀ w2, FileStructure_do self' w2 = (self', w2, Ok ()).
Proof.
  intros Hdo. apply do_Ok_marks in Hdo. split; [done |].
  intros w2. by apply do_marked.
Qed.

Lemma do_idempotent_witness :
  commands_run (example_root true) = true ∧
  FileStructure_do (example_root true) abort_world = (example_root true, abort_world, Ok ()).
Proof.
  destruct (do_idempotent (example_root false) empty_world (example_root true)
              (MkWorld {[ T := Dir; T // "xyz" := Dir;
                          T // "xyz" // "x.txt" := File "" ]} []))
    as [Hrun Hagain].
  - vm_compute. reflexivity.
  - split; [exact Hrun | apply Hagain].
Defined.

(** C10, as the specification states it, fails: in the aborted run of
    [abort_root] the nested directory [a] has completed and is marked, so the
    next run has one step left and not the two of the declaration. *)
Lemma abort_does_not_rerun_every_command :
  ¬ reruns_every_command (abort_root false) empty_world.
Proof.
  intros Hclaim.
  destruct (Hclaim (abort_root true) abort_world AssertionError) as [_ Hsteps].
  - vm_compute. reflexivity.
  - vm_compute in Hsteps. discriminate Hsteps.
Qed.

Lemma steps_marked self : commands_run self = true → steps self = [].
Proof. destruct self as [pr m c sc l lc d run]. cbn. by intros ->. Qed.

Lemma child_steps_app (f : FileStructure → list step) pr l1 l2 cmds :
  child_steps f pr (l1 ++ l2) cmds =
  child_steps f pr l1 cmds ++ child_steps f pr l2 (drop (length l1) cmds).
Proof.
  revert cmds. induction l1 as [|child l1 IH]; intros cmds; [done |].
  destruct cmds as [|fc cmds]; cbn [app child_steps length drop].
  - by destruct l2.
  - by rewrite IH, app_assoc.
Qed.

Lemma child_steps_completed pr before before' cmds :
  Forall2 completed before before' →
  child_steps steps pr before' cmds = leaf_steps pr before cmds.
Proof.
  unfold leaf_steps. intros Hall. revert cmds.
  induction Hall as [|child child' before before' Hc _ IH]; intros cmds; [done |].
  destruct cmds as [|fc cmds]; [done |]. cbn [child_steps]. rewrite IH. f_equal.
  destruct child as [p|s], child' as [p'|s']; cbn in Hc; try done.
  - by subst p'.
  - destruct Hc as [Hrun _]. by apply steps_marked.
Qed.

(** The children after a run that has raised: those before the failing one
    have completed, the failing one is as its own turn has left it, the
    ones after it were not started. *)
Lemma do_children_Raise pr l lc w l' w' e :
  delegated_children delegated l lc →
  do_children FileStructure_do pr l lc w = (l', w', Raise e) →
  ∃ w1 before child after before' child' fc,
    l = before ++ child :: after ∧ l' = before' ++ child' :: after ∧
    Forall2 completed before before' ∧
    run_steps (child_steps steps pr before lc) w = (w1, Ok ()) ∧
    lc !! length before = Some fc ∧
    aborted e w1 w' pr fc child child'.
Proof.
  revert lc w l'. induction l as [|child l IH]; intros lc w l' Hd; [by destruct lc |].
  destruct lc as [|fc lc]; [done |]. destruct Hd as [Hc Hd]. cbn [do_children].
  destruct (do_child FileStructure_do pr child fc w) as [[child1 w1] r1] eqn:Hchild.
  destruct r1 as [[]|e1].
  - destruct (do_children FileStructure_do pr l lc w1) as [[rest w2] r2] eqn:Hrest.
    intros [= <- <- ->].
    destruct (IH lc w1 rest Hd Hrest)
      as (w3 & before & child0 & after & before' & child0' & fc0
          & -> & -> & Hbefore & Hrun & Hfc & Hab).
    exists w3, (child :: before), child0, after, (child1 :: before'), child0', fc0.
    cbn [child_steps]. rewrite run_steps_app.
    destruct child as [p|s]; cbn in Hchild.
    + destruct fc as [c|].
      * rewrite run_steps_cons. cbn [run_step].
        destruct (FileCommand_run c p pr w) as [w0 r0]. simplify_eq.
        split_and!; try done. by constructor.
      * simplify_eq. split_and!; try done. by constructor.
    + destruct Hc as [-> Hs]. rewrite (do_agrees_all s Hs w).
      destruct (FileStructure_do s w) as [[s' w0] r0] eqn:Hdo. simplify_eq. cbn [fst snd].
      split_and!; try done. constructor; [| done]. cbn. split.
      * by eapply do_Ok_marks.
      * pose proof (do_unmark s w) as Hu. by rewrite Hdo in Hu.
  - intros [= <- <- <-]. exists w, [], child, l, [], child1, fc.
    split_and!; [done | done | constructor | done | done |].
    destruct child as [p|s]; cbn in Hchild |- *.
    + destruct fc as [c|]; [| done].
      destruct (FileCommand_run c p pr w) eqn:Hrun. simplify_eq. eauto.
    + destruct Hc as [-> _].
      destruct (FileStructure_do s w) as [[s' w'0] r] eqn:Hs.
      simplify_eq. eauto.
Qed.

Lemma own_steps_run pr m c sc l lc d run w :
  run_steps (own_steps (MkFileStructure pr m c sc l lc d run)) w =
  let '(w1, r1) :=
    match sc with
    | Some c => FileStructureCommand_run c m (_as_path <$> l) pr w
    | None => (w, Ok ())
    end in
  match r1 with
  | Raise e => (w1, Raise e)
  | Ok _ =>
      match c with
      | Some c => FileCommand_run c m pr w1
      | None => (w1, Ok ())
      end
  end.
Proof.
  unfold own_steps. cbn [main_dir_file_structure_command main_dir_file_command
    main_dir list_dir prompt]. rewrite run_steps_app.
  destruct sc as [sc|].
  - rewrite run_steps_cons. cbn [run_step].
    destruct (FileStructureCommand_run _ _ _ _ _) as [w1 [[]|e]]; [| done].
    cbn [run_steps for_each mret IO_ret].
    destruct c as [c|]; [| done]. rewrite run_steps_cons. cbn [run_step].
    by destruct (FileCommand_run _ _ _ _) as [w2 [[]|e]].
  - cbn [run_steps for_each mret IO_ret].
    destruct c as [c|]; [| done]. rewrite run_steps_cons. cbn [run_step].
    by destruct (FileCommand_run _ _ _ _) as [w2 [[]|e]].
Qed.

(** C10, amended. When a run raises, the object it was called on is not
    marked and its declaration is unchanged, so the next run starts again with
    the directory's own steps and goes through the children in order.  When
    the run has raised in the turn of a child, the children before it have
    completed: of these the command of an ordinary file is run again, and a
    nested directory is marked and contributes nothing; the child in whose
    turn the run has raised, if a nested directory, is what its own aborted
    run has left of it, so that the same holds of it; the children after it
    were not started and are as they were. *)
Theorem do_abort_resumes (self : FileStructure) (w : World)
    (self' : FileStructure) (w' : World) (e : exn) :
  FileStructure_do self w = (self', w', Raise e) →
  commands_run self' = false
  ∧ unmark self' = unmark self
  ∧ steps self' =
    own_steps self ++
    child_steps steps (prompt self) (list_dir self') (list_dir_file_commands self)
  ∧ (delegated self →
     ((run_steps (own_steps self) w = (w', Raise e) ∧ list_dir self' = list_dir self)
      ∨ (∃ w0 w1 before child after before' child' file_command,
           run_steps (own_steps self) w = (w0, Ok ()) ∧
           list_dir self = before ++ child :: after ∧
           list_dir self' = before' ++ child' :: after ∧
           Forall2 completed before before' ∧
           run_steps (child_steps steps (prompt self) before (list_dir_file_commands self))
             w0 = (w1, Ok ()) ∧
           list_dir_file_commands self !! length before = Some file_command ∧
           aborted e w1 w' (prompt self) file_command child child' ∧
           steps self' =
             own_steps self ++
             leaf_steps (prompt self) before (list_dir_file_commands self) ++
             child_steps steps (prompt self) (child' :: after)
               (drop (length before) (list_dir_file_commands self))))
     ∧ ∀ w2, run_steps (steps self') w2 =
             ((FileStructure_do self' w2).1.2, (FileStructure_do self' w2).2)).
Proof.
  intros Hdo.
  pose proof (do_Raise_unmarked _ _ _ _ _ Hdo) as Hflag.
  pose proof (do_unmark self w) as Hdecl. rewrite Hdo in Hdecl. cbn in Hdecl.
  assert (steps self' =
          own_steps self ++
          child_steps steps (prompt self) (list_dir self') (list_dir_file_commands self))
    as Hsteps.
  { rewrite <- (own_steps_unmark self), <- Hdecl, own_steps_unmark.
    rewrite <- (prompt_unmark self), <- (list_dir_file_commands_unmark self), <- Hdecl.
    rewrite prompt_unmark, list_dir_file_commands_unmark.
    destruct self' as [pr m c sc l lc d run]. cbn in Hflag. by subst run. }
  split_and!; [done | done | done |].
  intros Hd. split.
  - rewrite Hsteps. clear Hsteps Hdecl Hflag.
    destruct self as [pr m c sc l lc d run]. rewrite own_steps_run.
    rewrite FileStructure_do_eq in Hdo. destruct run; [done |].
    cbn [list_dir list_dir_file_commands prompt]. cbn in Hd.
    destruct (match sc with Some _ => _ | None => _ end) as [w1 [[]|e1]].
    2:{ injection Hdo as <- <- <-. by left. }
    destruct (match c with Some _ => _ | None => _ end) as [w2 [[]|e2]].
    2:{ injection Hdo as <- <- <-. by left. }
    destruct (do_children FileStructure_do pr l lc w2) as [[l' w3] [[]|e3]] eqn:Hch;
      [done |].
    injection Hdo as <- <- <-. right.
    destruct (do_children_Raise _ _ _ _ _ _ _ Hd Hch)
      as (w4 & before & child & after & before' & child' & fc
          & -> & -> & Hbefore & Hrun & Hfc & Hab).
    exists w2, w4, before, child, after, before', child', fc. split_and!; try done.
    cbn [list_dir]. f_equal. rewrite child_steps_app.
    rewrite (child_steps_completed _ _ _ _ Hbefore).
    by rewrite (Forall2_length _ _ _ Hbefore).
  - intros w2. apply do_agrees_all.
    apply delegated_unmark. rewrite Hdecl. by apply delegated_unmark.
Qed.

Lemma do_abort_resumes_witness :
  commands_run (abort_root true) = false
  ∧ steps (abort_root true) = [FileStep PRESENT (T // "b.txt") true]
  ∧ ((run_steps (own_steps (abort_root false)) empty_world =
        (abort_world, Raise AssertionError)
      ∧ list_dir (abort_root true) = list_dir (abort_root false))
     ∨ (∃ w0 w1 before child after before' child' file_command,
          run_steps (own_steps (abort_root false)) empty_world = (w0, Ok ()) ∧
          list_dir (abort_root false) = before ++ child :: after ∧
          list_dir (abort_root true) = before' ++ child' :: after ∧
          Forall2 completed before before' ∧
          run_steps (child_steps steps (prompt (abort_root false)) before
                       (list_dir_file_commands (abort_root false))) w0 = (w1, Ok ()) ∧
          list_dir_file_commands (abort_root false) !! length before = Some file_command ∧
          aborted AssertionError w1 abort_world (prompt (abort_root false)) file_command
            child child' ∧
          steps (abort_root true) =
            own_steps (abort_root false) ++
            leaf_steps (prompt (abort_root false)) before
              (list_dir_file_commands (abort_root false)) ++
            child_steps steps (prompt (abort_root false)) (child' :: after)
              (drop (length before) (list_dir_file_commands (abort_root false))))).
Proof.
  destruct (do_abort_resumes (abort_root false) empty_world (abort_root true)
              abort_world AssertionError) as (Hflag & _ & Hsteps & Hshape).
  - vm_compute. reflexivity.
  - split; [exact Hflag |]. split; [rewrite Hsteps; reflexivity |].
    apply Hshape. cbn. tauto.
Defined.

(** ** The claims on the accessors *)

Lemma elem_of_rev {A} (x : A) (l : list A) : x ∈ rev l ↔ x ∈ l.
Proof. by rewrite !list_elem_of_In, <- in_rev. Qed.

Lemma strip_leading_slashes_no_slash (key : str) :
  "/"%char ∉ key →
  strip_leading_slashes key = match key with [] => Raise IndexError | _ => Ok key end.
Proof.
  destruct key as [|c key]; [done |]. intros Hc. cbn.
  destruct (decide (c = "/"%char)) as [->|]; [| done].
  exfalso. apply Hc. left.
Qed.

Lemma strip_trailing_slashes_no_slash (key : str) :
  "/"%char ∉ key →
  strip_trailing_slashes key = match key with [] => Raise IndexError | _ => Ok key end.
Proof.
  intros Hc. unfold strip_trailing_slashes.
  rewrite strip_leading_slashes_no_slash by (by rewrite elem_of_rev).
  destruct (rev key) as [|c k] eqn:Hrev.
  - apply (f_equal (@rev _)) in Hrev. rewrite rev_involutive in Hrev. by subst.
  - assert (rev (c :: k) = key) as Hk by (by rewrite <- Hrev, rev_involutive).
    unfold mbind, result_bind, mret, result_ret. rewrite Hk.
    destruct key; [done | done].
Qed.

(** Whatever the key, [__getitem__] answers with a path. *)
Lemma getitem_body_Ok_path rec self key v :
  (∀ s k v, rec s k = Ok v → ∃ p, v = APath p) →
  getitem_body rec self key = Ok v → ∃ p, v = APath p.
Proof.
  intros Hrec. unfold getitem_body.
  destruct (decide _); [intros [= <-]; eauto |].
  destruct (strip_leading_slashes key) as [k1|]; cbn; [| done].
  destruct (strip_trailing_slashes k1) as [k2|]; cbn; [| done].
  destruct (Py.contains _ _).
  - destruct (subscript_all _ _ _); cbn; [intros [= <-]; eauto | done].
  - destruct (dict_dir self !! k2); [| done].
    destruct (list_dir self !! _); cbn; [intros [= <-]; eauto | done].
Qed.

(** X11. Indexing (and with it division) never gives a nested structure:
    whatever the key, a lookup that returns gives a path. *)
Theorem getitem_Ok_path self key v :
  __getitem__ self key = Ok v → ∃ p, v = APath p.
Proof.
  unfold __getitem__. cbn [getitem_fuel]. apply getitem_body_Ok_path.
  intros s k v'. apply getitem_body_Ok_path. done.
Qed.

Lemma getitem_Ok_path_witness : ∃ p, APath (T // "xyz") = APath p.
Proof.
  apply (getitem_Ok_path (example_root false) "xyz"). vm_compute. reflexivity.
Defined.

(** A key of one segment: the entry of [dict_dir], turned into a path. *)
Lemma getitem_body_single_segment rec self (key : str) i child :
  key ≠ [] → "/"%char ∉ key →
  dict_dir self !! key = Some i → list_dir self !! i = Some child →
  getitem_body rec self key = Ok (APath (_as_path child)).
Proof.
  intros Hne Hslash Hdict Hlist. unfold getitem_body.
  destruct (decide _) as [[->| ->]|_]; [done | | ].
  { exfalso. apply Hslash. left. }
  assert (match key with [] => Raise IndexError | _ => Ok key end = Ok key) as Hm
    by (by destruct key).
  rewrite strip_leading_slashes_no_slash, Hm by done.
  unfold mbind, result_bind at 1.
  rewrite strip_trailing_slashes_no_slash, Hm by done.
  unfold mbind, result_bind at 1. unfold Py.contains.
  rewrite bool_decide_eq_false_2 by done.
  by rewrite Hdict, Hlist.
Qed.

Lemma getitem_single_segment self (key : str) i child :
  key ≠ [] → "/"%char ∉ key →
  dict_dir self !! key = Some i → list_dir self !! i = Some child →
  __getitem__ self key = Ok (APath (_as_path child)).
Proof. apply getitem_body_single_segment. Qed.

Lemma split_elem c (s : str) :
  c ∈ s → ∃ f0 f1 rest, Py.split c s = f0 :: f1 :: rest.
Proof.
  induction s as [|d s IH]; [by intros ?%elem_of_nil |].
  intros Hin. cbn. destruct (decide (d = c)) as [->|Hne].
  - destruct s; cbn; [eauto |]. destruct (decide _); [eauto |].
    destruct (Py.split c s) eqn:?; eauto.
  - apply elem_of_cons in Hin as [->|Hin]; [done |].
    destruct (IH Hin) as (f0 & f1 & rest & ->). eauto.
Qed.

(** A key of several segments: the first lookup gives a path (or raises),
    and a path cannot be subscripted. *)
Lemma getitem_several_segments_raises self (key k1 k2 : str) :
  ¬ (key = "" ∨ key = "/") →
  strip_leading_slashes key = Ok k1 →
  strip_trailing_slashes k1 = Ok k2 →
  "/"%char ∈ k2 →
  ∃ e, __getitem__ self key = Raise e.
Proof.
  intros Hkey H1 H2 Hin. unfold __getitem__. cbn [getitem_fuel]. unfold getitem_body at 1.
  destruct (decide _) as [?|_]; [done |].
  rewrite H1. unfold mbind, result_bind at 1. rewrite H2.
  unfold mbind, result_bind at 1.
  unfold Py.contains. rewrite bool_decide_eq_true_2 by done.
  destruct (split_elem _ _ Hin) as (f0 & f1 & rest & ->).
  cbn [subscript_all subscript].
  destruct (getitem_body _ self f0) as [v|e] eqn:Hv; cbn; [| eauto].
  apply getitem_body_Ok_path in Hv as [p ->]; [| done]. cbn. eauto.
Qed.

(** C1. On the structure of [example_text], whose child [xyz] is a nested
    directory, [root["xyz"]] is the path [T/xyz] and not the nested object;
    the entry of an ordinary file is its path. *)
Theorem getitem_directory_is_a_path :
  parse example_text true = Ok (example_root false)
  ∧ dict_dir (example_root false) !! ("xyz" : str) = Some 0%nat
  ∧ list_dir (example_root false) !! 0%nat = Some (AFileStructure (example_xyz false))
  ∧ __getitem__ (example_root false) "xyz" = Ok (APath (T // "xyz"))
  ∧ __getitem__ (example_root false) "xyz" ≠ Ok (AFileStructure (example_xyz false))
  ∧ __getitem__ (example_xyz false) "x.txt" = Ok (APath (T // "xyz" // "x.txt")).
Proof.
  split_and!; try (vm_compute; reflexivity).
  assert (__getitem__ (example_root false) "xyz" = Ok (APath (T // "xyz"))) as ->
    by (vm_compute; reflexivity).
  discriminate.
Qed.

(** C2. On the same structure the key [xyz/x.txt] raises [TypeError], for
    indexing and for division: the lookup of [xyz] has produced a path, and
    the second segment subscripts that path. *)
Theorem getitem_two_segments_raises :
  parse example_text true = Ok (example_root false)
  ∧ __getitem__ (example_root false) "xyz/x.txt" = Raise TypeError
  ∧ __truediv__ (example_root false) "xyz/x.txt" = Raise TypeError.
Proof. split_and!; vm_compute; reflexivity. Qed.

(** ** The claims on the commands *)

(** X23. Without the prompt, [_remove] returns from a directory that is not
    empty without touching it: the inner [if prompt:] has no [else]. *)
Theorem remove_without_prompt_full_directory (p : Path) (w : World) :
  entry_at (disk w) p = Some Dir →
  omap (child_name p) (elements (dom (disk w))) ≠ [] →
  _remove p false w = (w, Ok ()).
Proof.
  intros Hdir Hfull. unfold _remove, mbind, IO_bind, Path_is_dir, os_listdir.
  rewrite Hdir, bool_decide_eq_true_2 by done. cbv beta iota. rewrite Hdir.
  destruct (decide _) as [Hlen|_]; [| done].
  by apply length_zero_iff_nil in Hlen.
Qed.

Lemma remove_without_prompt_full_directory_witness :
  _remove (T // "d") false (full_dir_world []) = (full_dir_world [], Ok ()).
Proof.
  apply remove_without_prompt_full_directory.
  - vm_compute. reflexivity.
  - vm_compute. discriminate.
Defined.

(** X22. With the prompt, an answer other than the empty line and [y] ends
    the run with [SystemExit]; the disk is as it was, and the answer is
    used up. *)
Theorem remove_declined (p : Path) (w : World) (line : str) (rest : list str) :
  entry_at (disk w) p = Some Dir →
  omap (child_name p) (elements (dom (disk w))) ≠ [] →
  stdin w = line :: rest →
  Py.lower (Py.strip line) ≠ "" → Py.lower (Py.strip line) ≠ "y" →
  _remove p true w = (MkWorld (disk w) rest, Raise SystemExit).
Proof.
  intros Hdir Hfull Hin Hn1 Hn2.
  unfold _remove, mbind, IO_bind, Path_is_dir, os_listdir, input.
  rewrite Hdir, bool_decide_eq_true_2 by done. cbv beta iota. rewrite Hdir.
  destruct (decide _) as [Hlen|_]; [by apply length_zero_iff_nil in Hlen |].
  rewrite Hin. destruct (decide _) as [[?|?]|_]; done.
Qed.

Lemma remove_declined_witness :
  _remove (T // "d") true (full_dir_world ["no" : str]) =
  (MkWorld (disk (full_dir_world ["no" : str])) [], Raise SystemExit).
Proof.
  apply (remove_declined (T // "d") (full_dir_world ["no" : str]) "no" []).
  - vm_compute. reflexivity.
  - vm_compute. discriminate.
  - reflexivity.
  - vm_compute. discriminate.
  - vm_compute. discriminate.
Defined.

(** X27. A structure command on a path that is not on disk does nothing:
    it returns, and the disk and the input are as they were. *)
Theorem structure_command_absent c (path : Path) paths prompt (w : World) :
  entry_at (disk w) path = None →
  FileStructureCommand_run c path paths prompt w = (w, Ok ()).
Proof.
  intros Habs. unfold FileStructureCommand_run, mbind, IO_bind, Path_exists.
  rewrite Habs. rewrite bool_decide_eq_false_2; [done |]. by intros [? [=]].
Qed.

Lemma structure_command_absent_witness :
  FileStructureCommand_run THAT_IS_ALL (T // "e") [] true (full_dir_world []) =
  (full_dir_world [], Ok ()).
Proof. apply structure_command_absent. vm_compute. reflexivity. Defined.

(** X26. On a directory, [THAT_IS_ALL] changes nothing and returns exactly
    when every entry under the directory is one of the declared paths;
    otherwise it raises [AssertionError]. *)
Theorem that_is_all_iff (path : Path) paths prompt (w : World) :
  entry_at (disk w) path = Some Dir →
  (FileStructureCommand_run THAT_IS_ALL path paths prompt w).1 = w ∧
  ((FileStructureCommand_run THAT_IS_ALL path paths prompt w).2 = Ok () ↔
   ∀ filename, filename ∈ omap (child_name path) (elements (dom (disk w))) →
               path // filename ∈ paths) ∧
  ((FileStructureCommand_run THAT_IS_ALL path paths prompt w).2 ≠ Ok () →
   (FileStructureCommand_run THAT_IS_ALL path paths prompt w).2 = Raise AssertionError).
Proof.
  intros Hdir. unfold FileStructureCommand_run, mbind, IO_bind, Path_exists, os_listdir.
  rewrite Hdir, bool_decide_eq_true_2 by eauto. cbn [negb]. rewrite Hdir.
  unfold lift. cbn [fst snd].
  set (names := omap _ _).
  split_and!; [done | |].
  - unfold assert. case_bool_decide as Hsize; cbn.
    + apply size_empty_iff in Hsize. split; [intros _ | done].
      intros filename Hin.
      destruct (decide (path // filename ∈ paths)) as [|Hnot]; [done |].
      exfalso. apply (not_elem_of_empty (C:=gset Path) (path // filename)).
      apply Hsize. rewrite elem_of_difference, !elem_of_list_to_set.
      split; [| done]. apply list_elem_of_fmap. eauto.
    + split; [done |]. intros Hall. exfalso. apply Hsize. apply size_empty_iff.
      apply elem_of_equiv_empty. intros q.
      rewrite elem_of_difference, !elem_of_list_to_set, list_elem_of_fmap.
      intros [(filename & -> & Hin) Hnot]. apply Hnot. by apply Hall.
  - unfold assert. case_bool_decide; cbn; done.
Qed.

Lemma that_is_all_iff_witness :
  (FileStructureCommand_run THAT_IS_ALL (T // "d") [] true (full_dir_world [])).1 =
    full_dir_world [] ∧
  ((FileStructureCommand_run THAT_IS_ALL (T // "d") [] true (full_dir_world [])).2 = Ok () ↔
   ∀ filename,
     filename ∈ omap (child_name (T // "d")) (elements (dom (disk (full_dir_world [])))) →
     T // "d" // filename ∈ []) ∧
  ((FileStructureCommand_run THAT_IS_ALL (T // "d") [] true (full_dir_world [])).2 ≠ Ok () →
   (FileStructureCommand_run THAT_IS_ALL (T // "d") [] true (full_dir_world [])).2 =
   Raise AssertionError).
Proof. apply that_is_all_iff. vm_compute. reflexivity. Defined.

(** C3. With the confirmation suppressed ([prompt = False]) the removing
    commands leave the non-empty directory [T/d] where it is:
    [PRESENT_BUT_REMOVE] returns as if it had removed it, and the create
    step of [PRESENT_BUT_RECREATE] and of [CREATE] finds the directory and
    raises.  With the confirmation on, the answer [n] ends the run. *)
Theorem remove_suppressed_prompt_keeps_directory :
  entry_at (disk (full_dir_world [])) (T // "d") = Some Dir
  ∧ entry_at (disk (full_dir_world [])) (T // "d" // "f.txt") = Some (File "hello")
  ∧ FileCommand_run PRESENT_BUT_REMOVE (T // "d") false (full_dir_world []) =
    (full_dir_world [], Ok ())
  ∧ FileCommand_run PRESENT_BUT_RECREATE (T // "d") false (full_dir_world []) =
    (full_dir_world [], Raise AssertionError)
  ∧ FileCommand_run CREATE (T // "d") false (full_dir_world []) =
    (full_dir_world [], Raise AssertionError)
  ∧ FileCommand_run PRESENT_BUT_REMOVE (T // "d") true (full_dir_world ["n" : str]) =
    (full_dir_world [], Raise SystemExit)
  ∧ FileCommand_run PRESENT_BUT_REMOVE (T // "d") true (full_dir_world ["" : str]) =
    (MkWorld {[ T := Dir ]} [], Ok ()).
Proof. split_and!; vm_compute; reflexivity. Qed.

(** C4. With the confirmation suppressed, [REMOVE_EVERYTHING_ELSE] on [T]
    with the one declared child [T/a] returns and the undeclared non-empty
    directory [T/d] is still on disk; [THAT_IS_ALL] raises for the same
    disk, and both do nothing when [T] is not there. *)
Theorem remove_everything_else_keeps_full_directory :
  FileStructureCommand_run REMOVE_EVERYTHING_ELSE T [T // "a"] false (full_dir_world []) =
  (full_dir_world [], Ok ())
  ∧ ¬ (T // "d" ∈ [T // "a"])
  ∧ entry_at (disk (full_dir_world [])) (T // "d") = Some Dir
  ∧ FileStructureCommand_run THAT_IS_ALL T [T // "a"] false (full_dir_world []) =
    (full_dir_world [], Raise AssertionError)
  ∧ FileStructureCommand_run REMOVE_EVERYTHING_ELSE T [T // "a"] false empty_world =
    (empty_world, Ok ())
  ∧ FileStructureCommand_run REMOVE_EVERYTHING_ELSE T [T // "a"] true
      (full_dir_world ["y" : str]) =
    (MkWorld {[ T := Dir ]} [], Ok ()).
Proof.
  split_and!; try (vm_compute; reflexivity).
  rewrite list_elem_of_In. vm_compute. intros [Heq|[]]. discriminate Heq.
Qed.

(** C8. [CREATE] on the non-empty directory [T/d], with the confirmation
    suppressed, neither deletes the directory nor creates it afresh: it
    raises from the assertion of the create step.  On an existing file, and
    with [CREATE_IF_ABSENT], the commands do what their names say. *)
Theorem create_on_full_directory_raises :
  FileCommand_run CREATE (T // "d") false (full_dir_world []) =
  (full_dir_world [], Raise AssertionError)
  ∧ FileCommand_run CREATE (T // "d" // "f.txt") false (full_dir_world []) =
    (MkWorld {[ T := Dir; T // "d" := Dir; T // "d" // "f.txt" := File "" ]} [], Ok ())
  ∧ FileCommand_run CREATE_IF_ABSENT (T // "d") false (full_dir_world []) =
    (full_dir_world [], Ok ())
  ∧ FileCommand_run CREATE_IF_ABSENT (T // "x" // "y") false empty_world =
    (MkWorld {[ T := Dir; T // "x" := Dir; T // "x" // "y" := Dir ]} [], Ok ())
  ∧ FileCommand_run CREATE_IF_ABSENT (T // "d" // "g.txt") false (full_dir_world []) =
    (MkWorld {[ T := Dir; T // "d" := Dir; T // "d" // "f.txt" := File "hello";
                T // "d" // "g.txt" := File "" ]} [], Ok ()).
Proof. split_and!; vm_compute; reflexivity. Qed.

(** ** Strings: which characters a result can hold *)

Section characters.

Variable P : ascii → Prop.

Lemma Forall_rev_2 (s : str) : Forall P s → Forall P (rev s).
Proof. rewrite !Forall_forall. intros H c Hc. apply H. by apply elem_of_rev. Qed.

Lemma Forall_lstrip (s : str) : Forall P s → Forall P (Py.lstrip s).
Proof.
  induction 1 as [|c s Hc Hs IH]; cbn; [done |].
  destruct (Py.isspace c); [done | by constructor].
Qed.

Lemma Forall_rstrip (s : str) : Forall P s → Forall P (Py.rstrip s).
Proof. intros. by apply Forall_rev_2, Forall_lstrip, Forall_rev_2. Qed.

Lemma Forall_strip (s : str) : Forall P s → Forall P (Py.strip s).
Proof. intros. by apply Forall_lstrip, Forall_rstrip. Qed.

Lemma Forall_split c (s : str) : Forall P s → Forall (Forall P) (Py.split c s).
Proof.
  induction 1 as [|d s Hd Hs IH]; cbn; [by repeat constructor |].
  destruct (decide (d = c)); [by constructor |].
  destruct (Py.split c s) as [|l ls]; [by repeat constructor |].
  apply Forall_cons in IH as [Hl Hls]. by repeat constructor.
Qed.

Lemma Forall_join (sep : str) (ls : list str) :
  Forall P sep → Forall (Forall P) ls → Forall P (Py.join sep ls).
Proof.
  intros Hsep. induction 1 as [|l ls Hl Hls IH]; cbn; [done |].
  destruct ls; [done |]. rewrite !Forall_app. done.
Qed.

Lemma Forall_replace c d (s : str) : P d → Forall P s → Forall P (Py.replace c d s).
Proof.
  intros Hd Hs. unfold Py.replace. apply Forall_fmap.
  eapply Forall_impl; [exact Hs |]. intros x Hx. cbn. by destruct (decide _).
Qed.

Lemma Forall_remove_trailing_slash (s : str) :
  Forall P s → Forall P (_remove_trailing_slash_if_exists s).
Proof.
  intros. unfold _remove_trailing_slash_if_exists.
  destruct (Py.endswith _ _); [by apply Forall_take | done].
Qed.

Lemma Forall_remove_quotation_marks (s : str) :
  Forall P s → Forall P (_remove_enclosing_quotation_marks s).
Proof.
  intros. unfold _remove_enclosing_quotation_marks.
  repeat case_match; auto using Forall_take, Forall_drop.
Qed.

Lemma Forall_parse_normal_line (line filename : str) c :
  Forall P line → _parse_normal_line line = Ok (filename, c) → Forall P filename.
Proof.
  intros Hline. unfold _parse_normal_line.
  destruct (Py.endswith line ">").
  - destruct (Py.rfind " " line) as [i|]; [| done]. cbn.
    destruct (FileCommand_from_str _); [| done]. cbn. intros [= <- _].
    by apply Forall_remove_trailing_slash, Forall_strip, Forall_take.
  - cbn. intros [= <- _]. by apply Forall_remove_trailing_slash.
Qed.

Hypothesis P_slash : P "/".
Hypothesis P_dot : P ".".

Lemma Path_of_str_chars (s : str) : Forall P s → Path_chars P (Path_of_str s).
Proof.
  intros Hs. split; cbn.
  - repeat case_match; repeat constructor; done.
  - apply Forall_forall. intros x [_ Hx]%list_elem_of_filter.
    pose proof (Forall_split "/" s Hs) as Hall.
    rewrite Forall_forall in Hall. by apply Hall.
Qed.

Lemma Path_div_chars (p : Path) (s : str) :
  Path_chars P p → Forall P s → Path_chars P (p // s).
Proof.
  intros [Hr Hp] Hs. destruct (Path_of_str_chars s Hs) as [Hr' Hp'].
  unfold Path_div. destruct (decide _); [| done].
  split; cbn; [done |]. by apply Forall_app.
Qed.

Lemma Path_str_chars (p : Path) : Path_chars P p → Forall P (Path_str p).
Proof.
  intros [Hr Hp]. unfold Path_str.
  assert (Forall P (root p ++ Py.join "/" (parts p))) as Happ.
  { apply Forall_app. split; [done |]. apply Forall_join; [| done].
    by repeat constructor. }
  destruct (root p), (parts p); try done. by repeat constructor.
Qed.

Hypothesis P_space : P " ".
Hypothesis P_value : ∀ c, Forall P (FileCommand_value c).

Lemma header_line_chars nls il (p : Path) fc :
  Path_chars P p → Forall P (header_line nls il p fc).
Proof.
  intros Hp. unfold header_line. rewrite !Forall_app. split_and!.
  - by apply Forall_replicate.
  - by apply Path_str_chars.
  - destruct fc; [| done]. apply Forall_app. split; [by repeat constructor | done].
Qed.

End characters.

(** ** Lines: [splitlines] and [join] *)

Lemma pieces_nonempty (s : str) : Py.pieces s ≠ [].
Proof.
  induction s as [|c s IH]; cbn; [done |].
  destruct (Py.is_linebreak c); [destruct (decide _); done |].
  by destruct (Py.pieces s).
Qed.

Lemma pieces_no_linebreak (s : str) : Forall (Forall no_linebreak) (Py.pieces s).
Proof.
  induction s as [|c s IH]; cbn; [by repeat constructor |].
  destruct (Py.is_linebreak c) eqn:Hc; [destruct (decide _); by repeat constructor |].
  destruct (Py.pieces s) as [|l ls]; [by repeat constructor |].
  apply Forall_cons in IH as [Hl Hls]. by repeat constructor.
Qed.

Lemma splitlines_no_linebreak (s : str) : Forall (Forall no_linebreak) (Py.splitlines s).
Proof.
  unfold Py.splitlines. pose proof (pieces_no_linebreak s).
  destruct (decide _); [by apply Forall_take | done].
Qed.

Lemma length_splitlines_pieces (s : str) :
  (length (Py.splitlines s) ≤ length (Py.pieces s))%nat.
Proof.
  unfold Py.splitlines. destruct (decide _); [| done]. rewrite length_take. lia.
Qed.

Lemma pieces_app (l s : str) :
  Forall no_linebreak l →
  Py.pieces (l ++ s) =
  match Py.pieces s with
  | p :: ps => (l ++ p) :: ps
  | [] => [l]
  end.
Proof.
  pose proof (pieces_nonempty s) as Hne.
  induction 1 as [|c l Hc Hl IH]; cbn [app Py.pieces].
  - by destruct (Py.pieces s).
  - rewrite Hc, IH. by destruct (Py.pieces s).
Qed.

Lemma pieces_newline (s : str) : Py.pieces (Py.newline ++ s) = [] :: Py.pieces s.
Proof. reflexivity. Qed.

Lemma join_cons_cons (sep l l' : str) (ls : list str) :
  Py.join sep (l :: l' :: ls) = l ++ sep ++ Py.join sep (l' :: ls).
Proof. reflexivity. Qed.

Lemma pieces_join (l : str) (ls : list str) :
  Forall (Forall no_linebreak) (l :: ls) →
  Py.pieces (Py.join Py.newline (l :: ls)) = l :: ls.
Proof.
  revert l. induction ls as [|l' ls IH]; intros l [Hl Hls]%Forall_cons.
  - cbn [Py.join]. rewrite <- (app_nil_r l) at 1. rewrite pieces_app by done.
    cbn. by rewrite app_nil_r.
  - rewrite join_cons_cons, pieces_app, pieces_newline by done.
    rewrite IH by done. by rewrite app_nil_r.
Qed.

(** The lines of a joined text are the joined lines, an empty last one
    excepted. *)
Lemma splitlines_join (l : str) (ls : list str) :
  Forall (Forall no_linebreak) (l :: ls) →
  Py.splitlines (Py.join Py.newline (l :: ls)) =
  if decide (last (l :: ls) = Some []) then take (length ls) (l :: ls) else l :: ls.
Proof.
  intros Hall. unfold Py.splitlines. rewrite pieces_join by done.
  destruct (decide _); [| done]. f_equal. cbn [length]. lia.
Qed.

Lemma length_splitlines_join (l : str) (ls : list str) :
  Forall (Forall no_linebreak) (l :: ls) →
  (length (Py.splitlines (Py.join Py.newline (l :: ls))) ≤ S (length ls))%nat.
Proof.
  intros Hall. rewrite splitlines_join by done.
  destruct (decide _); [rewrite length_take |]; cbn; lia.
Qed.

(** ** The claims on the constructor *)

Example uneven_text_parses : parse uneven_text true = Ok uneven_root.
Proof. vm_compute. reflexivity. Qed.

(** C7, as the specification states it, fails: [uneven_text] is parsed, and
    its third line has depth 5 with an indent unit of 2. *)
Lemma uneven_indentation_is_accepted : ¬ fails_unless_as_specified uneven_text true.
Proof.
  intros Hclaim.
  destruct (Hclaim uneven_root ["T" : str; "  a" : str; "     b" : str])
    as [_ Hlines]; try (vm_compute; reflexivity).
  - cbn. lia.
  - destruct (Hlines 2%nat) as (_ & Hmod & _); [cbn; lia |].
    vm_compute in Hmod. discriminate Hmod.
Qed.

(** *** The result monad, step by step *)

Lemma bind_Ok {A B} (m : result A) (f : A → result B) b :
  m ≫= f = Ok b → ∃ a, m = Ok a ∧ f a = Ok b.
Proof. destruct m as [a|e]; [eauto | done]. Qed.

Lemma bind_Raise {A B} (m : result A) (f : A → result B) e :
  m ≫= f = Raise e → m = Raise e ∨ ∃ a, m = Ok a ∧ f a = Raise e.
Proof.
  destruct m as [a|e']; unfold mbind, result_bind; [intros; right; eauto |].
  intros [= ->]. by left.
Qed.

Lemma assert_Ok b u : assert b = Ok u → b = true.
Proof. by destruct b. Qed.

Lemma assert_Raise b e : assert b = Raise e → e = AssertionError.
Proof. destruct b; [done | by intros [= <-]]. Qed.

Lemma from_option_Ok {A} (o : option A) e a :
  from_option Ok (Raise e) o = Ok a → o = Some a.
Proof. destruct o; [by intros [= ->] | done]. Qed.

Lemma mapM_Ok_length {A B} (f : A → result B) xs ys :
  mapM f xs = Ok ys → length ys = length xs.
Proof.
  revert ys. induction xs as [|x xs IH]; intros ys; cbn; [by intros [= <-] |].
  intros (y & _ & (ys' & Hys & [= <-])%bind_Ok)%bind_Ok. cbn. by rewrite (IH ys').
Qed.

Lemma mapM_Ok_Forall {A B} (f : A → result B) (Q : B → Prop) xs ys :
  (∀ x y, x ∈ xs → f x = Ok y → Q y) → mapM f xs = Ok ys → Forall Q ys.
Proof.
  revert ys. induction xs as [|x xs IH]; intros ys HQ; cbn; [by intros [= <-] |].
  intros (y & Hy & (ys' & Hys & [= <-])%bind_Ok)%bind_Ok. constructor.
  - eapply HQ; [left | done].
  - apply IH; [| done]. intros x' y' Hx'. apply HQ. by right.
Qed.

Lemma mapM_Raise {A B} (f : A → result B) xs e :
  mapM f xs = Raise e → ∃ x, x ∈ xs ∧ f x = Raise e.
Proof.
  induction xs as [|x xs IH]; cbn; [done |].
  intros [Hx|(y & _ & [Hxs|(ys & _ & [=])]%bind_Raise)]%bind_Raise.
  - exists x. split; [left | done].
  - destruct (IH Hxs) as (x' & Hin & Hx'). exists x'. split; [by right | done].
Qed.

(** *** [process_line], case by case *)

Lemma process_line_inv rec self lines line_no ni nls il self' line_no' flag :
  process_line rec self lines line_no ni nls il = Ok (self', line_no', flag) →
  process_line_outcome rec self lines line_no ni nls il self' line_no' flag.
Proof.
  destruct self as [pr m c sc l lc d run]. unfold process_line, process_line_outcome.
  intros (line0 & Hline0%from_option_Ok & H)%bind_Ok. exists line0. split; [done |].
  cbv zeta. destruct (Py.endswith (Py.strip line0) ">>") eqn:Hmarker.
  { left. split; [done |].
    apply bind_Ok in H as (fsc & Hfsc & H). apply bind_Ok in H as ([] & Hsc%assert_Ok & H).
    apply bool_decide_eq_true in Hsc. injection H as <- <- <-. subst sc. exists fsc. by split_and!. }
  right.
  destruct ((Py.contains "[" (Py.strip line0) && Py.contains "]" (Py.strip line0))
            || (Py.contains "{" (Py.strip line0) && Py.contains "}" (Py.strip line0)))
    eqn:Hlist.
  - left. split; [done |]. split; [done |].
    apply bind_Ok in H as ([filenames_str fc] & Hparse & H).
    apply bind_Ok in H as (first & Hfirst & H).
    apply bind_Ok in H as ([] & _ & H).
    apply bind_Ok in H as ([] & _ & H).
    apply bind_Ok in H as (first_filename & Hhead%from_option_Ok & H).
    apply bind_Ok in H as ([[[new fc'] n'] flag'] & Hbranch & H).
    injection H as <- <- <-.
    exists filenames_str, fc, first_filename, new. split; [done |]. split; [done |].
    destruct (_is_seemingly_dir first_filename) eqn:Hdir.
    + unfold process_line_block in Hbranch.
      apply bind_Ok in Hbranch as (subs & Hsubs & [= <- <- <- <-]).
      cbn [negb]. split_and!; [done | done |]. exists subs. split_and!; done || lia.
    + injection Hbranch as <- <- <- <-. cbn [negb]. split_and!; done.
  - right. split; [done |]. split; [done |].
    apply bind_Ok in H as ([filename fc] & Hparse & H).
    apply bind_Ok in H as ([[[new fc'] n'] flag'] & Hbranch & H).
    injection H as <- <- <-.
    exists filename, fc, new. split; [done |].
    cbn [prompt main_dir main_dir_file_command main_dir_file_structure_command
         list_dir list_dir_file_commands dict_dir commands_run].
    destruct (_is_seemingly_dir (Path_str (m // filename))) eqn:Hdir.
    + unfold process_line_block in Hbranch.
      apply bind_Ok in Hbranch as (sub & Hsub & [= <- <- <- <-]).
      cbn [negb]. split_and!; [done | done |]. exists sub. split_and!; done || lia.
    + injection Hbranch as <- <- <- <-. cbn [negb]. split_and!; done.
Qed.

Lemma process_line_frame rec self lines line_no ni nls il self' line_no' flag :
  process_line rec self lines line_no ni nls il = Ok (self', line_no', flag) →
  main_dir self' = main_dir self ∧ prompt self' = prompt self ∧
  main_dir_file_command self' = main_dir_file_command self ∧
  commands_run self' = commands_run self ∧
  (is_Some (main_dir_file_structure_command self) →
   main_dir_file_structure_command self' = main_dir_file_structure_command self) ∧
  line_no' =
    (if flag then line_no + 1
     else line_no + 1 + length (block_lines (drop (line_no + 1) lines) ni nls il))%nat ∧
  ∃ line0, lines !! line_no = Some line0 ∧ flag = ordinary_file_line (main_dir self) line0.
Proof.
  intros (line0 & Hline0 & Hcases)%process_line_inv. cbv zeta in Hcases.
  unfold ordinary_file_line.
  destruct Hcases as [(Hm & c & _ & Hsc & -> & -> & ->)
    |[(Hm & Hl & fs & fc & first & new & Hparse & Hhead & -> & Hflag & Hrest)
     |(Hm & Hl & f & fc & new & Hparse & -> & Hflag & Hrest)]];
    cbn [prompt main_dir main_dir_file_command main_dir_file_structure_command
         commands_run].
  - rewrite Hsc. split_and!; try done; try (by intros [? [=]]).
    exists line0. by rewrite Hm.
  - split_and!; try done.
    + destruct flag; [by destruct Hrest | by destruct Hrest as (? & _ & _ & ->)].
    + exists line0. by rewrite Hm, Hl, Hparse, Hhead.
  - split_and!; try done.
    + destruct flag; [by destruct Hrest | by destruct Hrest as (? & _ & _ & ->)].
    + exists line0. by rewrite Hm, Hl, Hparse.
Qed.

(** The block after a line: the lines that follow it up to the first one
    that is not deeper. *)
Lemma block_lines_spec rest ni nls il :
  block_lines rest ni nls il `prefix_of` rest ∧
  Forall (λ l, ni < (Py.num_leading l - nls) `div` il) (block_lines rest ni nls il).
Proof.
  induction rest as [|l rest [IH1 IH2]]; cbn; [split; [done | constructor] |].
  destruct (decide _) as [|Hdeep]; [split; [apply prefix_nil | constructor] |].
  split; [by apply prefix_cons | constructor; [lia | done]].
Qed.

Lemma block_lines_lookup lines line_no ni nls il i :
  (line_no + 1 ≤ i < line_no + 1 + length (block_lines (drop (line_no + 1) lines) ni nls il))%nat →
  ∃ l, lines !! i = Some l ∧ ni < (Py.num_leading l - nls) `div` il.
Proof.
  intros Hi. destruct (block_lines_spec (drop (line_no + 1) lines) ni nls il) as [Hpre Hall].
  set (block := block_lines _ _ _ _) in *.
  destruct (lookup_lt_is_Some_2 block (i - (line_no + 1))) as [l Hl]; [lia |].
  exists l. split.
  - pose proof (prefix_lookup_Some _ _ _ _ Hl Hpre) as Hdrop.
    rewrite lookup_drop in Hdrop. rewrite <- Hdrop. f_equal. lia.
  - rewrite Forall_forall in Hall. apply Hall. by eapply list_elem_of_lookup_2.
Qed.

Lemma calc_num_indents_one nls pn line il pf :
  0 < il →
  calc_num_indents nls pn line il pf = Ok 1 →
  Py.num_leading line - nls = il.
Proof.
  intros Hil. unfold calc_num_indents.
  intros ([] & Hpos%assert_Ok%bool_decide_eq_true & H)%bind_Ok.
  apply bind_Ok in H as ([] & Hmod%assert_Ok%bool_decide_eq_true & H).
  apply bind_Ok in H as ([] & _ & H).
  apply bind_Ok in H as ([] & _ & [= Hdiv]).
  pose proof (Z.div_mod (Py.num_leading line - nls) il). lia.
Qed.

(** *** The loop of [_process_lines] and the indentation *)

Lemma lines_loop_eq rec turns self lines nls il line_no pn pf :
  lines_loop rec turns self lines nls il line_no pn pf =
  match lines !! line_no with
  | None => Ok self
  | Some line =>
      match turns with
      | O => Raise OutOfFuel
      | S turns' =>
          num_indents ← calc_num_indents nls pn line il pf;
          if decide (num_indents = 1) then
            '(self, line_no, prev_is_ordinary_file) ←
              process_line rec self lines line_no num_indents nls il;
            lines_loop rec turns' self lines nls il line_no num_indents
              prev_is_ordinary_file
          else Raise AssertionError
      end
  end.
Proof. by destruct turns. Qed.

Lemma lines_loop_indentation rec turns :
  ∀ self lines nls il line_no pn pf self',
  0 < il →
  lines_loop rec turns self lines nls il line_no pn pf = Ok self' →
  main_dir self' = main_dir self ∧
  ((line_no < length lines)%nat → Py.num_leading (lines !!! line_no) - nls = il) ∧
  (∀ i, (line_no ≤ i < length lines)%nat →
        Py.num_leading (lines !!! i) - nls = il ∨
        2 * il ≤ Py.num_leading (lines !!! i) - nls) ∧
  (∀ i, (line_no < i < length lines)%nat →
        Py.num_leading (lines !!! (i - 1)%nat) - nls = il →
        ordinary_file_line (main_dir self) (lines !!! (i - 1)%nat) = true →
        Py.num_leading (lines !!! i) - nls = il).
Proof.
  induction turns as [|turns IH]; intros self lines nls il line_no pn pf self' Hil;
    rewrite lines_loop_eq; destruct (lines !! line_no) as [line|] eqn:Hline;
    try done;
    try (intros [= <-]; apply lookup_ge_None in Hline; split_and!; [done | lia | ..];
         intros; lia).
  intros (ni & Hni & H)%bind_Ok. destruct (decide (ni = 1)) as [->|]; [| done].
  apply bind_Ok in H as ([[self1 n1] f1] & Hpl & Hloop).
  apply calc_num_indents_one in Hni; [| done].
  apply process_line_frame in Hpl
    as (Hmain & _ & _ & _ & _ & Hn1 & line0 & Hline0 & Hf1).
  rewrite Hline in Hline0. injection Hline0 as <-.
  apply IH in Hloop as (Hmain' & Hfirst & Hall & Hafter); [| done].
  rewrite Hmain in *.
  pose proof (list_lookup_total_correct _ _ _ Hline) as Htot.
  assert (∀ i, (line_no < i < n1)%nat →
               2 * il ≤ Py.num_leading (lines !!! i) - nls ∧ f1 = false) as Hblock.
  { intros i Hi. destruct f1; [lia |]. split; [| done].
    destruct (block_lines_lookup lines line_no 1 nls il i) as (l & Hl & Hdeep); [lia |].
    rewrite (list_lookup_total_correct _ _ _ Hl).
    pose proof (Z.div_mod (Py.num_leading l - nls) il).
    pose proof (Z.mod_pos_bound (Py.num_leading l - nls) il). nia. }
  assert (line_no < n1)%nat as Hlt by (destruct f1; lia).
  split_and!.
  - done.
  - intros _. by rewrite Htot.
  - intros i Hi. destruct (decide (i = line_no)) as [->|]; [left; by rewrite Htot |].
    destruct (decide (i < n1)%nat); [right; apply Hblock; lia | apply Hall; lia].
  - intros i Hi Hprev Hord.
    destruct (decide (i < n1)%nat) as [Hin|Hout].
    + destruct (Hblock i) as [Hdeep Hf]; [lia |].
      destruct (decide (i - 1 = line_no)%nat) as [Heq|Hne].
      * rewrite Heq, Htot in Hord. congruence.
      * destruct (Hblock (i - 1)%nat) as [Hdeep' _]; lia.
    + destruct (decide (i = n1)) as [->|]; [apply Hfirst; lia |].
      apply Hafter; [lia | done | done].
Qed.

Lemma process_lines_inv rec self lines self' :
  _process_lines rec self lines = Ok self' →
  ∃ l0 l1 rest,
    lines = l0 :: l1 :: rest ∧
    0 < Py.num_leading l1 - Py.num_leading l0 ∧
    lines_loop rec (length lines) self lines (Py.num_leading l0)
      (Py.num_leading l1 - Py.num_leading l0) 1 0 false = Ok self'.
Proof.
  unfold _process_lines. intros (il & Hil & H)%bind_Ok.
  apply bind_Ok in H as (nls & Hnls & H).
  destruct lines as [|l0 [|l1 rest]]; try done. cbn in Hil, Hnls.
  apply bind_Ok in Hil as ([] & Hpos%assert_Ok%bool_decide_eq_true & [= <-]).
  injection Hnls as <-. exists l0, l1, rest. split_and!; [done | lia | done].
Qed.

Lemma build_inv rec structure prompt self :
  FileStructure_build rec structure prompt = Ok self →
  ∃ lines first_line main_dir_path main_dir_file_command,
    preprocess structure = Ok lines ∧
    head lines = Some first_line ∧
    Py.endswith (Py.strip first_line) ">>" = false ∧
    _parse_normal_line (Py.strip first_line) = Ok (main_dir_path, main_dir_file_command) ∧
    _is_seemingly_dir main_dir_path = true ∧
    let self0 :=
      MkFileStructure prompt (Path_of_str main_dir_path) main_dir_file_command None
        [] [] ∅ false in
    if decide (1 < length lines)%nat then _process_lines rec self0 lines = Ok self
    else self = self0.
Proof.
  unfold FileStructure_build, preprocess.
  intros (lines & Hlines & H)%bind_Ok.
  apply bind_Ok in H as (first_line & Hfirst%from_option_Ok & H).
  apply bind_Ok in H as ([] & Hm%assert_Ok%negb_true_iff & H).
  apply bind_Ok in H as ([main_dir_path fc] & Hparse & H).
  apply bind_Ok in H as ([] & Hdir%assert_Ok & H).
  exists lines, first_line, main_dir_path, fc. split_and!; try done.
  cbv zeta. destruct (decide _); [done | by injection H as <-].
Qed.

Lemma build_indentation rec structure prompt self :
  FileStructure_build rec structure prompt = Ok self →
  ∃ lines,
    preprocess structure = Ok lines ∧
    main_dir self = declared_root lines ∧
    ((1 < length lines)%nat → indentation_as_checked lines).
Proof.
  intros (lines & first_line & mdp & fc & Hpre & Hhead & _ & Hparse & _ & H)%build_inv.
  exists lines. split; [done |]. cbv zeta in H.
  assert (lines !!! 0%nat = first_line) as H0 by (by destruct lines; simplify_eq/=).
  assert (declared_root lines = Path_of_str mdp) as Hroot
    by (unfold declared_root; by rewrite H0, Hparse).
  destruct (decide _) as [Hlen|Hlen]; [| by subst self].
  apply process_lines_inv in H as (l0 & l1 & rest & -> & Hil & Hloop).
  apply lines_loop_indentation in Hloop as (Hmain & _ & Hall & Hafter); [| done].
  split; [by rewrite Hmain, Hroot |]. intros _.
  unfold indentation_as_checked, indent_unit, depth.
  change ((l0 :: l1 :: rest) !!! 1%nat) with l1.
  change ((l0 :: l1 :: rest) !!! 0%nat) with l0.
  split; [done |]. intros i Hi. split; [by apply Hall |].
  intros Hi2 Hprev Hord. apply Hafter; [lia | done |]. by rewrite <- Hroot.
Qed.

(** ** Termination: the recursion budget of [parse] is never used up *)

Lemma assert_fuel b : assert b ≠ Raise OutOfFuel.
Proof. by destruct b. Qed.

Lemma from_option_fuel {A} (o : option A) e :
  e ≠ OutOfFuel → from_option Ok (Raise e) o ≠ Raise OutOfFuel.
Proof. destruct o; cbn; congruence. Qed.

Lemma FileCommand_from_str_fuel s : FileCommand_from_str s ≠ Raise OutOfFuel.
Proof. unfold FileCommand_from_str. by destruct (List.find _ _). Qed.

Lemma parse_normal_line_fuel line : _parse_normal_line line ≠ Raise OutOfFuel.
Proof.
  unfold _parse_normal_line. intros [H|([? ?] & _ & [=])]%bind_Raise.
  destruct (Py.endswith line ">"); [| done].
  destruct (Py.rfind " " line); [| done].
  apply bind_Raise in H as [H|(? & _ & [=])]. by apply FileCommand_from_str_fuel in H.
Qed.

Lemma parse_file_structure_command_line_fuel line :
  _parse_file_structure_command_line line ≠ Raise OutOfFuel.
Proof.
  unfold _parse_file_structure_command_line, FileStructureCommand_from_str.
  intros [H|(? & _ & H)]%bind_Raise; [by apply assert_fuel in H |].
  by destruct (List.find _ _) in H.
Qed.

Lemma calc_num_indents_fuel nls pn line il pf :
  calc_num_indents nls pn line il pf ≠ Raise OutOfFuel.
Proof.
  unfold calc_num_indents. intros H.
  repeat (apply bind_Raise in H as [H|(? & _ & H)]; [by apply assert_fuel in H |]).
  destruct pf;
    repeat (apply bind_Raise in H as [H|(? & _ & H)]; [by apply assert_fuel in H |]);
    done.
Qed.

Lemma drop_blank_head_fuel lines : drop_blank_head lines ≠ Raise OutOfFuel.
Proof. induction lines as [|l ls IH]; cbn; [done |]. by destruct (decide _). Qed.

Lemma remove_empty_lines_fuel lines : _remove_empty_lines lines ≠ Raise OutOfFuel.
Proof.
  unfold _remove_empty_lines. intros [H|(l & _ & [H|(? & _ & [=])]%bind_Raise)]%bind_Raise;
    by apply drop_blank_head_fuel in H.
Qed.

Lemma calc_indent_length_fuel lines : calc_indent_length lines ≠ Raise OutOfFuel.
Proof.
  unfold calc_indent_length. destruct lines as [|? [|? ?]]; try done.
  intros [H|(? & _ & [=])]%bind_Raise. by apply assert_fuel in H.
Qed.

Lemma calc_num_leading_spaces_fuel lines : calc_num_leading_spaces lines ≠ Raise OutOfFuel.
Proof. by destruct lines. Qed.

Lemma find_None c (s : str) : Py.find c s = None → c ∉ s.
Proof.
  induction s as [|d s IH]; cbn; [intros _; apply not_elem_of_nil |].
  destruct (decide (d = c)); [done |].
  destruct (Py.find c s); [done |]. intros _ [->|?]%elem_of_cons; [done | by apply IH].
Qed.

Lemma find_Some_take c (s : str) i : Py.find c s = Some i → c ∉ take i s.
Proof.
  revert i. induction s as [|d s IH]; intros i; cbn; [done |].
  destruct (decide (d = c)); [intros [= <-]; apply not_elem_of_nil |].
  destruct (Py.find c s) as [j|]; [| done]. intros [= <-]. cbn.
  intros [->|?]%elem_of_cons; [done | by apply (IH j)].
Qed.

Lemma plain_no_linebreak c : plain c → no_linebreak c.
Proof. by intros []. Qed.

Lemma Forall_plain_no_linebreak (s : str) : Forall plain s → Forall no_linebreak s.
Proof. intros H. eapply Forall_impl; [exact H | apply plain_no_linebreak]. Qed.

Lemma remove_comments_plain lines :
  Forall (Forall no_linebreak) lines → Forall (Forall plain) (_remove_comments lines).
Proof.
  intros Hall. unfold _remove_comments. apply Forall_fmap.
  eapply Forall_impl; [exact Hall |]. intros line Hline. cbn.
  destruct (Py.find "#" line) as [i|] eqn:Hfind.
  - apply find_Some_take in Hfind. apply Forall_forall. intros c Hc. split.
    + apply (Forall_take _ i) in Hline. rewrite Forall_forall in Hline. by apply Hline.
    + by intros ->.
  - apply find_None in Hfind. apply Forall_forall. intros c Hc. split.
    + rewrite Forall_forall in Hline. by apply Hline.
    + by intros ->.
Qed.

Lemma drop_blank_head_suffix lines lines' :
  drop_blank_head lines = Ok lines' → lines' `suffix_of` lines.
Proof.
  induction lines as [|l ls IH]; cbn; [done |].
  destruct (decide _); [| by intros [= <-]].
  intros H%IH. by apply suffix_cons_r.
Qed.

Lemma remove_empty_lines_infix lines lines' :
  _remove_empty_lines lines = Ok lines' → ∃ k1 k2, lines = k1 ++ lines' ++ k2.
Proof.
  unfold _remove_empty_lines.
  intros (l1 & [k1 ->]%drop_blank_head_suffix
          & (l2 & [k2 Hk]%drop_blank_head_suffix & [= <-])%bind_Ok)%bind_Ok.
  apply (f_equal (@rev _)) in Hk. rewrite rev_involutive, rev_app_distr in Hk.
  exists k1, (rev k2). by rewrite Hk.
Qed.

Lemma preprocess_plain structure lines :
  preprocess structure = Ok lines →
  Forall (Forall plain) lines ∧ (length lines ≤ length (Py.splitlines structure))%nat.
Proof.
  unfold preprocess. intros (k1 & k2 & Hsub)%remove_empty_lines_infix. split.
  - pose proof (remove_comments_plain _ (splitlines_no_linebreak structure)) as Hall.
    rewrite Hsub, !Forall_app in Hall. tauto.
  - apply (f_equal length) in Hsub. unfold _remove_comments in Hsub.
    rewrite length_fmap, !length_app in Hsub. lia.
Qed.

Lemma plain_char (c : ascii) :
  Py.is_linebreak c = false → c ≠ "#"%char → plain c.
Proof. by split. Qed.

Lemma plain_value c : Forall plain (FileCommand_value c).
Proof. destruct c; repeat constructor; done. Qed.

Lemma list_filenames_plain (filenames_str : str) :
  Forall plain filenames_str → Forall (Forall plain) (list_filenames filenames_str).
Proof.
  intros H. unfold list_filenames. apply Forall_fmap.
  eapply Forall_impl; [apply Forall_split, Forall_drop, Forall_take, H |].
  intros x Hx. cbn.
  by apply Forall_remove_trailing_slash, Forall_strip, Forall_remove_quotation_marks,
    Forall_strip.
Qed.

Lemma Path_div_plain (p : Path) (s : str) :
  Path_chars plain p → Forall plain s → Path_chars plain (p // s).
Proof. apply Path_div_chars. by apply plain_char. Qed.

Lemma header_line_plain nls il (p : Path) fc :
  Path_chars plain p → Forall plain (header_line nls il p fc).
Proof.
  apply header_line_chars; try (by apply plain_char). apply plain_value.
Qed.

Lemma block_lines_Forall (Q : str → Prop) rest ni nls il :
  Forall Q rest → Forall Q (block_lines rest ni nls il).
Proof.
  induction 1 as [|l rest Hl Hrest IH]; cbn; [done |].
  destruct (decide _); [done | by constructor].
Qed.

Lemma block_lines_length lines line_no ni nls il :
  (length (block_lines (drop (line_no + 1) lines) ni nls il) ≤
   length lines - (line_no + 1))%nat.
Proof.
  destruct (block_lines_spec (drop (line_no + 1) lines) ni nls il) as [Hpre _].
  apply prefix_length in Hpre. by rewrite length_drop in Hpre.
Qed.

(** The text of a nested call has fewer lines than the lines it is cut
    from. *)
Lemma nested_text_lines lines line_no ni nls il (p : Path) fc :
  (1 ≤ line_no < length lines)%nat →
  Forall (Forall plain) lines → Path_chars plain p →
  (length (Py.splitlines
             (Py.join Py.newline
                (header_line nls il p fc
                 :: block_lines (drop (line_no + 1) lines) ni nls il)))
   < length lines)%nat.
Proof.
  intros Hge Hlines Hp.
  pose proof (block_lines_length lines line_no ni nls il) as Hlen.
  pose proof (length_splitlines_join (header_line nls il p fc)
                (block_lines (drop (line_no + 1) lines) ni nls il)) as Hsplit.
  assert (length (Py.splitlines
             (Py.join Py.newline
                (header_line nls il p fc
                 :: block_lines (drop (line_no + 1) lines) ni nls il)))
          ≤ S (length (block_lines (drop (line_no + 1) lines) ni nls il)))%nat; [| lia].
  apply Hsplit. constructor.
  - by apply Forall_plain_no_linebreak, header_line_plain.
  - apply block_lines_Forall, Forall_drop.
    eapply Forall_impl; [exact Hlines | apply Forall_plain_no_linebreak].
Qed.

Lemma process_line_fuel rec self lines line_no ni nls il :
  (1 ≤ line_no)%nat →
  Forall (Forall plain) lines → Path_chars plain (main_dir self) →
  (∀ t pr, (length (Py.splitlines t) < length lines)%nat → rec t pr ≠ Raise OutOfFuel) →
  process_line rec self lines line_no ni nls il ≠ Raise OutOfFuel.
Proof.
  destruct self as [pr m c sc l lc d run]. cbn [main_dir].
  intros Hge Hlines Hm Hrec. unfold process_line.
  intros [H|(line0 & Hline0%from_option_Ok & H)]%bind_Raise;
    [by apply from_option_fuel in H |].
  assert (Forall plain (Py.strip line0)) as Hline.
  { apply Forall_strip. rewrite Forall_forall in Hlines. apply Hlines.
    by eapply list_elem_of_lookup_2. }
  apply lookup_lt_Some in Hline0 as Hlt.
  assert (∀ p fc, Path_chars plain p →
            rec (Py.join Py.newline
                   (header_line nls il p fc
                    :: block_lines (drop (line_no + 1) lines) ni nls il)) pr
            ≠ Raise OutOfFuel) as Hnested.
  { intros p fc Hp. apply Hrec. by apply nested_text_lines. }
  destruct (Py.endswith (Py.strip line0) ">>").
  { apply bind_Raise in H as [H|(? & _ & H)];
      [by apply parse_file_structure_command_line_fuel in H |].
    apply bind_Raise in H as [H|(? & _ & H)]; [by apply assert_fuel in H | done]. }
  destruct (_ || _).
  - apply bind_Raise in H as [H|([fs fc] & Hparse & H)];
      [by apply parse_normal_line_fuel in H |].
    apply bind_Raise in H as [H|(? & _ & H)]; [by apply from_option_fuel in H |].
    apply bind_Raise in H as [H|(? & _ & H)]; [by apply assert_fuel in H |].
    apply bind_Raise in H as [H|(? & _ & H)]; [by apply assert_fuel in H |].
    apply bind_Raise in H as [H|(first & _ & H)]; [by apply from_option_fuel in H |].
    apply bind_Raise in H as [H|([[[??]?]?] & _ & [=])].
    destruct (_is_seemingly_dir first); [| done].
    unfold process_line_block in H.
    apply bind_Raise in H as [H|(? & _ & [=])].
    apply mapM_Raise in H as (p & (f & -> & Hf)%list_elem_of_fmap & Hp).
    revert Hp. apply Hnested. apply Path_div_plain; [done |].
    apply Forall_parse_normal_line with (P := plain) in Hparse;
      [| by repeat apply Forall_replace; try apply plain_char].
    apply list_filenames_plain in Hparse. rewrite Forall_forall in Hparse. by apply Hparse.
  - apply bind_Raise in H as [H|([f fc] & Hparse & H)];
      [by apply parse_normal_line_fuel in H |].
    apply bind_Raise in H as [H|([[[??]?]?] & _ & [=])].
    destruct (_is_seemingly_dir _); [| done].
    unfold process_line_block in H.
    apply bind_Raise in H as [H|(? & _ & [=])].
    revert H. apply Hnested. apply Path_div_plain; [done |].
    by apply Forall_parse_normal_line with (P := plain) in Hparse.
Qed.

Lemma lines_loop_fuel rec turns :
  ∀ self lines nls il line_no pn pf,
  (1 ≤ line_no)%nat → (length lines ≤ turns + line_no)%nat →
  Forall (Forall plain) lines → Path_chars plain (main_dir self) →
  (∀ t pr, (length (Py.splitlines t) < length lines)%nat → rec t pr ≠ Raise OutOfFuel) →
  lines_loop rec turns self lines nls il line_no pn pf ≠ Raise OutOfFuel.
Proof.
  induction turns as [|turns IH]; intros self lines nls il line_no pn pf Hge Hturns
    Hlines Hmain Hrec; rewrite lines_loop_eq;
    destruct (lines !! line_no) as [line|] eqn:Hline; try done.
  { apply lookup_lt_Some in Hline. lia. }
  intros [H|(ni & _ & H)]%bind_Raise; [by apply calc_num_indents_fuel in H |].
  destruct (decide (ni = 1)) as [->|]; [| done].
  apply bind_Raise in H as [H|([[self1 n1] f1] & Hpl & H)];
    [by apply process_line_fuel in H |].
  apply process_line_frame in Hpl as (Hmain1 & _ & _ & _ & _ & Hn1 & _).
  revert H. apply IH; try done.
  - destruct f1; lia.
  - destruct f1; lia.
  - by rewrite Hmain1.
Qed.

Lemma build_fuel rec structure prompt :
  (∀ t pr, (length (Py.splitlines t) < length (Py.splitlines structure))%nat →
           rec t pr ≠ Raise OutOfFuel) →
  FileStructure_build rec structure prompt ≠ Raise OutOfFuel.
Proof.
  intros Hrec. unfold FileStructure_build.
  intros [H|(lines & Hpre & H)]%bind_Raise; [by apply remove_empty_lines_fuel in H |].
  apply preprocess_plain in Hpre as [Hlines Hlen].
  apply bind_Raise in H as [H|(first_line & Hfirst%from_option_Ok & H)];
    [by apply from_option_fuel in H |].
  apply bind_Raise in H as [H|(? & _ & H)]; [by apply assert_fuel in H |].
  apply bind_Raise in H as [H|([mdp fc] & Hparse & H)];
    [by apply parse_normal_line_fuel in H |].
  apply bind_Raise in H as [H|(? & _ & H)]; [by apply assert_fuel in H |].
  destruct (decide _); [| done].
  unfold _process_lines in H.
  apply bind_Raise in H as [H|(il & _ & H)]; [by apply calc_indent_length_fuel in H |].
  apply bind_Raise in H as [H|(nls & _ & H)];
    [by apply calc_num_leading_spaces_fuel in H |].
  revert H. apply lines_loop_fuel; try done; [lia | |].
  - cbn [main_dir]. apply Path_of_str_chars; [by apply plain_char |].
    eapply Forall_parse_normal_line; [| exact Hparse].
    apply Forall_strip. rewrite Forall_forall in Hlines. apply Hlines.
    destruct lines; simplify_eq/=. left.
  - intros t pr Ht. apply Hrec. lia.
Qed.

Lemma FileStructure_lazy_fuel fuel :
  ∀ structure prompt,
  (length (Py.splitlines structure) < fuel)%nat →
  FileStructure_lazy fuel structure prompt ≠ Raise OutOfFuel.
Proof.
  induction fuel as [|fuel IH]; intros structure prompt Hfuel; [lia |].
  cbn [FileStructure_lazy]. apply build_fuel. intros t pr Ht. apply IH. lia.
Qed.

(** X1. The constructor ends on every text, with a structure or with a
    Python exception: every nested constructor call is given fewer lines
    than its caller has, so the recursion budget of [parse], one more than
    the number of lines, is never used up. *)
Theorem parse_terminates structure prompt : parse structure prompt ≠ Raise OutOfFuel.
Proof. apply FileStructure_lazy_fuel. lia. Qed.

(** X2.  [parse] raises unless the indent unit, the depth of the
    second line, is positive and every later line is one indent unit deep or
    at least two units deep, a line after an ordinary-file line of depth one
    unit being one unit deep itself.  (The deeper lines form the block of the
    directory line before them; the nested constructor call reads them in the
    same way, against the first two lines of the nested text.) *)
Theorem parse_checks_indentation (structure : str) (prompt : bool) :
  (∃ e, parse structure prompt = Raise e ∧ e ≠ OutOfFuel)
  ∨ (∃ self lines,
       parse structure prompt = Ok self ∧
       preprocess structure = Ok lines ∧
       main_dir self = declared_root lines ∧
       ((1 < length lines)%nat → indentation_as_checked lines)).
Proof.
  assert (parse structure prompt ≠ Raise OutOfFuel) as Hterm
    by (apply FileStructure_lazy_fuel; lia).
  destruct (parse structure prompt) as [self|e] eqn:Hparse.
  - right. unfold parse in Hparse. cbn [FileStructure_lazy] in Hparse.
    apply build_indentation in Hparse as (lines & Hpre & Hmain & Hind).
    by exists self, lines.
  - left. exists e. split; [done | congruence].
Qed.

(** *** Delegation *)

Lemma delegated_children_app (Q : FileStructure → Prop) l1 lc1 l2 lc2 :
  delegated_children Q l1 lc1 → delegated_children Q l2 lc2 →
  delegated_children Q (l1 ++ l2) (lc1 ++ lc2).
Proof.
  revert lc1. induction l1 as [|child l1 IH]; intros [|fc lc1]; cbn; try done.
  intros [Hc H1] H2. split; [done | by apply IH].
Qed.

Lemma delegated_children_paths (Q : FileStructure → Prop) (paths : list Path) fc :
  delegated_children Q (APath <$> paths) (replicate (length paths) fc).
Proof. induction paths; cbn; [done | by split]. Qed.

Lemma delegated_children_nested (Q : FileStructure → Prop) (subs : list FileStructure) :
  Forall Q subs →
  delegated_children Q (AFileStructure <$> subs) (replicate (length subs) None).
Proof. induction 1; cbn; [done | by split]. Qed.

Lemma process_line_delegated rec self lines line_no ni nls il self' line_no' flag :
  (∀ t pr s, rec t pr = Ok s → delegated s) →
  delegated self →
  process_line rec self lines line_no ni nls il = Ok (self', line_no', flag) →
  delegated self'.
Proof.
  intros Hrec Hself (line0 & Hline0 & Hcases)%process_line_inv. cbv zeta in Hcases.
  destruct self as [pr m c sc l lc d run]. cbn in Hself.
  destruct Hcases as [(Hm & fsc & _ & Hsc & -> & -> & ->)
    |[(Hm & Hl & fs & fc & first & new & Hparse & Hhead & -> & Hflag & Hrest)
     |(Hm & Hl & f & fc & new & Hparse & -> & Hflag & Hrest)]];
    cbn [delegated list_dir list_dir_file_commands prompt main_dir] in *.
  - done.
  - apply delegated_children_app; [done |]. destruct flag.
    + destruct Hrest as [-> _]. rewrite <- (length_fmap (λ filename, m // filename)).
      apply delegated_children_paths.
    + destruct Hrest as (subs & Hsubs & -> & _).
      rewrite <- (length_fmap (λ filename, m // filename)),
        <- (mapM_Ok_length _ _ _ Hsubs).
      apply delegated_children_nested.
      eapply mapM_Ok_Forall; [| exact Hsubs]. intros x y _. apply Hrec.
  - apply delegated_children_app; [done |]. destruct flag.
    + destruct Hrest as [-> _]. by cbn.
    + destruct Hrest as (sub & Hsub & -> & _). cbn. split_and!; [done | | done].
      by eapply Hrec.
Qed.

Lemma lines_loop_delegated rec turns :
  ∀ self lines nls il line_no pn pf self',
  (∀ t pr s, rec t pr = Ok s → delegated s) →
  delegated self →
  lines_loop rec turns self lines nls il line_no pn pf = Ok self' →
  delegated self'.
Proof.
  induction turns as [|turns IH]; intros self lines nls il line_no pn pf self' Hrec Hself;
    rewrite lines_loop_eq; destruct (lines !! line_no) as [line|];
    try done; try (by intros [= <-]).
  intros (ni & _ & H)%bind_Ok. destruct (decide (ni = 1)) as [->|]; [| done].
  apply bind_Ok in H as ([[self1 n1] f1] & Hpl & Hloop).
  eapply IH; [done | | exact Hloop]. by eapply process_line_delegated.
Qed.

Lemma build_delegated rec structure prompt self :
  (∀ t pr s, rec t pr = Ok s → delegated s) →
  FileStructure_build rec structure prompt = Ok self → delegated self.
Proof.
  intros Hrec (lines & first_line & mdp & fc & _ & _ & _ & _ & _ & H)%build_inv.
  cbv zeta in H. destruct (decide _); [| by subst self].
  apply process_lines_inv in H as (l0 & l1 & rest & -> & _ & Hloop).
  eapply lines_loop_delegated; [done | | exact Hloop]. done.
Qed.

Lemma FileStructure_lazy_delegated fuel :
  ∀ structure prompt self,
  FileStructure_lazy fuel structure prompt = Ok self → delegated self.
Proof.
  induction fuel as [|fuel IH]; intros structure prompt self; [done |].
  cbn [FileStructure_lazy]. apply build_delegated. apply IH.
Qed.

(** X3. In every structure the constructor returns, and at every depth of
    it, each child has its entry in [list_dir_file_commands] and the entry
    of a nested directory is [None]: the assertion on delegated commands in
    [do] cannot fail on it. *)
Theorem parse_delegated structure prompt self :
  parse structure prompt = Ok self → delegated self.
Proof. apply FileStructure_lazy_delegated. Qed.

(** *** One structure command at most *)

Lemma structure_command_line_endswith (line : str) :
  structure_command_line line → Py.endswith (Py.strip line) ">>" = true.
Proof. intros [c ->]. by destruct c. Qed.

(** A line one unit deep is in no block. *)
Lemma not_in_block lines line_no nls il j :
  0 < il →
  (line_no < j)%nat →
  Py.num_leading (lines !!! j) - nls = il →
  (line_no + 1 + length (block_lines (drop (line_no + 1) lines) 1 nls il) ≤ j)%nat.
Proof.
  intros Hil Hlt Hj.
  destruct (decide (line_no + 1 + length (block_lines (drop (line_no + 1) lines) 1 nls il)
                    ≤ j)%nat) as [|Hin]; [done |].
  destruct (block_lines_lookup lines line_no 1 nls il j) as (l & Hl & Hdeep); [lia |].
  rewrite (list_lookup_total_correct _ _ _ Hl) in Hj. rewrite Hj in Hdeep.
  rewrite Z.div_same in Hdeep by lia. lia.
Qed.

Lemma parse_delegated_witness : delegated (example_root false).
Proof. apply (parse_delegated example_text true). vm_compute. reflexivity. Defined.

Lemma lines_loop_after_structure_command rec turns :
  ∀ self lines nls il line_no pn pf self' j,
  0 < il →
  is_Some (main_dir_file_structure_command self) →
  lines_loop rec turns self lines nls il line_no pn pf = Ok self' →
  (line_no ≤ j < length lines)%nat →
  Py.num_leading (lines !!! j) - nls = il →
  structure_command_line (lines !!! j) →
  False.
Proof.
  induction turns as [|turns IH]; intros self lines nls il line_no pn pf self' j Hil Hsc;
    rewrite lines_loop_eq; destruct (lines !! line_no) as [line|] eqn:Hline.
  - done.
  - intros _ Hj. apply lookup_ge_None in Hline. lia.
  - intros (ni & _ & H)%bind_Ok Hj Hdepth Hcmd.
    destruct (decide (ni = 1)) as [->|]; [| done].
    apply bind_Ok in H as ([[self1 n1] f1] & Hpl & Hloop).
    destruct (decide (j = line_no)) as [->|Hne].
    + rewrite (list_lookup_total_correct _ _ _ Hline) in Hcmd.
      apply structure_command_line_endswith in Hcmd.
      apply process_line_inv in Hpl as (line0 & Hline0 & Hcases).
      rewrite Hline in Hline0. injection Hline0 as <-. cbv zeta in Hcases.
      destruct Hcases as [(_ & _ & _ & Hnone & _)|[(Hm & _)|(Hm & _)]];
        [| congruence | congruence].
      rewrite Hnone in Hsc. by destruct Hsc.
    + apply process_line_frame in Hpl as (_ & _ & _ & _ & Hsc1 & Hn1 & _).
      eapply (IH self1); [done | by rewrite Hsc1 | exact Hloop | | done | done].
      split; [| lia]. destruct f1; [lia |]. rewrite Hn1. apply not_in_block; [done | lia | done].
  - intros _ Hj. apply lookup_ge_None in Hline. lia.
Qed.

Lemma lines_loop_two_structure_commands rec turns :
  ∀ self lines nls il line_no pn pf self' i j,
  0 < il →
  lines_loop rec turns self lines nls il line_no pn pf = Ok self' →
  (line_no ≤ i < j)%nat → (j < length lines)%nat →
  Py.num_leading (lines !!! i) - nls = il → structure_command_line (lines !!! i) →
  Py.num_leading (lines !!! j) - nls = il → structure_command_line (lines !!! j) →
  False.
Proof.
  induction turns as [|turns IH]; intros self lines nls il line_no pn pf self' i j Hil;
    rewrite lines_loop_eq; destruct (lines !! line_no) as [line|] eqn:Hline.
  - done.
  - intros _ Hi Hj. apply lookup_ge_None in Hline. lia.
  - intros (ni & _ & H)%bind_Ok Hi Hj Hdi Hci Hdj Hcj.
    destruct (decide (ni = 1)) as [->|]; [| done].
    apply bind_Ok in H as ([[self1 n1] f1] & Hpl & Hloop).
    destruct (decide (i = line_no)) as [->|Hne].
    + rewrite (list_lookup_total_correct _ _ _ Hline) in Hci.
      apply structure_command_line_endswith in Hci.
      apply process_line_inv in Hpl as (line0 & Hline0 & Hcases).
      rewrite Hline in Hline0. injection Hline0 as <-. cbv zeta in Hcases.
      destruct Hcases as [(_ & c & _ & _ & -> & -> & ->)|[(Hm & _)|(Hm & _)]];
        [| congruence | congruence].
      eapply (lines_loop_after_structure_command rec turns _ lines nls il _ _ _ self' j);
        [done | | exact Hloop | lia | done | done].
      by eexists.
    + apply process_line_frame in Hpl as (_ & _ & _ & _ & _ & Hn1 & _).
      eapply (IH self1 lines nls il n1 _ _ self' i j); try done.
      split; [| lia]. destruct f1; [lia |]. rewrite Hn1. apply not_in_block; [done | lia | done].
  - intros _ Hi Hj. apply lookup_ge_None in Hline. lia.
Qed.

Lemma build_two_structure_commands rec structure prompt self lines i j :
  FileStructure_build rec structure prompt = Ok self →
  preprocess structure = Ok lines →
  (1 ≤ i < j)%nat → (j < length lines)%nat →
  depth lines i = indent_unit lines → structure_command_line (lines !!! i) →
  depth lines j = indent_unit lines → structure_command_line (lines !!! j) →
  False.
Proof.
  intros (lines' & first_line & mdp & fc & Hpre' & _ & _ & _ & _ & H)%build_inv Hpre.
  rewrite Hpre in Hpre'. injection Hpre' as <-. cbv zeta in H.
  intros Hi Hj. destruct (decide _) as [|Hlen]; [| lia].
  apply process_lines_inv in H as (l0 & l1 & rest & -> & Hil & Hloop).
  unfold indent_unit, depth.
  change ((l0 :: l1 :: rest) !!! 1%nat) with l1.
  change ((l0 :: l1 :: rest) !!! 0%nat) with l0.
  intros Hdi Hci Hdj Hcj.
  by eapply (lines_loop_two_structure_commands _ _ _ _ _ _ _ _ _ _ i j Hil Hloop).
Qed.

(** *** The command of a directory line reaches the nested object *)

Lemma lstrip_app (a b : str) :
  Py.lstrip (a ++ b) = if decide (Py.lstrip a = []) then Py.lstrip b else Py.lstrip a ++ b.
Proof.
  induction a as [|c a IH]; cbn; [done |].
  destruct (Py.isspace c); [done |]. by destruct (decide _).
Qed.

Lemma rstrip_snoc (s : str) c : Py.isspace c = false → Py.rstrip (s ++ [c]) = s ++ [c].
Proof.
  intros Hc. unfold Py.rstrip. rewrite rev_app_distr. cbn. rewrite Hc. cbn.
  by rewrite rev_involutive.
Qed.

Lemma startswith_app (p r : str) : Py.startswith (p ++ r) p = true.
Proof.
  induction p as [|c p IH]; cbn; [by destruct r |]. by rewrite bool_decide_eq_true_2.
Qed.

Lemma endswith_app (s suf : str) : Py.endswith (s ++ suf) suf = true.
Proof. unfold Py.endswith. rewrite rev_app_distr. apply startswith_app. Qed.

Lemma find_app_notin c (x y : str) :
  c ∉ x → Py.find c (x ++ c :: y) = Some (length x).
Proof.
  induction x as [|d x IH]; cbn; intros Hc.
  - by rewrite decide_True.
  - apply not_elem_of_cons in Hc as [Hne Hc]. rewrite decide_False by done.
    by rewrite IH.
Qed.

Lemma rfind_middle c (a b : str) :
  c ∉ b → Py.rfind c (a ++ c :: b) = Some (length a).
Proof.
  intros Hc. unfold Py.rfind. rewrite rev_app_distr. cbn [rev].
  rewrite <- app_assoc. cbn [app].
  rewrite find_app_notin by (by rewrite elem_of_rev). cbn. f_equal.
  rewrite length_app, length_rev. cbn. lia.
Qed.

(** A line that ends with a blank and the token of [c] is read as a name
    with the command [c], or not at all. *)
Lemma parse_normal_line_command (pre : str) c r :
  _parse_normal_line (Py.strip (pre ++ " " ++ FileCommand_value c)) = Ok r →
  r.2 = Some c.
Proof.
  assert (∃ v0, FileCommand_value c = v0 ++ ">" ∧ ¬ (" "%char ∈ FileCommand_value c) ∧
                Py.lstrip (FileCommand_value c) = FileCommand_value c ∧
                Py.strip (FileCommand_value c) = FileCommand_value c ∧
                FileCommand_from_str (FileCommand_value c) = Ok c ∧
                _parse_normal_line (FileCommand_value c) = Raise ValueError)
    as (v0 & Hv0 & Hnospace & Hlstrip & Hstrip & Hfrom & Halone).
  { destruct c; (eexists [_; _]; split_and!; [reflexivity | | done..]);
      rewrite list_elem_of_In; cbn; intros [?|[?|[?|[]]]]; done. }
  set (v := FileCommand_value c) in *.
  assert (Py.strip (pre ++ " " ++ v) = Py.lstrip ((pre ++ " ") ++ v)) as ->.
  { unfold Py.strip. f_equal. rewrite Hv0.
    replace (pre ++ " " ++ v0 ++ ">") with ((pre ++ " " ++ v0) ++ [">"%char])
      by (by rewrite <- !app_assoc).
    rewrite rstrip_snoc by done. by rewrite <- !app_assoc. }
  rewrite lstrip_app, (lstrip_app pre " "). cbn [Py.lstrip Py.isspace].
  destruct (decide (Py.lstrip pre = [])) as [Hpre|Hpre].
  - rewrite decide_True by done. rewrite Hlstrip, Halone. done.
  - rewrite decide_False by (by destruct (Py.lstrip pre)).
    set (q := Py.lstrip pre) in *. unfold _parse_normal_line.
    assert (Py.endswith ((q ++ " ") ++ v) ">" = true) as ->.
    { rewrite Hv0, app_assoc. apply endswith_app. }
    rewrite <- app_assoc. cbn [app list_ascii_of_string].
    rewrite rfind_middle by done.
    replace (drop (length q + 1) (q ++ " "%char :: v)) with v.
    2:{ change (q ++ " "%char :: v) with (q ++ [" "%char] ++ v). rewrite app_assoc.
        rewrite drop_app_length'; [done |]. rewrite length_app. cbn. lia. }
    rewrite Hstrip, Hfrom. cbn. by intros [= <-].
Qed.

Lemma find_notin c (s : str) : c ∉ s → Py.find c s = None.
Proof.
  induction s as [|d s IH]; cbn; [done |].
  intros [Hne Hc]%not_elem_of_cons. rewrite decide_False by done. by rewrite IH.
Qed.

Lemma lstrip_snoc_nonempty (s : str) c : Py.isspace c = false → Py.lstrip (s ++ [c]) ≠ [].
Proof.
  intros Hc. induction s as [|d s IH]; cbn; [by rewrite Hc |]. by destruct (Py.isspace d).
Qed.

Lemma drop_blank_head_nonempty lines lines' :
  drop_blank_head lines = Ok lines' → lines' ≠ [].
Proof.
  induction lines as [|l ls IH]; cbn; [done |].
  destruct (decide _); [done | by intros [= <-]].
Qed.

Lemma remove_empty_lines_head l ls lines :
  Py.strip l ≠ [] → _remove_empty_lines (l :: ls) = Ok lines → head lines = Some l.
Proof.
  intros Hl. unfold _remove_empty_lines. cbn [drop_blank_head].
  rewrite decide_False by done.
  intros (l1 & [= <-] & (l2 & Hl2 & [= <-])%bind_Ok)%bind_Ok.
  pose proof (drop_blank_head_nonempty _ _ Hl2) as Hne.
  apply drop_blank_head_suffix in Hl2 as [k Hk].
  apply (f_equal (@rev _)) in Hk. rewrite rev_involutive, rev_app_distr in Hk.
  destruct (rev l2) as [|x r] eqn:Hrev.
  - apply (f_equal (@rev _)) in Hrev. rewrite rev_involutive in Hrev. by subst.
  - cbn in Hk. by injection Hk as -> _.
Qed.

Lemma lines_loop_command rec turns :
  ∀ self lines nls il line_no pn pf self',
  lines_loop rec turns self lines nls il line_no pn pf = Ok self' →
  main_dir_file_command self' = main_dir_file_command self.
Proof.
  induction turns as [|turns IH]; intros self lines nls il line_no pn pf self';
    rewrite lines_loop_eq; destruct (lines !! line_no) as [line|];
    try done; try (by intros [= <-]).
  intros (ni & _ & H)%bind_Ok. destruct (decide (ni = 1)) as [->|]; [| done].
  apply bind_Ok in H as ([[self1 n1] f1] & Hpl & Hloop).
  apply process_line_frame in Hpl as (_ & _ & Hcmd & _).
  apply IH in Hloop. congruence.
Qed.

Lemma FileCommand_value_snoc c : ∃ y : str, FileCommand_value c = y ++ [">"%char].
Proof. destruct c; by eexists [_; _]. Qed.

(** The nested constructor call reads the command off the first line of
    its text. *)
Lemma build_reads_header_command rec nls il (p : Path) c block prompt sub :
  Path_chars plain p → Forall (Forall no_linebreak) block →
  FileStructure_build rec
    (Py.join Py.newline (header_line nls il p (Some c) :: block)) prompt = Ok sub →
  main_dir_file_command sub = Some c.
Proof.
  intros Hp Hblock.
  set (header := header_line nls il p (Some c)).
  assert (Forall plain header) as Hplain by (by apply header_line_plain).
  assert (∃ x, header = x ++ [">"%char]) as [x Hx].
  { destruct (FileCommand_value_snoc c) as [y Hy]. unfold header, header_line.
    rewrite Hy. exists (replicate (Z.to_nat (nls + il)) " "%char ++ Path_str p ++ " " ++ y).
    by rewrite <- !app_assoc. }
  assert (Py.strip header ≠ []) as Hstrip.
  { unfold Py.strip. rewrite Hx, rstrip_snoc by done. by apply lstrip_snoc_nonempty. }
  assert (∃ rest, Py.splitlines (Py.join Py.newline (header :: block)) = header :: rest)
    as [rest Hsplit].
  { rewrite splitlines_join
      by (constructor; [by apply Forall_plain_no_linebreak | done]).
    destruct (decide _) as [Hlast|]; [| eauto].
    destruct block as [|b block']; [| cbn; eauto].
    cbn in Hlast. injection Hlast as Hlast. rewrite Hlast in Hx. by destruct x. }
  intros (lines & first_line & mdp & fc & Hpre & Hhead & _ & Hparse & _ & H)%build_inv.
  unfold preprocess in Hpre. rewrite Hsplit in Hpre. cbn [_remove_comments fmap list_fmap] in Hpre.
  rewrite find_notin in Hpre.
  2:{ intros Hin. rewrite Forall_forall in Hplain. by destruct (Hplain _ Hin). }
  apply remove_empty_lines_head in Hpre; [| done].
  rewrite Hhead in Hpre. injection Hpre as ->.
  unfold header, header_line in Hparse. rewrite app_assoc in Hparse.
  apply parse_normal_line_command in Hparse. cbn in Hparse. subst fc.
  cbv zeta in H. destruct (decide _); [| by subst sub].
  apply process_lines_inv in H as (l0 & l1 & rest' & _ & _ & Hloop).
  by apply lines_loop_command in Hloop.
Qed.

(** * Further properties of the code *)

(** ** The constructor *)

(** X4. A text with two structure commands for one directory is refused:
    when two lines one indent unit deep each hold a structure command, the
    constructor raises. *)
Theorem second_structure_command_raises (structure : str) (prompt : bool)
    (lines : list str) (i j : nat) :
  preprocess structure = Ok lines →
  (1 ≤ i < j)%nat → (j < length lines)%nat →
  depth lines i = indent_unit lines → structure_command_line (lines !!! i) →
  depth lines j = indent_unit lines → structure_command_line (lines !!! j) →
  ∃ e, parse structure prompt = Raise e ∧ e ≠ OutOfFuel.
Proof.
  intros Hpre Hi Hj Hdi Hci Hdj Hcj.
  destruct (parse structure prompt) as [self|e] eqn:Hparse.
  - exfalso. unfold parse in Hparse. cbn [FileStructure_lazy] in Hparse.
    by eapply (build_two_structure_commands _ structure prompt self lines i j).
  - exists e. split; [done |]. intros ->.
    by apply (FileStructure_lazy_fuel _ structure prompt) in Hparse; [| lia].
Qed.

Lemma second_structure_command_raises_witness :
  ∃ e, parse two_commands_text true = Raise e ∧ e ≠ OutOfFuel.
Proof.
  apply (second_structure_command_raises two_commands_text true
           ["T" : str; "  <<0>>" : str; "  <<1>>" : str] 1 2).
  - vm_compute. reflexivity.
  - lia.
  - cbn. lia.
  - vm_compute. reflexivity.
  - exists THAT_IS_ALL. vm_compute. reflexivity.
  - vm_compute. reflexivity.
  - exists REMOVE_EVERYTHING_ELSE. vm_compute. reflexivity.
Defined.

(** ** The accessors *)

Lemma getitem_body_no_slash rec self (key : str) :
  key ≠ [] → ¬ ("/"%char ∈ key) →
  getitem_body rec self key =
  match dict_dir self !! key with
  | None => Raise KeyError
  | Some i =>
      path_or_file_structure ← from_option Ok (Raise IndexError) (list_dir self !! i);
      mret (APath (_as_path path_or_file_structure))
  end.
Proof.
  intros Hne Hslash. unfold getitem_body.
  destruct (decide _) as [[->| ->]|_]; [done | | ].
  { exfalso. apply Hslash. left. }
  assert (match key with [] => Raise IndexError | _ => Ok key end = Ok key) as Hm
    by (by destruct key).
  rewrite strip_leading_slashes_no_slash, Hm by done.
  unfold mbind, result_bind at 1.
  rewrite strip_trailing_slashes_no_slash, Hm by done.
  unfold mbind, result_bind at 1. unfold Py.contains.
  by rewrite bool_decide_eq_false_2 by done.
Qed.

(** X13. A name that was not declared raises [KeyError]. *)
Theorem getitem_undeclared_name (self : FileStructure) (key : str) :
  key ≠ [] → ¬ ("/"%char ∈ key) → dict_dir self !! key = None →
  __getitem__ self key = Raise KeyError.
Proof.
  intros Hne Hslash Hdict. unfold __getitem__. cbn [getitem_fuel].
  by rewrite getitem_body_no_slash, Hdict.
Qed.

Lemma getitem_undeclared_name_witness :
  __getitem__ (example_root false) "abc" = Raise KeyError.
Proof.
  apply getitem_undeclared_name.
  - done.
  - intros H. by repeat (apply elem_of_cons in H as [?|H]; [done |]); apply elem_of_nil in H.
  - vm_compute. reflexivity.
Defined.

Lemma strip_leading_slashes_all (key : str) :
  Forall (λ c, c = "/"%char) key → strip_leading_slashes key = Raise IndexError.
Proof.
  induction 1 as [|c key -> _ IH]; cbn; [done |]. by rewrite decide_True.
Qed.

(** X15. A key of two or more slashes and nothing else raises
    [IndexError]: the loop that drops the leading slashes runs off the end
    of the key. *)
Theorem getitem_only_slashes (self : FileStructure) (key : str) :
  Forall (λ c, c = "/"%char) key → (2 ≤ length key)%nat →
  __getitem__ self key = Raise IndexError.
Proof.
  intros Hall Hlen. unfold __getitem__. cbn [getitem_fuel]. unfold getitem_body.
  destruct (decide _) as [[->| ->]|_]; [cbn in Hlen; lia | cbn in Hlen; lia |].
  by rewrite strip_leading_slashes_all.
Qed.

Lemma getitem_only_slashes_witness :
  __getitem__ (example_root false) "//" = Raise IndexError.
Proof.
  apply getitem_only_slashes.
  - by repeat constructor.
  - cbn. lia.
Defined.

Lemma strip_leading_slashes_replicate m (key : str) :
  key ≠ [] → head key ≠ Some "/"%char →
  strip_leading_slashes (replicate m "/"%char ++ key) = Ok key.
Proof.
  intros Hne Hhead. induction m as [|m IH]; cbn.
  - destruct key as [|c key]; [done |]. cbn.
    rewrite decide_False; [done |]. intros ->. by apply Hhead.
  - by rewrite decide_True.
Qed.

Lemma rev_replicate {A} n (x : A) : rev (replicate n x) = replicate n x.
Proof.
  induction n as [|n IH]; cbn; [done |]. rewrite IH.
  clear IH. induction n as [|n IH]; cbn; [done |]. by rewrite IH.
Qed.

Lemma head_rev_last {A} (l : list A) : head (rev l) = last l.
Proof.
  induction l as [|x l _] using rev_ind; [done |].
  by rewrite rev_app_distr, last_snoc.
Qed.

Lemma strip_trailing_slashes_replicate n (key : str) :
  key ≠ [] → last key ≠ Some "/"%char →
  strip_trailing_slashes (key ++ replicate n "/"%char) = Ok key.
Proof.
  intros Hne Hlast. unfold strip_trailing_slashes.
  rewrite rev_app_distr, rev_replicate, strip_leading_slashes_replicate.
  - cbn. by rewrite rev_involutive.
  - intros H. apply (f_equal (@rev _)) in H. by rewrite rev_involutive in H.
  - by rewrite head_rev_last.
Qed.

(** X16. Slashes before and after a key are dropped: the key between them
    is looked up. *)
Theorem getitem_ignores_outer_slashes (self : FileStructure) (key : str) (m n : nat) :
  key ≠ [] → head key ≠ Some "/"%char → last key ≠ Some "/"%char →
  __getitem__ self (replicate m "/"%char ++ key ++ replicate n "/"%char) =
  __getitem__ self key.
Proof.
  intros Hne Hhead Hlast. unfold __getitem__. cbn [getitem_fuel]. unfold getitem_body.
  assert (key ≠ "/") as Hkey by (intros ->; by apply Hhead).
  destruct (decide (_ ++ _ = _ ∨ _)) as [[Hk|Hk]|_].
  - apply (f_equal length) in Hk. rewrite !length_app in Hk. destruct key; [done |].
    cbn in Hk. lia.
  - exfalso. destruct m as [|m]; cbn in Hk.
    + destruct key as [|c key]; [done |]. cbn in Hk. injection Hk as -> Hk.
      by apply Hhead.
    + injection Hk as Hk. apply (f_equal length) in Hk. rewrite !length_app in Hk.
      destruct key; [done |]. cbn in Hk. lia.
  - destruct (decide (key = _ ∨ _)) as [[?|?]|_]; [done.. |].
    pose proof (strip_leading_slashes_replicate 0 key Hne Hhead) as Hl0.
    pose proof (strip_trailing_slashes_replicate 0 key Hne Hlast) as Ht0.
    cbn [replicate app] in Hl0, Ht0. rewrite app_nil_r in Ht0.
    rewrite strip_leading_slashes_replicate, Hl0.
    + unfold mbind, result_bind. cbv beta iota.
      by rewrite strip_trailing_slashes_replicate, Ht0 by done.
    + by destruct key.
    + by destruct key.
Qed.

Lemma getitem_ignores_outer_slashes_witness :
  __getitem__ (example_root false) "//xyz/" = __getitem__ (example_root false) "xyz".
Proof. by apply (getitem_ignores_outer_slashes (example_root false) "xyz" 2 1). Defined.

Lemma split_head_no_sep c (s f0 : str) rest :
  Py.split c s = f0 :: rest → ¬ (c ∈ f0).
Proof.
  revert f0 rest. induction s as [|d s IH]; intros f0 rest; cbn.
  - intros [= <- <-]. apply not_elem_of_nil.
  - destruct (decide (d = c)) as [->|Hne].
    + intros [= <- <-]. apply not_elem_of_nil.
    + destruct (Py.split c s) as [|l ls] eqn:Hs.
      * intros [= <- <-]. apply not_elem_of_cons. split; [done |]. apply not_elem_of_nil.
      * intros [= <- <-]. apply not_elem_of_cons. split; [done |]. by eapply IH.
Qed.

(** ** The run *)

(** X17. A run changes the [commands_run] flags only: with every flag
    cleared, the object after the run is the object before it, whether the
    run returns or raises. *)
Theorem do_changes_flags_only (self : FileStructure) (w : World) :
  unmark (FileStructure_do self w).1.1 = unmark self.
Proof. apply do_unmark. Qed.

Lemma do_children_no_commands pr l lc w :
  Forall (nested_all (λ s, no_commands s →
            ∀ w, (FileStructure_do s w).1.2 = w ∧ (FileStructure_do s w).2 = Ok ())) l →
  Forall (λ file_command, file_command = None) lc →
  every_nested no_commands l →
  (do_children FileStructure_do pr l lc w).1.2 = w ∧
  (do_children FileStructure_do pr l lc w).2 = Ok ().
Proof.
  intros Hall. revert lc w. induction Hall as [|child l Hchild _ IH]; intros lc w Hlc Hl.
  - by destruct lc.
  - destruct lc as [|fc lc]; [done |]. cbn [do_children].
    apply Forall_cons in Hlc as [-> Hlc]. destruct Hl as [Hc Hl].
    assert (∃ child', do_child FileStructure_do pr child None w = (child', w, Ok ()))
      as [child' ->].
    { destruct child as [p|s]; cbn; [eauto |].
      destruct (Hchild Hc w) as [Hw Hr].
      destruct (FileStructure_do s w) as [[s' w'] r]. cbn in Hw, Hr. subst. eauto. }
    destruct (IH lc w Hlc Hl) as [Hw Hr].
    destruct (do_children _ _ _ _ _) as [[rest w''] r'']. cbn in *. by subst.
Qed.

(** X18. A run acts through the commands only: on a structure with no
    command at any depth it returns and leaves the disk and the input as
    they are. *)
Theorem do_no_commands (self : FileStructure) (w : World) :
  no_commands self →
  (FileStructure_do self w).1.2 = w ∧ (FileStructure_do self w).2 = Ok ().
Proof.
  intros Hno. revert w.
  induction self as [pr m c sc l lc d run Hall] using FileStructure_nested_ind.
  destruct Hno as (-> & -> & Hlc & Hl). intros w. rewrite FileStructure_do_eq.
  destruct run; [done |].
  destruct (do_children_no_commands pr l lc w Hall Hlc Hl) as [Hw Hr].
  destruct (do_children _ _ _ _ _) as [[l' w3] r3]. cbn in *. by subst.
Qed.

Lemma do_no_commands_witness :
  (FileStructure_do plain_root empty_world).1.2 = empty_world ∧
  (FileStructure_do plain_root empty_world).2 = Ok ().
Proof. apply do_no_commands. cbn. repeat split; by repeat constructor. Defined.

(** ** The commands *)

(** X19. [from_str] reads back what [value] writes, for both kinds of
    command, and raises [KeyError] on every other text. *)
Theorem from_str_value (s : str) :
  (∀ c, FileCommand_from_str s = Ok c ↔ s = FileCommand_value c)
  ∧ (FileCommand_from_str s = Raise KeyError ↔ ∀ c, s ≠ FileCommand_value c)
  ∧ (∀ c, FileStructureCommand_from_str s = Ok c ↔ s = FileStructureCommand_value c)
  ∧ (FileStructureCommand_from_str s = Raise KeyError ↔
     ∀ c, s ≠ FileStructureCommand_value c).
Proof.
  split_and!.
  - intros c. split.
    + unfold FileCommand_from_str, FileCommand_members. cbn [List.find].
      repeat (case_bool_decide as H; [intros [= <-]; by rewrite <- H | clear H]). done.
    + intros ->. by destruct c.
  - split.
    + unfold FileCommand_from_str, FileCommand_members. cbn [List.find].
      repeat (case_bool_decide as H; [done | revert H]).
      intros ??????? _ c. by destruct c.
    + intros Hall. unfold FileCommand_from_str, FileCommand_members. cbn [List.find].
      repeat (case_bool_decide as H; [symmetry in H; by apply Hall in H | clear H]). done.
  - intros c. split.
    + unfold FileStructureCommand_from_str. cbn [List.find].
      repeat (case_bool_decide as H; [intros [= <-]; by rewrite <- H | clear H]). done.
    + intros ->. by destruct c.
  - split.
    + unfold FileStructureCommand_from_str. cbn [List.find].
      repeat (case_bool_decide as H; [done | revert H]).
      intros ?? _ c. by destruct c.
    + intros Hall. unfold FileStructureCommand_from_str. cbn [List.find].
      repeat (case_bool_decide as H; [symmetry in H; by apply Hall in H | clear H]). done.
Qed.

Lemma entry_at_lookup (d : gmap Path entry) (p : Path) :
  parts p ≠ [] → entry_at d p = d !! p.
Proof. intros Hp. unfold entry_at. by rewrite decide_False. Qed.

Lemma remove_leaf (p : Path) (prompt : bool) (w : World) :
  parts p ≠ [] →
  (∃ content, disk w !! p = Some (File content))
  ∨ (disk w !! p = Some Dir ∧ omap (child_name p) (elements (dom (disk w))) = []) →
  _remove p prompt w = (MkWorld (delete p (disk w)) (stdin w), Ok ()).
Proof.
  intros Hp Hcase.
  unfold _remove, mbind, IO_bind, Path_is_dir, os_rmdir, os_listdir, os_remove.
  destruct Hcase as [[content Hfile]|[Hdir Hempty]].
  - rewrite <- entry_at_lookup in Hfile by done.
    rewrite Hfile, bool_decide_eq_false_2 by done. by rewrite Hfile.
  - rewrite <- entry_at_lookup in Hdir by done.
    rewrite Hdir, bool_decide_eq_true_2 by done. cbv beta iota.
    rewrite Hdir, Hempty. cbn [length]. rewrite decide_True by done.
    unfold mbind, IO_bind. rewrite Hdir, Hempty.
    rewrite decide_False; [done |]. by intros [?|?].
Qed.

(** X20. On a file and on an empty directory [_remove] deletes that entry
    and nothing else, with and without the prompt, and reads no input. *)
Theorem remove_file_or_empty_directory (p : Path) (prompt : bool) (w : World) :
  parts p ≠ [] →
  (∃ content, disk w !! p = Some (File content))
  ∨ (disk w !! p = Some Dir ∧ omap (child_name p) (elements (dom (disk w))) = []) →
  _remove p prompt w = (MkWorld (delete p (disk w)) (stdin w), Ok ()).
Proof. apply remove_leaf. Qed.

Lemma remove_file_or_empty_directory_witness :
  _remove (T // "xyz" // "x.txt") false
    (MkWorld {[ T := Dir; T // "xyz" := Dir; T // "xyz" // "x.txt" := File "hello" ]} []) =
  (MkWorld (delete (T // "xyz" // "x.txt")
              {[ T := Dir; T // "xyz" := Dir; T // "xyz" // "x.txt" := File "hello" ]}) [],
   Ok ()).
Proof.
  refine (remove_file_or_empty_directory (T // "xyz" // "x.txt") false
            (MkWorld {[ T := Dir; T // "xyz" := Dir;
                        T // "xyz" // "x.txt" := File "hello" ]} []) _ _).
  - done.
  - left. exists "hello". vm_compute. reflexivity.
Defined.

(** X21. With the prompt, the answer [y] (in either case, with blanks
    around it) or an empty answer removes a directory that is not empty
    together with everything below it; the entries elsewhere stay, and one
    line of input is used. *)
Theorem remove_confirmed (p : Path) (w : World) (line : str) (rest : list str) :
  parts p ≠ [] →
  disk w !! p = Some Dir →
  omap (child_name p) (elements (dom (disk w))) ≠ [] →
  stdin w = line :: rest →
  Py.lower (Py.strip line) = [] ∨ Py.lower (Py.strip line) = "y" →
  ∃ d, _remove p true w = (MkWorld d rest, Ok ()) ∧
       d !! p = None ∧
       (∀ q, below p q → d !! q = None) ∧
       (∀ q, q ≠ p → ¬ below p q → d !! q = disk w !! q).
Proof.
  intros Hp Hdir Hfull Hin Hyes.
  exists (delete p (filter (λ kv, ¬ below p kv.1) (disk w))). split_and!.
  - rewrite <- entry_at_lookup in Hdir by done.
    unfold _remove, mbind, IO_bind, Path_is_dir, os_listdir, input, shutil_rmtree.
    rewrite Hdir, bool_decide_eq_true_2 by done. cbv beta iota. rewrite Hdir.
    destruct (decide _) as [Hlen|_]; [by apply length_zero_iff_nil in Hlen |].
    rewrite Hin. rewrite decide_True by done. cbn [disk stdin].
    rewrite Hdir. by rewrite decide_False.
  - apply lookup_delete_eq.
  - intros q Hq. rewrite lookup_delete_ne by (intros ->; by destruct Hq as (_ & _ & ?)).
    apply map_lookup_filter_None. right. intros e _ Hnot. by apply Hnot.
  - intros q Hne Hq. rewrite lookup_delete_ne by done.
    destruct (disk w !! q) as [e|] eqn:Hlook.
    + by apply map_lookup_filter_Some.
    + apply map_lookup_filter_None. by left.
Qed.

Lemma remove_confirmed_witness :
  ∃ d, _remove (T // "d") true (full_dir_world [" Y " : str]) = (MkWorld d [], Ok ()) ∧
       d !! (T // "d") = None ∧
       (∀ q, below (T // "d") q → d !! q = None) ∧
       (∀ q, q ≠ T // "d" → ¬ below (T // "d") q → d !! q = disk (full_dir_world [" Y " : str]) !! q).
Proof.
  apply (remove_confirmed (T // "d") (full_dir_world [" Y " : str]) " Y " []).
  - done.
  - vm_compute. reflexivity.
  - vm_compute. done.
  - reflexivity.
  - right. vm_compute. reflexivity.
Defined.

Lemma ancestors_parts (p a : Path) : a ∈ ancestors p → parts a ≠ [].
Proof.
  unfold ancestors. intros (i & -> & Hi)%list_elem_of_fmap.
  apply elem_of_seq in Hi. cbn. intros Htake.
  apply (f_equal length) in Htake. rewrite length_take in Htake. cbn in Htake. lia.
Qed.

Lemma makedirs_keeps (d : gmap Path entry) (l : list Path) (q : Path) (e : entry) :
  (∀ a e', a ∈ l → d !! a = Some e' → e' = Dir) →
  d !! q = Some e → foldr (λ a d, <[a:=Dir]> d) d l !! q = Some e.
Proof.
  induction l as [|a l IH]; cbn; intros Hall Hq; [done |].
  destruct (decide (a = q)) as [->|Hne].
  - rewrite lookup_insert_eq. f_equal. symmetry. apply (Hall q); [left | done].
  - rewrite lookup_insert_ne by done. apply IH; [| done].
    intros a' e' Ha'. apply Hall. by right.
Qed.

Lemma absent_but_create_Ok (p : Path) (w w' : World) :
  _absent_but_create p w = (w', Ok ()) →
  entry_at (disk w) p = None ∧
  entry_at (disk w') p = Some (if _is_seemingly_dir (Path_str p) then Dir else File []) ∧
  stdin w' = stdin w ∧
  ∀ q e, entry_at (disk w) q = Some e → entry_at (disk w') q = Some e.
Proof.
  unfold _absent_but_create, mbind, IO_bind, Path_exists, lift, assert.
  case_bool_decide as Hex; cbn; [done |].
  assert (entry_at (disk w) p = None) as Habs.
  { destruct (entry_at (disk w) p) eqn:?; [| done]. exfalso. apply Hex. eauto. }
  assert (parts p ≠ []) as Hp.
  { intros Hp. unfold entry_at in Habs. by rewrite decide_True in Habs. }
  assert (disk w !! p = None) as Hlook by (by rewrite <- entry_at_lookup).
  destruct (_is_seemingly_dir (Path_str p)).
  - unfold os_makedirs. rewrite decide_False by done.
    destruct (existsb _ _) eqn:Hfiles; [done |]. intros [= <-]. cbn [disk stdin].
    split_and!; [done | | done |].
    + rewrite entry_at_lookup by done. cbn. apply lookup_insert_eq.
    + intros q e. unfold entry_at. destruct (decide (parts q = [])); [done |].
      apply (makedirs_keeps _ (p :: ancestors p)).
      intros a e' [->|Ha]%elem_of_cons Hae'; [congruence |].
      assert (is_file (disk w) a = false) as Hfile.
      { destruct (is_file (disk w) a) eqn:Hf; [| done].
        assert (existsb (is_file (disk w)) (ancestors p) = true) as Htrue; [| congruence].
        apply existsb_exists. exists a. split; [| done]. by apply list_elem_of_In. }
      unfold is_file in Hfile. rewrite entry_at_lookup, Hae' in Hfile
        by (by eapply ancestors_parts). by destruct e'.
  - unfold open_w_close. rewrite Habs.
    destruct (entry_at (disk w) (parent p)) as [[|?]|]; [| done..].
    intros [= <-]. cbn [disk stdin]. split_and!; [done | | done |].
    + rewrite entry_at_lookup by done. apply lookup_insert_eq.
    + intros q e. unfold entry_at. destruct (decide (parts q = [])); [done |].
      intros Hq. rewrite lookup_insert_ne; [done |]. intros ->. congruence.
Qed.

(** X24. [ABSENT_BUT_CREATE] only adds: when it returns, the path was not
    there before and is there now, as a directory when its name has no
    suffix and as an empty file otherwise; every entry of the disk is kept
    as it was and no input is read. *)
Theorem absent_but_create_adds (p : Path) (prompt : bool) (w w' : World) :
  FileCommand_run ABSENT_BUT_CREATE p prompt w = (w', Ok ()) →
  entry_at (disk w) p = None ∧
  entry_at (disk w') p = Some (if _is_seemingly_dir (Path_str p) then Dir else File []) ∧
  stdin w' = stdin w ∧
  ∀ q e, entry_at (disk w) q = Some e → entry_at (disk w') q = Some e.
Proof. apply absent_but_create_Ok. Qed.

Lemma absent_but_create_adds_witness :
  entry_at (disk empty_world) (T // "xyz") = None ∧
  entry_at {[ T := Dir; T // "xyz" := Dir ]} (T // "xyz") =
    Some (if _is_seemingly_dir (Path_str (T // "xyz")) then Dir else File []) ∧
  [] = stdin empty_world ∧
  ∀ q e, entry_at (disk empty_world) q = Some e →
         entry_at {[ T := Dir; T // "xyz" := Dir ]} q = Some e.
Proof.
  refine (absent_but_create_adds (T // "xyz") true empty_world
            (MkWorld {[ T := Dir; T // "xyz" := Dir ]} []) _).
  vm_compute. reflexivity.
Defined.

(** X25. [CREATE_IF_ABSENT] settles: after it has returned, the path is
    there, so running it again changes nothing, [PRESENT] holds, and
    [ABSENT_BUT_CREATE] raises [AssertionError] without a change. *)
Theorem create_if_absent_settles (p : Path) (prompt : bool) (w w' : World) :
  FileCommand_run CREATE_IF_ABSENT p prompt w = (w', Ok ()) →
  FileCommand_run CREATE_IF_ABSENT p prompt w' = (w', Ok ()) ∧
  FileCommand_run PRESENT p prompt w' = (w', Ok ()) ∧
  FileCommand_run ABSENT_BUT_CREATE p prompt w' = (w', Raise AssertionError).
Proof.
  intros Hrun.
  assert (is_Some (entry_at (disk w') p)) as Hex.
  { revert Hrun. unfold FileCommand_run, mbind, IO_bind, Path_exists at 1.
    case_bool_decide as Hex.
    - by intros [= <-].
    - intros (_ & -> & _)%absent_but_create_Ok. eauto. }
  unfold FileCommand_run, _absent_but_create, mbind, IO_bind, Path_exists, lift, assert.
  by rewrite bool_decide_eq_true_2 by done.
Qed.

Lemma create_if_absent_settles_witness :
  FileCommand_run CREATE_IF_ABSENT (T // "xyz") true
    (MkWorld {[ T := Dir; T // "xyz" := Dir ]} []) =
    (MkWorld {[ T := Dir; T // "xyz" := Dir ]} [], Ok ()) ∧
  FileCommand_run PRESENT (T // "xyz") true (MkWorld {[ T := Dir; T // "xyz" := Dir ]} []) =
    (MkWorld {[ T := Dir; T // "xyz" := Dir ]} [], Ok ()) ∧
  FileCommand_run ABSENT_BUT_CREATE (T // "xyz") true
    (MkWorld {[ T := Dir; T // "xyz" := Dir ]} []) =
    (MkWorld {[ T := Dir; T // "xyz" := Dir ]} [], Raise AssertionError).
Proof.
  refine (create_if_absent_settles (T // "xyz") true empty_world
            (MkWorld {[ T := Dir; T // "xyz" := Dir ]} []) _).
  vm_compute. reflexivity.
Defined.

(** X30. The assertion of a command is checked before its action: when
    the path is missing, [PRESENT], [PRESENT_BUT_REMOVE] and
    [PRESENT_BUT_RECREATE] raise [AssertionError], and when it is there,
    [ABSENT] and [ABSENT_BUT_CREATE] do; the disk and the input are as they
    were. *)
Theorem failed_assertion_changes_nothing (p : Path) (prompt : bool) (w : World) :
  (entry_at (disk w) p = None →
   ∀ c, c = PRESENT ∨ c = PRESENT_BUT_REMOVE ∨ c = PRESENT_BUT_RECREATE →
        FileCommand_run c p prompt w = (w, Raise AssertionError))
  ∧ (is_Some (entry_at (disk w) p) →
     ∀ c, c = ABSENT ∨ c = ABSENT_BUT_CREATE →
          FileCommand_run c p prompt w = (w, Raise AssertionError)).
Proof.
  split.
  - intros Habs c Hc.
    assert (bool_decide (is_Some (entry_at (disk w) p)) = false) as Hex.
    { apply bool_decide_eq_false_2. rewrite Habs. by intros [? [=]]. }
    destruct Hc as [->|[->| ->]];
      unfold FileCommand_run, _present_but_remove, mbind, IO_bind, Path_exists, lift, assert;
      by rewrite Hex.
  - intros Hex' c Hc.
    assert (bool_decide (is_Some (entry_at (disk w) p)) = true) as Hex
      by (by apply bool_decide_eq_true_2).
    destruct Hc as [->| ->];
      unfold FileCommand_run, _absent_but_create, mbind, IO_bind, Path_exists, lift, assert;
      by rewrite Hex.
Qed.

(** ** The helpers *)

Lemma rfind_notin c (s : str) : ¬ (c ∈ s) → Py.rfind c s = None.
Proof.
  intros Hc. unfold Py.rfind. rewrite find_notin; [done |]. by rewrite elem_of_rev.
Qed.

Lemma find_lt c (s : str) i : Py.find c s = Some i → (i < length s)%nat.
Proof.
  revert i. induction s as [|d s IH]; intros i; cbn; [done |].
  destruct (decide (d = c)); [intros [= <-]; lia |].
  destruct (Py.find c s) as [j|]; [| done]. intros [= <-]. specialize (IH j eq_refl). lia.
Qed.

Lemma find_app_skip c (x y : str) :
  ¬ (c ∈ x) → Py.find c (x ++ y) = (λ j, length x + j)%nat <$> Py.find c y.
Proof.
  induction x as [|d x IH]; cbn; intros Hc.
  - by destruct (Py.find c y).
  - apply not_elem_of_cons in Hc as [Hne Hc]. rewrite decide_False by done.
    rewrite IH by done. by destruct (Py.find c y).
Qed.

Lemma rfind_app_notin c (a b : str) : ¬ (c ∈ b) → Py.rfind c (a ++ b) = Py.rfind c a.
Proof.
  intros Hc. unfold Py.rfind. rewrite rev_app_distr.
  rewrite find_app_skip by (by rewrite elem_of_rev).
  destruct (Py.find c (rev a)) as [j|] eqn:Hj; [| done]. cbn. f_equal.
  apply find_lt in Hj. rewrite length_rev in *. rewrite length_app. lia.
Qed.

Lemma rfind_lt c (s : str) i : Py.rfind c s = Some i → (i < length s)%nat.
Proof.
  unfold Py.rfind. destruct (Py.find c (rev s)) as [j|] eqn:Hj; [| done].
  intros [= <-]. apply find_lt in Hj. rewrite length_rev in Hj. lia.
Qed.

(** The index of the last slash when the text is a directory part, empty or
    ending with a slash, and a last component. *)
Lemma sep_index (dir rest : str) :
  dir = [] ∨ (∃ d, dir = d ++ "/") → ¬ ("/"%char ∈ rest) →
  from_option Z.of_nat (-1) (Py.rfind "/" (dir ++ rest)) = Z.of_nat (length dir) - 1.
Proof.
  intros [->|[d ->]] Hrest.
  - cbn [app]. by rewrite rfind_notin.
  - rewrite <- app_assoc. cbn [app list_ascii_of_string].
    rewrite rfind_middle by done. cbn. rewrite length_app. cbn. lia.
Qed.

(** X10. What counts as a directory: a path counts as a file when its last
    component has a dot after a character that is not a dot ([x.txt],
    [a/b.tar.gz]), and as a directory when the last component has no dot
    but leading ones ([xyz], [a.b/c], [.gitignore]). *)
Theorem is_seemingly_dir_by_suffix (dir : str) :
  dir = [] ∨ (∃ d, dir = d ++ "/") →
  (∀ stem ext : str,
     ¬ ("/"%char ∈ stem) → Exists (λ c, c ≠ "."%char) stem →
     ¬ ("/"%char ∈ ext) → ¬ ("."%char ∈ ext) →
     _is_seemingly_dir (dir ++ stem ++ "." ++ ext) = false)
  ∧ (∀ dots name : str,
       Forall (λ c, c = "."%char) dots →
       ¬ ("/"%char ∈ name) → ¬ ("."%char ∈ name) →
       _is_seemingly_dir (dir ++ dots ++ name) = true).
Proof.
  intros Hdir. split.
  - intros stem ext Hstem Hex Hext Hdot.
    unfold _is_seemingly_dir, splitext_ext. rewrite sep_index; [| done |].
    2:{ rewrite elem_of_app. intros [?|[[=]|?]%elem_of_cons]; done. }
    rewrite app_assoc. cbn [app list_ascii_of_string].
    rewrite rfind_middle by done. cbn [from_option]. rewrite length_app.
    rewrite decide_True by lia.
    replace (Z.to_nat (Z.of_nat (length dir) - 1 + 1)) with (length dir) by lia.
    replace (Z.to_nat (Z.of_nat (length dir + length stem)
                       - (Z.of_nat (length dir) - 1 + 1))) with (length stem) by lia.
    rewrite <- app_assoc, drop_app_length, take_app_length.
    rewrite decide_True by done.
    replace (Z.to_nat (Z.of_nat (length dir + length stem))) with (length (dir ++ stem))
      by (rewrite length_app; lia).
    rewrite app_assoc, drop_app_length. by apply bool_decide_eq_false_2.
  - intros dots name Hdots Hname Hdot.
    unfold _is_seemingly_dir, splitext_ext. apply bool_decide_eq_true_2.
    assert (¬ ("/"%char ∈ dots ++ name)) as Hrest.
    { rewrite elem_of_app. intros [Hin|?]; [| done].
      rewrite Forall_forall in Hdots. by apply Hdots in Hin. }
    rewrite sep_index by done.
    destruct dots as [|dot ds _] using rev_ind.
    + cbn [app]. rewrite rfind_app_notin by done.
      destruct (Py.rfind "." dir) as [i|] eqn:Hi; cbn [from_option].
      * apply rfind_lt in Hi. by rewrite decide_False by lia.
      * by rewrite decide_False by lia.
    + apply Forall_app in Hdots as [Hds Hdot'].
      assert (dot = "."%char) as -> by (by inversion Hdot').
      rewrite <- app_assoc. cbn [app]. rewrite app_assoc.
      rewrite rfind_middle by done. cbn [from_option]. rewrite length_app.
      rewrite decide_True by lia.
      replace (Z.to_nat (Z.of_nat (length dir) - 1 + 1)) with (length dir) by lia.
      replace (Z.to_nat (Z.of_nat (length dir + length ds)
                         - (Z.of_nat (length dir) - 1 + 1))) with (length ds) by lia.
      rewrite <- app_assoc, drop_app_length, take_app_length.
      rewrite decide_False; [done |].
      rewrite Exists_exists. intros (c & Hc & Hne). rewrite Forall_forall in Hds.
      by apply Hds in Hc.
Qed.

Lemma is_seemingly_dir_by_suffix_witness :
  _is_seemingly_dir "T/xyz/x.txt" = false ∧ _is_seemingly_dir "T/.gitignore" = true.
Proof.
  destruct (is_seemingly_dir_by_suffix "T/xyz/") as [Hfile _]; [right; by exists "T/xyz" |].
  destruct (is_seemingly_dir_by_suffix "T/") as [_ Hdir]; [right; by exists "T" |].
  split.
  - apply (Hfile "x" "txt").
    + intros H. by repeat (apply elem_of_cons in H as [?|H]; [done |]); apply elem_of_nil in H.
    + by left.
    + intros H. by repeat (apply elem_of_cons in H as [?|H]; [done |]); apply elem_of_nil in H.
    + intros H. by repeat (apply elem_of_cons in H as [?|H]; [done |]); apply elem_of_nil in H.
  - apply (Hdir "." "gitignore").
    + by repeat constructor.
    + intros H. by repeat (apply elem_of_cons in H as [?|H]; [done |]); apply elem_of_nil in H.
    + intros H. by repeat (apply elem_of_cons in H as [?|H]; [done |]); apply elem_of_nil in H.
Defined.

Lemma find_Some_lookup c (s : str) i : Py.find c s = Some i → s !! i = Some c.
Proof.
  revert i. induction s as [|d s IH]; intros i; cbn; [done |].
  destruct (decide (d = c)) as [->|]; [by intros [= <-] |].
  destruct (Py.find c s) as [j|]; [| done]. intros [= <-]. by apply IH.
Qed.

(** X7. [_remove_comments] cuts every line at its first [#] and keeps the
    number of lines: what is left of a line holds no [#], and what was cut
    off is empty or starts with [#]. *)
Theorem remove_comments_cuts (lines : list str) :
  length (_remove_comments lines) = length lines ∧
  ∀ i line, lines !! i = Some line →
    ∃ cut rest : str,
      _remove_comments lines !! i = Some cut ∧ line = cut ++ rest ∧
      ¬ ("#"%char ∈ cut) ∧ (rest = [] ∨ head rest = Some "#"%char).
Proof.
  unfold _remove_comments. split; [apply length_fmap |].
  intros i line Hline. rewrite list_lookup_fmap, Hline. cbn.
  destruct (Py.find "#" line) as [k|] eqn:Hfind.
  - exists (take k line), (drop k line). split_and!; [done | | |].
    + by rewrite take_drop.
    + by apply find_Some_take.
    + right. rewrite head_lookup, lookup_drop, Nat.add_0_r. by apply find_Some_lookup.
  - exists line, []. split_and!; [done | by rewrite app_nil_r | by apply find_None | by left].
Qed.

Lemma drop_blank_head_spec (lines : list str) :
  match drop_blank_head lines with
  | Ok lines' =>
      ∃ k first, lines = k ++ lines' ∧ Forall blank k ∧
                 head lines' = Some first ∧ ¬ blank first
  | Raise e => e = IndexError ∧ Forall blank lines
  end.
Proof.
  induction lines as [|l ls IH]; cbn; [done |].
  destruct (decide (Py.strip l = [])) as [Hl|Hl].
  - destruct (drop_blank_head ls) as [lines'|e].
    + destruct IH as (k & first & -> & Hk & Hhead & Hfirst).
      exists (l :: k), first. split_and!; [done | by constructor | done | done].
    + destruct IH as [-> Hall]. split; [done | by constructor].
  - exists [], l. split_and!; [done | constructor | done | done].
Qed.

(** X8. [_remove_empty_lines] drops the blank lines before the first line
    that is not blank and after the last one, and nothing else; when every
    line is blank (or there is none) it raises [IndexError]. *)
Theorem remove_empty_lines_spec (lines : list str) :
  match _remove_empty_lines lines with
  | Ok lines' =>
      ∃ before after first final,
        lines = before ++ lines' ++ after ∧ Forall blank before ∧ Forall blank after ∧
        head lines' = Some first ∧ ¬ blank first ∧
        last lines' = Some final ∧ ¬ blank final
  | Raise e => e = IndexError ∧ Forall blank lines
  end.
Proof.
  unfold _remove_empty_lines.
  pose proof (drop_blank_head_spec lines) as H1.
  destruct (drop_blank_head lines) as [l1|e]; cbn; [| done].
  destruct H1 as (before & first & -> & Hbefore & Hhead & Hfirst).
  pose proof (drop_blank_head_spec (rev l1)) as H2.
  destruct (drop_blank_head (rev l1)) as [l2|e]; cbn.
  - destruct H2 as (k & final & Hrev & Hk & Hhead2 & Hfinal).
    apply (f_equal (@rev _)) in Hrev. rewrite rev_involutive, rev_app_distr in Hrev.
    subst l1. exists before, (rev k), first, final. split_and!; try done.
    + apply Forall_forall. intros x Hx. rewrite elem_of_rev in Hx.
      rewrite Forall_forall in Hk. by apply Hk.
    + destruct l2 as [|x l2]; [done |]. cbn in Hhead2. injection Hhead2 as ->.
      cbn [rev] in *. destruct (rev l2); cbn in *; congruence.
    + rewrite <- head_rev_last. by rewrite rev_involutive.
  - exfalso. destruct H2 as [_ Hall]. destruct l1 as [|x l1]; [done |].
    cbn in Hhead. injection Hhead as ->. apply Hfirst.
    rewrite Forall_forall in Hall. apply Hall. apply elem_of_rev. left.
Qed.

(** X9. [_parse_normal_line] reads a name and the command written after
    it: [name <k>] gives the name, without the blanks around it and one
    slash at its end, and the command [<k>] stands for.  A line that ends
    with [>] and holds no blank raises [ValueError]. *)
Theorem parse_normal_line_written (name : str) (c : FileCommand) :
  _parse_normal_line (name ++ " " ++ FileCommand_value c) =
    Ok (_remove_trailing_slash_if_exists (Py.strip name), Some c)
  ∧ (∀ line : str, Py.endswith line ">" = true → ¬ (" "%char ∈ line) →
       _parse_normal_line line = Raise ValueError).
Proof.
  split.
  - assert (∃ v0, FileCommand_value c = v0 ++ ">" ∧ ¬ (" "%char ∈ FileCommand_value c) ∧
                  Py.strip (FileCommand_value c) = FileCommand_value c ∧
                  FileCommand_from_str (FileCommand_value c) = Ok c)
      as (v0 & Hv0 & Hnospace & Hstrip & Hfrom).
    { destruct c; (eexists [_; _]; split_and!; [reflexivity | | done..]);
        rewrite list_elem_of_In; cbn; intros [?|[?|[?|[]]]]; done. }
    set (v := FileCommand_value c) in *. unfold _parse_normal_line.
    assert (Py.endswith (name ++ " " ++ v) ">" = true) as ->.
    { rewrite Hv0, !app_assoc. apply endswith_app. }
    cbn [app list_ascii_of_string]. rewrite rfind_middle by done.
    rewrite take_app_length.
    replace (drop (length name + 1) (name ++ " "%char :: v)) with v.
    2:{ change (name ++ " "%char :: v) with (name ++ [" "%char] ++ v). rewrite app_assoc.
        rewrite drop_app_length'; [done |]. rewrite length_app. cbn. lia. }
    by rewrite Hstrip, Hfrom.
  - intros line Hend Hblank. unfold _parse_normal_line.
    by rewrite Hend, rfind_notin.
Qed.

Lemma for_each_remove_files (prompt : bool) (l : list Path) (d : gmap Path entry)
    (i : list str) :
  NoDup l →
  (∀ q, q ∈ l → parts q ≠ [] ∧ ∃ content, d !! q = Some (File content)) →
  for_each l (λ current_path, _remove current_path prompt) (MkWorld d i) =
  (MkWorld (foldl (λ d q, delete q d) d l) i, Ok ()).
Proof.
  intros Hnodup. revert d. induction Hnodup as [|q l Hq _ IH]; intros d Hfiles; [done |].
  cbn [for_each foldl]. unfold mbind at 1. unfold IO_bind.
  destruct (Hfiles q) as [Hp Hfile]; [left |].
  rewrite (remove_leaf q prompt (MkWorld d i)) by (done || by left).
  cbn [disk stdin]. apply IH. intros q' Hq'.
  destruct (Hfiles q') as [Hp' [content Hfile']]; [by right |].
  split; [done |]. exists content. rewrite lookup_delete_ne; [done |]. by intros ->.
Qed.

Lemma foldl_delete_lookup (l : list Path) (d : gmap Path entry) (q : Path) :
  foldl (λ d q, delete q d) d l !! q = if decide (q ∈ l) then None else d !! q.
Proof.
  revert d. induction l as [|a l IH]; intros d; cbn [foldl].
  - by rewrite decide_False by apply not_elem_of_nil.
  - rewrite IH. destruct (decide (q ∈ l)) as [Hin|Hin].
    + by rewrite decide_True by (by right).
    + destruct (decide (a = q)) as [->|Hne].
      * rewrite decide_True by left. apply lookup_delete_eq.
      * rewrite decide_False by (by intros [->|?]%elem_of_cons).
        by apply lookup_delete_ne.
Qed.

(** X28. [REMOVE_EVERYTHING_ELSE] on a directory whose entries outside the
    declared paths are all files removes exactly those files: it returns,
    reads no input, and every other entry of the disk is as it was. *)
Theorem remove_everything_else_files (path : Path) (paths : list Path) (prompt : bool)
    (w : World) :
  let names := omap (child_name path) (elements (dom (disk w))) in
  let everything_else : gset Path :=
    list_to_set ((λ filename, path // filename) <$> names) ∖ list_to_set paths in
  entry_at (disk w) path = Some Dir →
  (∀ q, q ∈ everything_else → parts q ≠ [] ∧ ∃ content, disk w !! q = Some (File content)) →
  ∃ d, FileStructureCommand_run REMOVE_EVERYTHING_ELSE path paths prompt w =
         (MkWorld d (stdin w), Ok ()) ∧
       ∀ q, d !! q = if decide (q ∈ everything_else) then None else disk w !! q.
Proof.
  intros names everything_else Hdir Hfiles.
  exists (foldl (λ d q, delete q d) (disk w) (elements everything_else)). split.
  - unfold FileStructureCommand_run, mbind, IO_bind, Path_exists, os_listdir.
    rewrite Hdir, bool_decide_eq_true_2 by eauto. cbn [negb]. rewrite Hdir.
    fold names. fold everything_else. destruct w as [d i]. cbn [disk stdin] in *.
    apply for_each_remove_files; [apply NoDup_elements |].
    intros q Hq. apply Hfiles. by apply elem_of_elements.
  - intros q. rewrite foldl_delete_lookup.
    destruct (decide (q ∈ everything_else)) as [Hin|Hin].
    + by rewrite decide_True by (by apply elem_of_elements).
    + by rewrite decide_False by (by rewrite elem_of_elements).
Qed.

Lemma remove_everything_else_files_witness :
  ∃ d, FileStructureCommand_run REMOVE_EVERYTHING_ELSE T [T // "a.txt"] false
         two_files_world = (MkWorld d [], Ok ()) ∧
       ∀ q, d !! q =
            if decide (q ∈ (list_to_set ((λ filename, T // filename) <$>
                                omap (child_name T) (elements (dom (disk two_files_world))))
                            ∖ list_to_set [T // "a.txt"] : gset Path))
            then None else disk two_files_world !! q.
Proof.
  pose proof (remove_everything_else_files T [T // "a.txt"] false two_files_world) as H.
  cbv zeta in H. apply H; clear H.
  - reflexivity.
  - intros q [Hq Hnot]%elem_of_difference.
    apply elem_of_list_to_set in Hq. rewrite elem_of_list_to_set in Hnot.
    assert (omap (child_name T) (elements (dom (disk two_files_world))) =
            [("a.txt" : str); ("b.txt" : str)]) as Hnames by (vm_compute; reflexivity).
    rewrite Hnames in Hq. cbn [fmap list_fmap] in Hq.
    apply elem_of_cons in Hq as [->|Hq]; [exfalso; apply Hnot; left |].
    clear Hnot Hnames.
    apply elem_of_cons in Hq as [->|Hq]; [| apply elem_of_nil in Hq; destruct Hq].
    split; [vm_compute; discriminate |]. exists "b". vm_compute. reflexivity.
Defined.

(** ** The constructor, line by line *)

Lemma lazy_reads_header_command fuel nls il (p : Path) c block prompt sub :
  Path_chars plain p → Forall (Forall no_linebreak) block →
  FileStructure_lazy fuel
    (Py.join Py.newline (header_line nls il p (Some c) :: block)) prompt = Ok sub →
  main_dir_file_command sub = Some c.
Proof.
  destruct fuel as [|fuel]; [done |]. cbn [FileStructure_lazy].
  apply build_reads_header_command.
Qed.

(** X5. A command written after a name goes with the child the line
    declares: an ordinary file keeps it next to it in
    [list_dir_file_commands]; for a directory the entry there is [None] and
    the nested structure carries the command as its own; so for every name
    of a list. *)
Theorem process_line_places_command (fuel : nat) (self : FileStructure)
    (lines : list str) (line_no : nat) (ni nls il : Z)
    (self' : FileStructure) (line_no' : nat) (flag : bool) (line0 : str) (c : FileCommand) :
  Forall (Forall plain) lines → Path_chars plain (main_dir self) →
  lines !! line_no = Some line0 → written_command line0 = Some c →
  process_line (FileStructure_lazy fuel) self lines line_no ni nls il =
    Ok (self', line_no', flag) →
  ∃ new,
    list_dir self' = list_dir self ++ new ∧
    list_dir_file_commands self' =
      list_dir_file_commands self ++ replicate (length new) (if flag then Some c else None) ∧
    Forall (carries_command c flag) new.
Proof.
  intros Hlines Hmain Hline0 Hwritten (line0' & Hline0' & Hcases)%process_line_inv.
  rewrite Hline0 in Hline0'. injection Hline0' as <-. cbv zeta in Hcases.
  assert (Forall plain (Py.strip line0)) as Hline.
  { apply Forall_strip. rewrite Forall_forall in Hlines. apply Hlines.
    by eapply list_elem_of_lookup_2. }
  assert (Forall (Forall no_linebreak) (block_lines (drop (line_no + 1) lines) ni nls il))
    as Hblock.
  { apply block_lines_Forall, Forall_drop.
    eapply Forall_impl; [exact Hlines | apply Forall_plain_no_linebreak]. }
  destruct self as [pr m cmd sc l lc d run]. cbn [main_dir] in Hmain.
  unfold written_command in Hwritten. cbv zeta in Hwritten.
  destruct Hcases as [(Hm & fsc & _ & Hsc & -> & -> & ->)
    |[(Hm & Hl & fs & fc & first & new & Hparse & Hhead & -> & Hflag & Hrest)
     |(Hm & Hl & f & fc & new & Hparse & -> & Hflag & Hrest)]];
    cbn [list_dir list_dir_file_commands prompt main_dir] in *.
  - exists []. by rewrite !app_nil_r.
  - rewrite Hl, Hparse in Hwritten. subst fc. exists new. split; [done |].
    destruct flag.
    + destruct Hrest as [-> _]. rewrite !length_fmap. split; [done |].
      apply Forall_fmap, Forall_fmap, Forall_true. by intros.
    + destruct Hrest as (subs & Hsubs & -> & _).
      rewrite length_fmap, (mapM_Ok_length _ _ _ Hsubs), length_fmap. split; [done |].
      apply Forall_fmap. eapply mapM_Ok_Forall; [| exact Hsubs].
      intros p sub (filename & -> & Hin)%list_elem_of_fmap Hsub. cbn. split; [done |].
      eapply lazy_reads_header_command; [| exact Hblock | exact Hsub].
      apply Path_div_plain; [done |].
      apply Forall_parse_normal_line with (P := plain) in Hparse;
        [| by repeat apply Forall_replace; try apply plain_char].
      apply list_filenames_plain in Hparse. rewrite Forall_forall in Hparse.
      by apply Hparse.
  - rewrite Hl, Hparse in Hwritten. subst fc. exists [new]. split; [done |].
    destruct flag.
    + destruct Hrest as [-> _]. split; [done |]. by repeat constructor.
    + destruct Hrest as (sub & Hsub & -> & _). split; [done |].
      repeat constructor. cbn.
      eapply lazy_reads_header_command; [| exact Hblock | exact Hsub].
      apply Path_div_plain; [done |].
      by apply Forall_parse_normal_line with (P := plain) in Hparse.
Qed.

Lemma process_line_places_command_witness :
  ∃ new,
    list_dir (example_root false) = list_dir example_start ++ new ∧
    list_dir_file_commands (example_root false) =
      list_dir_file_commands example_start ++ replicate (length new) None ∧
    Forall (carries_command CREATE_IF_ABSENT false) new.
Proof.
  refine (process_line_places_command 3 example_start example_lines 1 1 0 2
            (example_root false) 3 false "  xyz <6>" CREATE_IF_ABSENT _ _ _ _ _).
  - repeat first [apply Forall_nil_2 | apply Forall_cons_2 | split; [reflexivity | discriminate]].
  - split; repeat first [apply Forall_nil_2 | apply Forall_cons_2
                         | split; [reflexivity | discriminate]].
  - reflexivity.
  - vm_compute. reflexivity.
  - vm_compute. reflexivity.
Defined.

(** ** What the constructor builds *)

Lemma every_nested_app (Q : FileStructure → Prop) l1 l2 :
  every_nested Q l1 → every_nested Q l2 → every_nested Q (l1 ++ l2).
Proof. induction l1 as [|child l1 IH]; cbn; [done |]. intros [??] ?. split; [done | by apply IH]. Qed.

Lemma every_nested_paths (Q : FileStructure → Prop) (paths : list Path) :
  every_nested Q (APath <$> paths).
Proof. induction paths; cbn; [done | by split]. Qed.

Lemma every_nested_subs (Q : FileStructure → Prop) (subs : list FileStructure) :
  Forall Q subs → every_nested Q (AFileStructure <$> subs).
Proof. induction 1; cbn; [done | by split]. Qed.

Lemma every_nested_Forall (Q : FileStructure → Prop) l :
  every_nested Q l ↔ Forall (nested_all Q) l.
Proof.
  induction l as [|child l IH]; cbn; [by split; [constructor |] |].
  rewrite Forall_cons, IH. by destruct child.
Qed.

Lemma register_lookup (filenames : list str) (base : nat) (d : gmap str nat)
    (name : str) (i : nat) :
  register filenames base d !! name = Some i →
  d !! name = Some i ∨ ∃ j, filenames !! j = Some name ∧ i = (base + j)%nat.
Proof.
  revert base d. induction filenames as [|f rest IH]; intros base d; cbn; [by left |].
  intros [Hd|(j & Hj & ->)]%IH.
  - destruct (decide (f = name)) as [->|Hne].
    + rewrite lookup_insert_eq in Hd. injection Hd as <-. right. exists 0%nat.
      split; [done | lia].
    + rewrite lookup_insert_ne in Hd by done. by left.
  - right. exists (S j). split; [done | lia].
Qed.

Lemma process_line_built rec pr self lines line_no ni nls il self' line_no' flag :
  (∀ t pr' s, rec t pr' = Ok s → as_built pr' s) →
  as_built pr self →
  process_line rec self lines line_no ni nls il = Ok (self', line_no', flag) →
  as_built pr self'.
Proof.
  intros Hrec Hself (line0 & Hline0 & Hcases)%process_line_inv. cbv zeta in Hcases.
  destruct self as [pr0 m c sc l lc d run]. destruct Hself as (-> & -> & Hdict & Hnested).
  destruct Hcases as [(Hm & fsc & _ & Hsc & -> & -> & ->)
    |[(Hm & Hl & fs & fc & first & new & Hparse & Hhead & -> & Hflag & Hrest)
     |(Hm & Hl & f & fc & new & Hparse & -> & Hflag & Hrest)]];
    cbn [as_built list_dir list_dir_file_commands prompt main_dir dict_dir commands_run
         main_dir_file_command main_dir_file_structure_command] in *.
  - done.
  - split_and!; [done | done | |].
    + intros name i [Hold|(j & Hj & ->)]%register_lookup.
      * destruct (Hdict name i Hold) as (child & Hchild & Hpath).
        exists child. split; [| done]. by apply lookup_app_l_Some.
      * apply lookup_take_Some in Hj as [Hj Hlt].
        destruct (new !! j) as [child|] eqn:Hnew; [| by apply lookup_ge_None in Hnew; lia].
        exists child. split.
        { rewrite lookup_app_r by lia. by replace (length l + j - length l)%nat with j by lia. }
        intros p ->. destruct flag.
        -- destruct Hrest as [-> _]. rewrite !list_lookup_fmap, Hj in Hnew. cbn in Hnew.
           by injection Hnew as <-.
        -- destruct Hrest as (subs & _ & -> & _). rewrite list_lookup_fmap in Hnew.
           by destruct (subs !! j).
    + apply every_nested_app; [done |]. destruct flag.
      * destruct Hrest as [-> _]. apply every_nested_paths.
      * destruct Hrest as (subs & Hsubs & -> & _). apply every_nested_subs.
        eapply mapM_Ok_Forall; [| exact Hsubs]. intros x y _. apply Hrec.
  - split_and!; [done | done | |].
    + intros name i Hlook. destruct (decide (f = name)) as [->|Hne].
      * rewrite lookup_insert_eq in Hlook. injection Hlook as <-.
        exists new. split; [by rewrite lookup_app_r, Nat.sub_diag by lia |].
        intros p ->. destruct flag; [by destruct Hrest as [[= <-] _] |].
        by destruct Hrest as (sub & _ & [=] & _).
      * rewrite lookup_insert_ne in Hlook by done.
        destruct (Hdict name i Hlook) as (child & Hchild & Hpath).
        exists child. split; [| done]. by apply lookup_app_l_Some.
    + apply every_nested_app; [done |]. destruct flag.
      * destruct Hrest as [-> _]. by cbn.
      * destruct Hrest as (sub & Hsub & -> & _). cbn. split; [| done]. by eapply Hrec.
Qed.

Lemma lines_loop_built rec pr turns :
  ∀ self lines nls il line_no pn pf self',
  (∀ t pr' s, rec t pr' = Ok s → as_built pr' s) →
  as_built pr self →
  lines_loop rec turns self lines nls il line_no pn pf = Ok self' →
  as_built pr self'.
Proof.
  induction turns as [|turns IH]; intros self lines nls il line_no pn pf self' Hrec Hself;
    rewrite lines_loop_eq; destruct (lines !! line_no) as [line|];
    try done; try (by intros [= <-]).
  intros (ni & _ & H)%bind_Ok. destruct (decide (ni = 1)) as [->|]; [| done].
  apply bind_Ok in H as ([[self1 n1] f1] & Hpl & Hloop).
  eapply IH; [done | | exact Hloop]. by eapply process_line_built.
Qed.

Lemma build_built rec structure prompt self :
  (∀ t pr' s, rec t pr' = Ok s → as_built pr' s) →
  FileStructure_build rec structure prompt = Ok self → as_built prompt self.
Proof.
  intros Hrec (lines & first_line & mdp & fc & _ & _ & _ & _ & _ & H)%build_inv.
  cbv zeta in H.
  assert (as_built prompt (MkFileStructure prompt (Path_of_str mdp) fc None [] [] ∅ false))
    as Hstart by (cbn; split_and!; done).
  destruct (decide _); [| by subst self].
  apply process_lines_inv in H as (l0 & l1 & rest & -> & _ & Hloop).
  eapply lines_loop_built; [done | exact Hstart | exact Hloop].
Qed.

Lemma FileStructure_lazy_built fuel :
  ∀ structure prompt self,
  FileStructure_lazy fuel structure prompt = Ok self → as_built prompt self.
Proof.
  induction fuel as [|fuel IH]; intros structure prompt self; [done |].
  cbn [FileStructure_lazy]. apply build_built. apply IH.
Qed.

Lemma as_built_unmark pr self : as_built pr self → unmark self = self.
Proof.
  induction self as [pr0 m c sc l lc d run Hall] using FileStructure_nested_ind.
  intros (-> & -> & _ & Hnested). cbn [unmark]. f_equal.
  apply every_nested_Forall in Hnested.
  induction Hall as [|child l Hchild _ IH]; [done |].
  apply Forall_cons in Hnested as [Hc Hl]. cbn [fmap list_fmap]. f_equal; [| by apply IH].
  destruct child as [p|s]; [done |]. cbn. f_equal. by apply Hchild.
Qed.

Lemma as_built_steps pr self :
  as_built pr self → Forall (λ s, step_prompt s = pr) (steps self).
Proof.
  induction self as [pr0 m c sc l lc d run Hall] using FileStructure_nested_ind.
  intros (-> & -> & _ & Hnested). cbn [steps]. apply Forall_app. split.
  - unfold own_steps. cbn. destruct sc, c; by repeat constructor.
  - apply every_nested_Forall in Hnested. clear d. revert lc.
    induction Hall as [|child l Hchild _ IH]; intros lc; [done |].
    apply Forall_cons in Hnested as [Hc Hl]. destruct lc as [|fc lc]; [done |].
    cbn [child_steps]. apply Forall_app. split; [| by apply IH].
    destruct child as [p|s]; [destruct fc; by repeat constructor |]. by apply Hchild.
Qed.

(** X6. What the constructor returns with [lazy_commands=True] has not
    run anything, at any depth, and every command its run will execute
    is given the [prompt] flag of the constructor call. *)
Theorem parse_passes_prompt_down (structure : str) (prompt : bool) (self : FileStructure) :
  parse structure prompt = Ok self →
  unmark self = self ∧ Forall (λ s, step_prompt s = prompt) (steps self).
Proof.
  intros Hparse%FileStructure_lazy_built. split.
  - by eapply as_built_unmark.
  - by apply as_built_steps.
Qed.

Lemma parse_passes_prompt_down_witness :
  unmark (example_root false) = example_root false ∧
  Forall (λ s, step_prompt s = true) (steps (example_root false)).
Proof.
  apply (parse_passes_prompt_down example_text true (example_root false)).
  vm_compute. reflexivity.
Defined.

(** X12. In a structure the constructor has returned, a declared name is
    looked up successfully: the result is the path of the child declared
    under that name, which for an ordinary file is the path of the name in
    the directory. *)
Theorem getitem_declared_name (structure : str) (prompt : bool) (self : FileStructure)
    (key : str) (i : nat) :
  parse structure prompt = Ok self →
  key ≠ [] → ¬ ("/"%char ∈ key) → dict_dir self !! key = Some i →
  ∃ child,
    list_dir self !! i = Some child ∧
    __getitem__ self key = Ok (APath (_as_path child)) ∧
    ∀ p, child = APath p → p = main_dir self // key.
Proof.
  intros Hparse%FileStructure_lazy_built Hne Hslash Hdict.
  destruct self as [pr m c sc l lc d run]. destruct Hparse as (_ & _ & Hd & _).
  cbn [dict_dir list_dir main_dir] in *.
  destruct (Hd key i Hdict) as (child & Hchild & Hpath).
  exists child. split_and!; [done | | done].
  unfold __getitem__. cbn [getitem_fuel]. rewrite getitem_body_no_slash by done.
  cbn [dict_dir list_dir]. by rewrite Hdict, Hchild.
Qed.

Lemma getitem_declared_name_witness :
  ∃ child,
    list_dir (example_xyz false) !! 0%nat = Some child ∧
    __getitem__ (example_xyz false) "x.txt" = Ok (APath (_as_path child)) ∧
    ∀ p, child = APath p → p = main_dir (example_xyz false) // "x.txt".
Proof.
  apply (getitem_declared_name ("T/xyz <6>" ++ Py.newline ++ "  x.txt <4>") true).
  - vm_compute. reflexivity.
  - done.
  - intros H. by repeat (apply elem_of_cons in H as [?|H]; [done |]); apply elem_of_nil in H.
  - vm_compute. reflexivity.
Defined.

Lemma strip_leading_slashes_Ok (key k : str) :
  strip_leading_slashes key = Ok k →
  k ≠ [] ∧ head k ≠ Some "/"%char ∧ ∃ n, key = replicate n "/"%char ++ k.
Proof.
  induction key as [|c key IH]; cbn; [done |].
  destruct (decide (c = "/"%char)) as [->|Hne].
  - intros (Hk & Hhead & n & ->)%IH. split_and!; [done | done |]. by exists (S n).
  - intros [= <-]. split_and!; [done | by intros [= ->] | by exists 0%nat].
Qed.

Lemma strip_trailing_slashes_Ok (key k : str) :
  strip_trailing_slashes key = Ok k →
  k ≠ [] ∧ ∃ n, key = k ++ replicate n "/"%char.
Proof.
  unfold strip_trailing_slashes.
  intros (k' & (Hk' & _ & n & Hrev)%strip_leading_slashes_Ok & [= <-])%bind_Ok. split.
  - intros H. apply (f_equal (@rev _)) in H. by rewrite rev_involutive in H.
  - exists n. apply (f_equal (@rev _)) in Hrev.
    by rewrite rev_involutive, rev_app_distr, rev_replicate in Hrev.
Qed.

Lemma split_head_nil c (s : str) rest :
  Py.split c s = [] :: rest → s = [] ∨ head s = Some c.
Proof.
  destruct s as [|d s]; cbn; [by left |].
  destruct (decide (d = c)) as [->|Hne]; [by right |].
  by destruct (Py.split c s).
Qed.

Lemma unmark_eq_fields self self0 :
  unmark self = unmark self0 →
  dict_dir self = dict_dir self0 ∧ length (list_dir self) = length (list_dir self0).
Proof.
  destruct self as [pr m c sc l lc d run], self0 as [pr0 m0 c0 sc0 l0 lc0 d0 run0].
  cbn [unmark dict_dir list_dir]. intros [= _ _ _ _ Hl _ ->]. split; [done |].
  apply (f_equal length) in Hl. by rewrite !length_fmap in Hl.
Qed.

(** X14. In an object the constructor has returned, before a run or after
    runs, a key that still has a slash after the slashes around it are
    dropped always raises: [TypeError] when its first segment is declared
    (the lookup of the first segment gives a path, in which the next
    segment is then looked up), [KeyError] when it is not. *)
Theorem getitem_nested_key_raises (structure : str) (prompt : bool)
    (self0 self : FileStructure) (key k1 k2 : str) :
  parse structure prompt = Ok self0 → unmark self = unmark self0 →
  ¬ (key = [] ∨ key = "/") →
  strip_leading_slashes key = Ok k1 →
  strip_trailing_slashes k1 = Ok k2 →
  "/"%char ∈ k2 →
  ∃ first rest,
    Py.split "/" k2 = first :: rest ∧ rest ≠ [] ∧
    (is_Some (dict_dir self !! first) →
     (∃ p, __getitem__ self first = Ok (APath p)) ∧
     __getitem__ self key = Raise TypeError) ∧
    (dict_dir self !! first = None →
     __getitem__ self first = Raise KeyError ∧
     __getitem__ self key = Raise KeyError).
Proof.
  intros Hparse%FileStructure_lazy_built Hsame Hkey H1 H2 Hin.
  apply unmark_eq_fields in Hsame as [Hdict Hlen].
  assert (∀ name i, dict_dir self !! name = Some i → is_Some (list_dir self !! i))
    as Hrange.
  { intros name i Hlook. rewrite Hdict in Hlook.
    destruct self0 as [pr m c sc l lc d run]. destruct Hparse as (_ & _ & Hd & _).
    destruct (Hd name i Hlook) as (child & Hchild%lookup_lt_Some & _).
    apply lookup_lt_is_Some. cbn [list_dir] in Hlen. lia. }
  clear Hparse Hdict Hlen.
  destruct (split_elem _ _ Hin) as (first & f1 & rest & Hsplit).
  exists first, (f1 :: rest). split; [done |]. split; [done |].
  assert (first ≠ []) as Hne.
  { intros ->. apply strip_leading_slashes_Ok in H1 as (Hk1 & Hhead & _).
    apply strip_trailing_slashes_Ok in H2 as (Hk2 & n & ->).
    apply split_head_nil in Hsplit as [->|Hh]; [done |].
    apply Hhead. by destruct k2. }
  pose proof (split_head_no_sep _ _ _ _ Hsplit) as Hslash.
  assert (__getitem__ self key =
          v ← __getitem__ self first;
          (match v with APath _ => Raise TypeError | AFileStructure _ => Raise OutOfFuel end))
    as Hkey'.
  { unfold __getitem__. cbn [getitem_fuel]. unfold getitem_body at 1.
    destruct (decide _) as [?|_]; [done |].
    rewrite H1. unfold mbind, result_bind at 1. rewrite H2.
    unfold mbind, result_bind at 1.
    unfold Py.contains. rewrite bool_decide_eq_true_2 by done. rewrite Hsplit.
    cbn [subscript_all subscript]. rewrite !getitem_body_no_slash by done.
    destruct (dict_dir self !! first) as [i|]; [| done].
    by destruct (list_dir self !! i). }
  assert (__getitem__ self first =
          match dict_dir self !! first with
          | None => Raise KeyError
          | Some i =>
              path_or_file_structure ← from_option Ok (Raise IndexError) (list_dir self !! i);
              mret (APath (_as_path path_or_file_structure))
          end) as Hfirst.
  { unfold __getitem__. cbn [getitem_fuel]. by apply getitem_body_no_slash. }
  split.
  - intros [i Hi]. rewrite Hkey', Hfirst, Hi.
    destruct (Hrange first i Hi) as [child ->]. cbn. eauto.
  - intros Hnone. by rewrite Hkey', Hfirst, Hnone.
Qed.

Lemma getitem_nested_key_raises_witness :
  ∃ first rest,
    Py.split "/" "xyz/x.txt" = first :: rest ∧ rest ≠ [] ∧
    (is_Some (dict_dir (example_root true) !! first) →
     (∃ p, __getitem__ (example_root true) first = Ok (APath p)) ∧
     __getitem__ (example_root true) "xyz/x.txt" = Raise TypeError) ∧
    (dict_dir (example_root true) !! first = None →
     __getitem__ (example_root true) first = Raise KeyError ∧
     __getitem__ (example_root true) "xyz/x.txt" = Raise KeyError).
Proof.
  apply (getitem_nested_key_raises example_text true (example_root false) (example_root true)
           "xyz/x.txt" "xyz/x.txt" "xyz/x.txt").
  - vm_compute. reflexivity.
  - vm_compute. reflexivity.
  - intros [?|?]; done.
  - reflexivity.
  - reflexivity.
  - do 3 right. left.
Defined.

(** ** The texts that describe a structure *)

Lemma mapM_raises {A B} (f : A → result B) (xs : list A) (x : A) (e : exn) :
  x ∈ xs → f x = Raise e → ∃ x' e', x' ∈ xs ∧ f x' = Raise e' ∧ mapM f xs = Raise e'.
Proof.
  induction xs as [|y xs IH]; [by intros ?%elem_of_nil |].
  intros Hin Hx. cbn [mapM]. destruct (f y) as [b|e0] eqn:Hy.
  - apply elem_of_cons in Hin as [->|Hin]; [congruence |].
    destruct (IH Hin Hx) as (x' & e' & Hx' & Hfx' & Hm).
    exists x', e'. split_and!; [by right | done |]. unfold mbind, result_bind. by rewrite Hm.
  - exists y, e0. split_and!; [left | done | done].
Qed.

(** X29. [__repr__] raises when a nested directory holds a nested
    directory: [_repr_simple] calls itself without the argument [parent]
    ([TypeError]), if its assertion on the two paths has not failed
    before. *)
Theorem repr_two_levels_raises (self s s' : FileStructure) :
  AFileStructure s ∈ list_dir self → AFileStructure s' ∈ list_dir s →
  ∃ e, __repr__ self = Raise e ∧ (e = TypeError ∨ e = AssertionError).
Proof.
  intros Hs Hs'.
  assert (∀ parent, ∃ e, _repr_simple s parent = Raise e
                         ∧ (e = TypeError ∨ e = AssertionError)) as Hinner.
  { intros parent. unfold _repr_simple. cbv zeta.
    destruct (Py.startswith _ _); cbn; [| eauto].
    destruct (mapM_raises _repr_simple_child (children s) (AFileStructure s') TypeError)
      as (x' & e' & _ & Hx' & ->); [done | done |].
    exists e'. split; [done |]. left. destruct x'; cbn in Hx'; congruence. }
  destruct (Hinner (path self)) as (e & He & Hclass).
  unfold __repr__.
  edestruct (mapM_raises
               (λ child, match child with
                         | APath p => Ok (tab ++ Path_str p)
                         | AFileStructure s0 =>
                             text ← _repr_simple s0 (path self); mret (tab ++ text)
                         end) (children self) (AFileStructure s) e)
    as (x' & e' & _ & Hx' & ->); [done | by rewrite He |].
  exists e'. split; [done |]. destruct x' as [p|s0]; [done |].
  apply bind_Raise in Hx' as [Hx'|(? & _ & [=])].
  clear He. unfold _repr_simple in Hx'. cbv zeta in Hx'.
  apply bind_Raise in Hx' as [->%assert_Raise|([] & _ & Hx')]; [by right |].
  apply bind_Raise in Hx' as [Hx'|(? & _ & [=])].
  apply mapM_Raise in Hx' as (x & _ & Hx). left. destruct x; cbn in Hx; congruence.
Qed.

Lemma repr_two_levels_raises_witness :
  ∃ e, __repr__ uneven_root = Raise e ∧ (e = TypeError ∨ e = AssertionError).
Proof.
  apply (repr_two_levels_raises uneven_root
           (MkFileStructure true (T // "a") None None
              [AFileStructure (MkFileStructure true (T // "a" // "b") None None [] [] ∅ false)]
              [None] {[ ("b" : str) := 0%nat ]} false)
           (MkFileStructure true (T // "a" // "b") None None [] [] ∅ false)); left.
Defined.
